(** * Agent Twin front end: the voice page, the public voice page, the chat
      page and the onboarding file picker, embedded as state transformers.

    The scripts are event handlers over module-level variables, the DOM and
    a few browser objects (speech recogniser, MediaRecorder, media streams,
    speech synthesiser).  Each handler is embedded as a computation in a
    small monad that threads the page state, may throw a JavaScript value,
    and records, in order, every DOM write and every call to a browser API.
    What the browser or the network answers at an [await] is an argument of
    the handler; where a claim is about the interleaving of two handlers the
    part before the [await] and the part after it are separate definitions. *)

From Stdlib Require Import String Ascii DecimalString.
From Stdlib Require Import Bool Arith ZArith NArith QArith Qround Lia List.
Import ListNotations.

Set Implicit Arguments.
Close Scope Q_scope.
Close Scope Z_scope.
Close Scope N_scope.
Open Scope nat_scope.
Open Scope string_scope.
Open Scope list_scope.

(** ** JavaScript strings *)

(** A JavaScript string is a sequence of UTF-16 code units. *)
Definition jsstring := list N.

Definition js (s : string) : jsstring :=
  map N_of_ascii (list_ascii_of_string s).
Coercion js : string >-> jsstring.

Definition jseqb (a b : jsstring) : bool :=
  if list_eq_dec N.eq_dec a b then true else false.

(** [WhiteSpace] and [LineTerminator] code points of ECMAScript, the
    characters [String.prototype.trim] strips. *)
Definition isWhiteSpace (c : N) : bool :=
  (existsb (N.eqb c)
     [0x9; 0xA; 0xB; 0xC; 0xD; 0x20; 0xA0; 0x1680; 0x2028; 0x2029;
      0x202F; 0x205F; 0x3000; 0xFEFF]%N
   || ((0x2000 <=? c) && (c <=? 0x200A))%N)%bool.

Fixpoint trimStart (s : jsstring) : jsstring :=
  match s with
  | c :: s' => if isWhiteSpace c then trimStart s' else s
  | [] => []
  end.

Definition trim (s : jsstring) : jsstring :=
  rev (trimStart (rev (trimStart s))).

(** Truthiness of a string value: only the empty string is falsy. *)
Definition truthy (s : jsstring) : bool :=
  match s with [] => false | _ => true end.

(** [!text || !text.trim()]. *)
Definition blank (text : jsstring) : bool :=
  negb (truthy text) || negb (truthy (trim text)).

(** A property that may be [null] or [undefined], tested for truthiness:
    the value when it is truthy. *)
Definition truthy_value (o : option jsstring) : option jsstring :=
  match o with
  | Some s => if truthy s then Some s else None
  | None => None
  end.

(** [a || b] on a possibly missing string with a string default. *)
Definition or_else (o : option jsstring) (d : jsstring) : jsstring :=
  match o with
  | Some s => if truthy s then s else d
  | None => d
  end.

(** Decimal rendering of an integer, as in a template literal. *)
Definition string_of_Z (z : Z) : jsstring :=
  js (NilZero.string_of_int (Z.to_int z)).

Definition string_of_N (n : N) : jsstring := string_of_Z (Z.of_N n).

(** ** Conversation turns and the context window *)

Inductive Role := user | assistant.

Record Turn := { role : Role; content : jsstring }.

(** [l.slice(-n)]: the start index is [max (length l - n) 0]. *)
Definition slice_last (A : Type) (n : nat) (l : list A) : list A :=
  skipn (length l - n) l.

(** ** Values thrown and caught *)

Inductive Thrown :=
| JsError (name message : jsstring)   (* an Error or DOMException object *)
| JsString (s : jsstring)             (* a rejected string *)
| JsEvent.                            (* a DOM event used as rejection value *)

(** [error.message]; a string or an event has no such property, and
    concatenating [undefined] to a string prints it as "undefined". *)
Definition message_of (e : Thrown) : jsstring :=
  match e with
  | JsError _ m => m
  | _ => js "undefined"
  end.

(** [el.textContent = error.message]: where the value thrown has no such
    property the assignment of [undefined] leaves the element without
    text. *)
Definition message_text (e : Thrown) : jsstring :=
  match e with
  | JsError _ m => m
  | _ => []
  end.

Definition name_of (e : Thrown) : jsstring :=
  match e with
  | JsError n _ => n
  | _ => js "undefined"
  end.

Definition new_Error (m : jsstring) : Thrown := JsError "Error" m.
Definition TypeError (m : jsstring) : Thrown := JsError "TypeError" m.

(** ** HTTP *)

Record Blob := { blob_data : list Byte.byte; blob_type : jsstring }.

Definition blob_size (b : Blob) : nat := length (blob_data b).

(** [new Blob(parts, {type})] concatenates the parts in order. *)
Definition new_Blob (parts : list Blob) (type : jsstring) : Blob :=
  {| blob_data := concat (map blob_data parts); blob_type := type |}.

Record File := { file_data : list Byte.byte; file_name : jsstring;
                 file_type : jsstring }.

(** [new File([blob], name, {type})]. *)
Definition new_File (parts : list Blob) (name type : jsstring) : File :=
  {| file_data := concat (map blob_data parts); file_name := name;
     file_type := type |}.

Inductive Body :=
| JsonAsk (text : jsstring) (conversation_history : list Turn)
| JsonGenerate (prompt : jsstring) (conversation_history : list Turn)
| FormData (fields : list (jsstring * File)).

Record Request := {
  req_url : jsstring;
  req_method : jsstring;
  req_content_type : option jsstring;
  req_credentials : option jsstring;
  req_body : Body
}.

(** The JSON object of a reply, with the properties the pages read. *)
Record Reply := {
  success : bool;
  response_text : jsstring;        (* ask endpoint *)
  generated_content : jsstring;    (* generate endpoint *)
  audio_url : option jsstring;
  error : option jsstring;
  memory_extracted : bool
}.

Inductive JsonOutcome :=
| JsonOk (data : Reply)
| JsonFail (e : Thrown).          (* response.json() rejects *)

Record Response := {
  ok : bool;
  status : N;
  statusText : jsstring;
  json : JsonOutcome
}.

Inductive FetchOutcome :=
| FetchRejected (e : Thrown)       (* network failure *)
| FetchResolved (r : Response).

(** ** The DOM and the browser objects *)

Inductive Node :=
| MessageDiv (type text : jsstring) (showActions : bool)
| TypingDiv
| FileItem (name : jsstring) (size : N) (index : nat).

Record Element := {
  className : list jsstring;      (* class tokens *)
  textContent : jsstring;
  display : jsstring;             (* style.display *)
  height : jsstring;              (* style.height *)
  value : jsstring;
  disabled : bool;
  children : list Node
}.

Inductive DomWrite :=
| SetClassName (tokens : list jsstring)
| ClassAdd (c : jsstring)
| ClassRemove (c : jsstring)
| SetTextContent (t : jsstring)
| SetDisplay (d : jsstring)
| SetHeight (h : jsstring)
| SetValue (v : jsstring)
| SetDisabled (b : bool)
| ClearChildren                   (* innerHTML = '' *)
| AppendChild (n : Node)
| RemoveChild (n : Node)          (* the first child equal to [n] leaves *)
| ScrollToBottom.                 (* scrollTop = scrollHeight *)

Definition classList_add (c : jsstring) (l : list jsstring) : list jsstring :=
  if existsb (jseqb c) l then l else l ++ [c].

Definition classList_remove (c : jsstring) (l : list jsstring) : list jsstring :=
  filter (fun x => negb (jseqb c x)) l.

Definition is_typing (n : Node) : bool :=
  match n with TypingDiv => true | _ => false end.

Fixpoint remove_first (A : Type) (p : A -> bool) (l : list A) : list A :=
  match l with
  | [] => []
  | x :: l' => if p x then l' else x :: remove_first p l'
  end.

Definition node_eqb (a b : Node) : bool :=
  match a, b with
  | MessageDiv t x s, MessageDiv t' x' s' =>
      jseqb t t' && jseqb x x' && Bool.eqb s s'
  | TypingDiv, TypingDiv => true
  | FileItem n s i, FileItem n' s' i' =>
      jseqb n n' && N.eqb s s' && Nat.eqb i i'
  | _, _ => false
  end.

Definition with_className (c : list jsstring) (e : Element) : Element :=
  {| className := c; textContent := textContent e; display := display e;
     height := height e; value := value e; disabled := disabled e;
     children := children e |}.

Definition with_children (c : list Node) (e : Element) : Element :=
  {| className := className e; textContent := textContent e;
     display := display e; height := height e; value := value e;
     disabled := disabled e; children := c |}.

Definition apply_write (w : DomWrite) (e : Element) : Element :=
  match w with
  | SetClassName t => with_className t e
  | ClassAdd c => with_className (classList_add c (className e)) e
  | ClassRemove c => with_className (classList_remove c (className e)) e
  | SetTextContent t =>
      {| className := className e; textContent := t; display := display e;
         height := height e; value := value e; disabled := disabled e;
         children := children e |}
  | SetDisplay d =>
      {| className := className e; textContent := textContent e; display := d;
         height := height e; value := value e; disabled := disabled e;
         children := children e |}
  | SetHeight h =>
      {| className := className e; textContent := textContent e;
         display := display e; height := h; value := value e;
         disabled := disabled e; children := children e |}
  | SetValue v =>
      {| className := className e; textContent := textContent e;
         display := display e; height := height e; value := v;
         disabled := disabled e; children := children e |}
  | SetDisabled b =>
      {| className := className e; textContent := textContent e;
         display := display e; height := height e; value := value e;
         disabled := b; children := children e |}
  | ClearChildren => with_children [] e
  | AppendChild n => with_children (children e ++ [n]) e
  | RemoveChild n => with_children (remove_first (node_eqb n) (children e)) e
  | ScrollToBottom => e
  end.

(** The document: element id to element; [None] is what
    [document.getElementById] answers with [null]. *)
Definition Dom := string -> option Element.

Definition dom_set (id : string) (e : option Element) (d : Dom) : Dom :=
  fun id' => if String.eqb id id' then e else d id'.

Inductive TrackState := live | ended.

(** A media stream is the list of its tracks. *)
Definition Stream := list TrackState.

Inductive RecorderState := inactive | recording.

(** A MediaRecorder, with the stream and MIME type its handlers close over. *)
Record Recorder := {
  rec_stream : nat;
  rec_mimeType : jsstring;
  rec_state : RecorderState
}.

Record Utterance := {
  utt_text : jsstring; utt_rate : Q; utt_pitch : Q; utt_volume : Q;
  utt_lang : jsstring
}.

Record Browser := {
  dom : Dom;
  (* the speech recogniser has been started and has not ended *)
  recognizing : bool;
  (* [MediaRecorder.isTypeSupported]; [None]: MediaRecorder is not defined *)
  isTypeSupported : option (jsstring -> bool);
  streams : list Stream;
  recorders : list Recorder;
  (* the utterance queue of [window.speechSynthesis], the head being
     spoken; [None]: the property is missing from [window] *)
  speechSynthesis : option (list Utterance);
  nextTimer : nat
}.

(** ** Effects: every DOM write and browser call, in program order *)

Inductive Effect :=
| Dom_ (id : string) (w : DomWrite)
| Fetch (r : Request)
| RecognitionStart
| RecognitionStop
| AudioPlay (src : jsstring)
| GetUserMedia
| MediaRecorderNew (rec stream : nat) (mimeType : jsstring)
| MediaRecorderStart (rec : nat) (timeslice : N)
| MediaRecorderStop (rec : nat)
| TrackStop (stream track : nat)
| SetInterval (timer : nat) (ms : N)
| ClearInterval (timer : nat)
| ReloadAfter (ms : N)                       (* setTimeout: reload *)
| AddMessageAfter (ms : N) (type text : jsstring)  (* setTimeout: addMessage *)
| SpeechCancel
| SpeechSpeak (u : Utterance).

(** ** The handler monad: state, exceptions, effect log *)

Inductive Res (A : Type) :=
| Ok (a : A)
| Throw (e : Thrown).
Arguments Throw {A} e.

(** The page state: the script's variables and the browser. *)
Record State (V : Type) := { vars : V; browser : Browser }.

Definition M (V A : Type) : Type := State V -> Res A * State V * list Effect.

Definition ret {V A} (a : A) : M V A := fun s => (Ok a, s, []).

Definition bind {V A B} (m : M V A) (k : A -> M V B) : M V B :=
  fun s =>
    match m s with
    | (Ok a, s', l) =>
        match k a s' with (r, s'', l') => (r, s'', l ++ l') end
    | (Throw e, s', l) => (Throw e, s', l)
    end.

Definition throw {V A} (e : Thrown) : M V A := fun s => (Throw e, s, []).

(** [try { m } catch (error) { h error }]. *)
Definition try_catch {V A} (m : M V A) (h : Thrown -> M V A) : M V A :=
  fun s =>
    match m s with
    | (Ok a, s', l) => (Ok a, s', l)
    | (Throw e, s', l) =>
        match h e s' with (r, s'', l') => (r, s'', l ++ l') end
    end.

Definition get_vars {V} : M V V := fun s => (Ok (vars s), s, []).

Definition modify_vars {V} (f : V -> V) : M V unit :=
  fun s => (Ok tt, {| vars := f (vars s); browser := browser s |}, []).

Definition get_browser {V} : M V Browser := fun s => (Ok (browser s), s, []).

Definition modify_browser {V} (f : Browser -> Browser) : M V unit :=
  fun s => (Ok tt, {| vars := vars s; browser := f (browser s) |}, []).

Definition emit {V} (e : Effect) : M V unit := fun s => (Ok tt, s, [e]).

Declare Scope js_scope.
Delimit Scope js_scope with js.
Notation "x <- m ;; k" := (bind m (fun x => k))
  (at level 61, m at next level, right associativity) : js_scope.
Notation "m ;; k" := (bind m (fun _ => k))
  (at level 61, right associativity) : js_scope.
Open Scope js_scope.

Definition when {V} (b : bool) (m : M V unit) : M V unit :=
  if b then m else ret tt.

(** [arr.forEach(f)]. *)
Fixpoint forEach {V A} (l : list A) (f : A -> M V unit) : M V unit :=
  match l with
  | [] => ret tt
  | x :: l' => f x ;; forEach l' f
  end.

(** The log, final state and result of a run. *)
Definition result_of {V A} (r : Res A * State V * list Effect) : Res A :=
  fst (fst r).
Definition state_of {V A} (r : Res A * State V * list Effect) : State V :=
  snd (fst r).
Definition log_of {V A} (r : Res A * State V * list Effect) : list Effect :=
  snd r.

(** The empty string and the double quote. *)
Definition empty : jsstring := [].
Definition dquote : jsstring := [34%N].

(** String concatenation, [a + b]. *)
Definition cat (a b : jsstring) : jsstring := a ++ b.
Infix "+++" := cat (at level 60, right associativity) : js_scope.

(** ** Browser primitives *)

Definition set_dom (d : Dom) (b : Browser) : Browser :=
  {| dom := d; recognizing := recognizing b;
     isTypeSupported := isTypeSupported b; streams := streams b;
     recorders := recorders b; speechSynthesis := speechSynthesis b;
     nextTimer := nextTimer b |}.

Definition set_recognizing (r : bool) (b : Browser) : Browser :=
  {| dom := dom b; recognizing := r;
     isTypeSupported := isTypeSupported b; streams := streams b;
     recorders := recorders b; speechSynthesis := speechSynthesis b;
     nextTimer := nextTimer b |}.

Definition set_streams (s : list Stream) (b : Browser) : Browser :=
  {| dom := dom b; recognizing := recognizing b;
     isTypeSupported := isTypeSupported b; streams := s;
     recorders := recorders b; speechSynthesis := speechSynthesis b;
     nextTimer := nextTimer b |}.

Definition set_recorders (r : list Recorder) (b : Browser) : Browser :=
  {| dom := dom b; recognizing := recognizing b;
     isTypeSupported := isTypeSupported b; streams := streams b;
     recorders := r; speechSynthesis := speechSynthesis b;
     nextTimer := nextTimer b |}.

Definition set_speechSynthesis (q : option (list Utterance)) (b : Browser)
  : Browser :=
  {| dom := dom b; recognizing := recognizing b;
     isTypeSupported := isTypeSupported b; streams := streams b;
     recorders := recorders b; speechSynthesis := q;
     nextTimer := nextTimer b |}.

Definition set_nextTimer (n : nat) (b : Browser) : Browser :=
  {| dom := dom b; recognizing := recognizing b;
     isTypeSupported := isTypeSupported b; streams := streams b;
     recorders := recorders b; speechSynthesis := speechSynthesis b;
     nextTimer := n |}.

(** Whether the document has an element with this id. *)
Definition present (d : Dom) (id : string) : bool :=
  match d id with Some _ => true | None => false end.

(** [document.getElementById(id)], as the truth value the scripts test. *)
Definition getElementById {V} (id : string) : M V bool :=
  b <- get_browser ;;
  ret (present (dom b) id).

(** A property write or method call on the element with this id; on
    [null] it is a TypeError. *)
Definition write {V} (id : string) (w : DomWrite) : M V unit :=
  b <- get_browser ;;
  match dom b id with
  | Some e =>
      modify_browser (set_dom (dom_set id (Some (apply_write w e)) (dom b))) ;;
      emit (Dom_ id w)
  | None => throw (TypeError "Cannot set properties of null")
  end.

(** [await fetch(url, init)]: the call is logged, then the promise settles. *)
Definition fetch {V} (r : Request) (o : FetchOutcome) : M V Response :=
  emit (Fetch r) ;;
  match o with
  | FetchRejected e => throw e
  | FetchResolved resp => ret resp
  end.

(** [await response.json()]. *)
Definition response_json {V} (r : Response) : M V Reply :=
  match json r with
  | JsonOk d => ret d
  | JsonFail e => throw e
  end.

(** Replace the [i]th element of a list; out of range nothing changes. *)
Fixpoint list_update (A : Type) (i : nat) (x : A) (l : list A) : list A :=
  match l, i with
  | [], _ => []
  | _ :: l', O => x :: l'
  | y :: l', S i' => y :: list_update i' x l'
  end.

(** [recognition.start()]: InvalidStateError when already started. *)
Definition recognition_start {V} : M V unit :=
  b <- get_browser ;;
  if recognizing b
  then throw (JsError "InvalidStateError" "recognition has already started")
  else modify_browser (set_recognizing true) ;; emit RecognitionStart.

(** [recognition.stop()]: the recogniser ends later, with an [end] event. *)
Definition recognition_stop {V} : M V unit := emit RecognitionStop.

(** [setInterval(f, ms)]. *)
Definition setInterval {V} (ms : N) : M V nat :=
  b <- get_browser ;;
  let id := nextTimer b in
  modify_browser (set_nextTimer (S id)) ;;
  emit (SetInterval id ms) ;;
  ret id.

Definition clearInterval {V} (id : nat) : M V unit := emit (ClearInterval id).

(** What [await navigator.mediaDevices.getUserMedia({audio: true})] gives. *)
Inductive MicOutcome :=
| MicGranted (tracks : nat)      (* a stream with this many live tracks *)
| MicRejected (e : Thrown).

Definition getUserMedia_settle {V} (mic : MicOutcome) : M V nat :=
  match mic with
  | MicGranted n =>
      b <- get_browser ;;
      let id := length (streams b) in
      modify_browser (set_streams (streams b ++ [repeat live n])) ;;
      ret id
  | MicRejected e => throw e
  end.

(** [MediaRecorder.isTypeSupported(t)]; a ReferenceError where the browser
    has no MediaRecorder. *)
Definition MediaRecorder_isTypeSupported {V} (t : jsstring) : M V bool :=
  b <- get_browser ;;
  match isTypeSupported b with
  | Some f => ret (f t)
  | None => throw (JsError "ReferenceError" "MediaRecorder is not defined")
  end.

(** [new MediaRecorder(stream, {mimeType})]; NotSupportedError for a MIME
    type the browser cannot record. *)
Definition new_MediaRecorder {V} (stream : nat) (mimeType : jsstring)
  : M V nat :=
  supported <- MediaRecorder_isTypeSupported mimeType ;;
  if supported then
    b <- get_browser ;;
    let id := length (recorders b) in
    modify_browser (set_recorders (recorders b ++
      [{| rec_stream := stream; rec_mimeType := mimeType;
          rec_state := inactive |}])) ;;
    emit (MediaRecorderNew id stream mimeType) ;;
    ret id
  else throw (JsError "NotSupportedError" "mimeType is not supported").

Definition recorder_set_state (id : nat) (st : RecorderState) (b : Browser)
  : Browser :=
  match nth_error (recorders b) id with
  | Some r =>
      set_recorders
        (list_update id {| rec_stream := rec_stream r;
                           rec_mimeType := rec_mimeType r;
                           rec_state := st |} (recorders b)) b
  | None => b
  end.

(** [rec.start(timeslice)]. *)
Definition MediaRecorder_start {V} (id : nat) (timeslice : N) : M V unit :=
  modify_browser (recorder_set_state id recording) ;;
  emit (MediaRecorderStart id timeslice).

(** [rec.stop()]: the recorder becomes inactive; its [stop] event is
    delivered later. *)
Definition MediaRecorder_stop {V} (id : nat) : M V unit :=
  modify_browser (recorder_set_state id inactive) ;;
  emit (MediaRecorderStop id).

(** [rec.state !== 'inactive']. *)
Definition recorder_active (b : Browser) (id : nat) : bool :=
  match nth_error (recorders b) id with
  | Some r => match rec_state r with recording => true | inactive => false end
  | None => false
  end.

(** [track.stop()] on the track [i] of a stream. *)
Definition track_stop {V} (stream i : nat) : M V unit :=
  modify_browser (fun b =>
    match nth_error (streams b) stream with
    | Some ts => set_streams (list_update stream (list_update i ended ts)
                                (streams b)) b
    | None => b
    end) ;;
  emit (TrackStop stream i).

(** [stream.getTracks().forEach(track => track.stop())]. *)
Definition stop_tracks {V} (stream : nat) : M V unit :=
  b <- get_browser ;;
  match nth_error (streams b) stream with
  | Some tracks => forEach (seq 0 (length tracks)) (track_stop stream)
  | None => ret tt
  end.

(** * The voice page (voice.js) *)

Module Voice.

(** The module-level variables, [window.API_BASE], and the [isPressed]
    variable the listeners of the setup record button close over. *)
Record Vars := {
  API_BASE : jsstring;
  recognition : bool;              (* false: [null] *)
  isRecording : bool;
  conversationHistory : list Turn;
  mediaRecorder : option nat;
  audioChunks : list Blob;
  isRecordingSetup : bool;
  recordingStartTime : option Z;   (* milliseconds; [None]: [null] *)
  recordingTimer : option nat;
  isPressed : bool
}.

Definition set_isRecording (x : bool) (v : Vars) : Vars :=
  {| API_BASE := API_BASE v; recognition := recognition v; isRecording := x;
     conversationHistory := conversationHistory v;
     mediaRecorder := mediaRecorder v; audioChunks := audioChunks v;
     isRecordingSetup := isRecordingSetup v;
     recordingStartTime := recordingStartTime v;
     recordingTimer := recordingTimer v; isPressed := isPressed v |}.

Definition set_conversationHistory (x : list Turn) (v : Vars) : Vars :=
  {| API_BASE := API_BASE v; recognition := recognition v;
     isRecording := isRecording v; conversationHistory := x;
     mediaRecorder := mediaRecorder v; audioChunks := audioChunks v;
     isRecordingSetup := isRecordingSetup v;
     recordingStartTime := recordingStartTime v;
     recordingTimer := recordingTimer v; isPressed := isPressed v |}.

Definition set_mediaRecorder (x : option nat) (v : Vars) : Vars :=
  {| API_BASE := API_BASE v; recognition := recognition v;
     isRecording := isRecording v;
     conversationHistory := conversationHistory v;
     mediaRecorder := x; audioChunks := audioChunks v;
     isRecordingSetup := isRecordingSetup v;
     recordingStartTime := recordingStartTime v;
     recordingTimer := recordingTimer v; isPressed := isPressed v |}.

Definition set_audioChunks (x : list Blob) (v : Vars) : Vars :=
  {| API_BASE := API_BASE v; recognition := recognition v;
     isRecording := isRecording v;
     conversationHistory := conversationHistory v;
     mediaRecorder := mediaRecorder v; audioChunks := x;
     isRecordingSetup := isRecordingSetup v;
     recordingStartTime := recordingStartTime v;
     recordingTimer := recordingTimer v; isPressed := isPressed v |}.

Definition set_isRecordingSetup (x : bool) (v : Vars) : Vars :=
  {| API_BASE := API_BASE v; recognition := recognition v;
     isRecording := isRecording v;
     conversationHistory := conversationHistory v;
     mediaRecorder := mediaRecorder v; audioChunks := audioChunks v;
     isRecordingSetup := x;
     recordingStartTime := recordingStartTime v;
     recordingTimer := recordingTimer v; isPressed := isPressed v |}.

Definition set_recordingStartTime (x : option Z) (v : Vars) : Vars :=
  {| API_BASE := API_BASE v; recognition := recognition v;
     isRecording := isRecording v;
     conversationHistory := conversationHistory v;
     mediaRecorder := mediaRecorder v; audioChunks := audioChunks v;
     isRecordingSetup := isRecordingSetup v;
     recordingStartTime := x;
     recordingTimer := recordingTimer v; isPressed := isPressed v |}.

Definition set_recordingTimer (x : option nat) (v : Vars) : Vars :=
  {| API_BASE := API_BASE v; recognition := recognition v;
     isRecording := isRecording v;
     conversationHistory := conversationHistory v;
     mediaRecorder := mediaRecorder v; audioChunks := audioChunks v;
     isRecordingSetup := isRecordingSetup v;
     recordingStartTime := recordingStartTime v;
     recordingTimer := x; isPressed := isPressed v |}.

Definition set_isPressed (x : bool) (v : Vars) : Vars :=
  {| API_BASE := API_BASE v; recognition := recognition v;
     isRecording := isRecording v;
     conversationHistory := conversationHistory v;
     mediaRecorder := mediaRecorder v; audioChunks := audioChunks v;
     isRecordingSetup := isRecordingSetup v;
     recordingStartTime := recordingStartTime v;
     recordingTimer := recordingTimer v; isPressed := x |}.

(** [conversationHistory.push(t)]. *)
Definition push_turn (t : Turn) (v : Vars) : Vars :=
  set_conversationHistory (conversationHistory v ++ [t]) v.

Definition setWaveformState (state : jsstring) : M Vars unit :=
  waveform <- getElementById "waveform" ;;
  when waveform (
    write "waveform" (SetClassName [js "waveform"]) ;;
    when (truthy state) (write "waveform" (ClassAdd state))).

(** The string [updateStatus] puts into the status icon for a status type.
    The literals of the file are not the pictographs they once were: each is
    a run of Latin letters and signs, whose code units are given here. *)
Definition statusIcon_of (type : jsstring) : jsstring :=
  if jseqb type "listening" then [0xF0; 0x178; 0x17D; 0xA4]%N
  else if jseqb type "processing" then [0xE2; 0x161; 0x2122; 0xEF; 0xB8]%N
  else if jseqb type "speaking" then [0xF0; 0x178; 0x201D; 0x160]%N
  else if jseqb type "error" then [0xE2; 0x152]%N
  else [0xF0; 0x178; 0x17D; 0xA4]%N.

Definition updateStatus (text type : jsstring) : M Vars unit :=
  statusText <- getElementById "statusText" ;;
  statusIcon <- getElementById "statusIcon" ;;
  statusMessage <- getElementById "statusMessage" ;;
  when statusText (write "statusText" (SetTextContent text)) ;;
  when statusMessage (
    write "statusMessage" (SetClassName [js "status-message"]) ;;
    when (negb (jseqb type "ready")) (write "statusMessage" (ClassAdd type))) ;;
  when statusIcon (write "statusIcon" (SetTextContent (statusIcon_of type))).

Definition stopRecording : M Vars unit :=
  v <- get_vars ;;
  if negb (isRecording v) then ret tt else
  modify_vars (set_isRecording false) ;;
  recordBtn <- getElementById "voiceRecordBtn" ;;
  when recordBtn (write "voiceRecordBtn" (ClassRemove "recording")) ;;
  when (recognition v) (try_catch recognition_stop (fun _ => ret tt)) ;;
  setWaveformState "processing" ;;
  updateStatus "Processing..." "processing".

Definition startRecording : M Vars unit :=
  v <- get_vars ;;
  if negb (recognition v) || isRecording v then ret tt else
  modify_vars (set_isRecording true) ;;
  recordBtn <- getElementById "voiceRecordBtn" ;;
  when recordBtn (write "voiceRecordBtn" (ClassAdd "recording")) ;;
  setWaveformState "listening" ;;
  updateStatus "Listening..." "listening" ;;
  try_catch recognition_start (fun _ => stopRecording).

(** How the playback started by [playAudio] goes on. *)
Inductive Playback :=
| PlaybackEnded                 (* [ended] event *)
| PlaybackError                 (* [error] event *)
| PlayRejected (e : Thrown)     (* the promise of [play()] rejects *)
| PlaybackPending.              (* none of them yet *)

(** [await playAudio(audioUrl)]. *)
Definition playAudio (audioUrl : jsstring) (p : Playback) : M Vars unit :=
  audioPlayer <- getElementById "audioPlayer" ;;
  if negb audioPlayer then throw (JsString "Audio player not found") else
  emit (AudioPlay audioUrl) ;;
  match p with
  | PlaybackEnded =>
      setWaveformState empty ;;
      updateStatus "Ready to listen" "ready"
  | PlaybackError =>
      setWaveformState empty ;;
      updateStatus "Error playing audio" "error" ;;
      throw JsEvent
  | PlayRejected e =>
      setWaveformState empty ;;
      updateStatus "Error starting audio playback" "error" ;;
      throw e
  | PlaybackPending => ret tt
  end.

(** The request [handleVoiceInput] sends. *)
Definition ask_request (v : Vars) (text : jsstring) : Request :=
  {| req_url := API_BASE v +++ "/voice/ask/";
     req_method := "POST";
     req_content_type := Some (js "application/json");
     req_credentials := Some (js "include");
     req_body := JsonAsk text (slice_last 10 (conversationHistory v)) |}.

(** [handleVoiceInput] up to its [await fetch(...)]: the answer says
    whether a request is now in flight. *)
Definition handleVoiceInput_send (text : jsstring) : M Vars bool :=
  if blank text then
    setWaveformState empty ;;
    updateStatus "Ready to listen" "ready" ;;
    ret false
  else
    modify_vars (push_turn {| role := user; content := text |}) ;;
    setWaveformState "processing" ;;
    updateStatus "Getting response..." "processing" ;;
    v <- get_vars ;;
    emit (Fetch (ask_request v text)) ;;
    ret true.

(** The [catch] block of [handleVoiceInput]. *)
Definition handleVoiceInput_catch (error : Thrown) : M Vars unit :=
  setWaveformState empty ;;
  updateStatus ("Error: " +++ message_of error) "error".

(** [handleVoiceInput] from the moment the fetch promise settles. *)
Definition handleVoiceInput_settle (o : FetchOutcome) (p : Playback)
  : M Vars unit :=
  try_catch (
    response <- match o with
                | FetchRejected e => throw e
                | FetchResolved r => ret r
                end ;;
    if negb (ok response) then
      errorData <- response_json response ;;
      throw (new_Error (or_else (error errorData)
               ("HTTP " +++ string_of_N (status response) +++ ": "
                +++ statusText response)))
    else
      data <- response_json response ;;
      if success data then
        modify_vars (push_turn {| role := assistant;
                                  content := response_text data |}) ;;
        match truthy_value (audio_url data) with
        | Some audioUrl =>
            setWaveformState "active" ;;
            updateStatus "Speaking..." "speaking" ;;
            playAudio audioUrl p
        | None =>
            setWaveformState empty ;;
            updateStatus "Ready to listen" "ready"
        end
      else
        throw (new_Error (or_else (error data) "Failed to get response"))
  ) handleVoiceInput_catch.

Definition handleVoiceInput (text : jsstring) (o : FetchOutcome) (p : Playback)
  : M Vars unit :=
  sent <- handleVoiceInput_send text ;;
  if sent then handleVoiceInput_settle o p else ret tt.

(** The recogniser's handlers. *)
Definition recognition_onresult (transcript : jsstring) (o : FetchOutcome)
    (p : Playback) : M Vars unit :=
  handleVoiceInput transcript o p.

Definition recognition_onerror (error : jsstring) : M Vars unit :=
  stopRecording ;;
  updateStatus ("Error: " +++ error) "error".

Definition recognition_onend : M Vars unit :=
  modify_browser (set_recognizing false) ;;
  stopRecording.

(** ** Voice-sample capture *)

Definition showRecordingResult (message type : jsstring) : M Vars unit :=
  resultDiv <- getElementById "recordingResult" ;;
  when resultDiv (
    write "recordingResult" (SetTextContent message) ;;
    write "recordingResult" (SetClassName [js "recording-result"; type]) ;;
    write "recordingResult" (SetDisplay "block")).

Definition resetRecordingUI : M Vars unit :=
  recordBtn <- getElementById "recordBtn" ;;
  statusDot <- getElementById "statusDot" ;;
  statusText <- getElementById "recordingStatusText" ;;
  timerDiv <- getElementById "recordingTimer" ;;
  when recordBtn (write "recordBtn" (ClassRemove "recording")) ;;
  when statusDot (write "statusDot" (ClassRemove "recording")) ;;
  when statusText
    (write "recordingStatusText" (SetTextContent "Ready to record")) ;;
  when timerDiv (write "recordingTimer" (SetDisplay "none")) ;;
  modify_vars (set_isRecordingSetup false).

Definition stopSetupRecording : M Vars unit :=
  v <- get_vars ;;
  if negb (isRecordingSetup v) then ret tt else
  b <- get_browser ;;
  match mediaRecorder v with
  | Some rec =>
      when (recorder_active b rec)
        (try_catch (MediaRecorder_stop rec) (fun _ => ret tt))
  | None => ret tt
  end ;;
  modify_vars (set_isRecordingSetup false) ;;
  match recordingTimer v with
  | Some timer =>
      clearInterval timer ;;
      modify_vars (set_recordingTimer None)
  | None => ret tt
  end ;;
  recordBtn <- getElementById "recordBtn" ;;
  statusDot <- getElementById "statusDot" ;;
  statusText <- getElementById "recordingStatusText" ;;
  when recordBtn (write "recordBtn" (ClassRemove "recording")) ;;
  when statusDot (write "statusDot" (ClassRemove "recording")) ;;
  when statusText
    (write "recordingStatusText" (SetTextContent "Processing...")).

(** The request [uploadRecording] sends. *)
Definition upload_request (v : Vars) (audioBlob : Blob) : Request :=
  {| req_url := API_BASE v +++ "/voice/upload-sample/";
     req_method := "POST";
     req_content_type := None;
     req_credentials := Some (js "include");
     req_body := FormData
       [(js "audio_file",
         new_File [audioBlob] "voice-sample.webm" "audio/webm")] |}.

Definition uploadRecording (audioBlob : Blob) (o : FetchOutcome)
  : M Vars unit :=
  statusText <- getElementById "recordingStatusText" ;;
  when statusText (write "recordingStatusText"
    (SetTextContent "Uploading and creating voice clone...")) ;;
  try_catch (
    v <- get_vars ;;
    response <- fetch (upload_request v audioBlob) o ;;
    if negb (ok response) then
      errorData <- response_json response ;;
      throw (new_Error (or_else (error errorData) "Upload failed"))
    else
      data <- response_json response ;;
      if success data then
        showRecordingResult
          "Voice clone created successfully! Reloading..." "success" ;;
        when statusText
          (write "recordingStatusText" (SetTextContent "Success!")) ;;
        emit (ReloadAfter 2000%N)
      else
        throw (new_Error (or_else (error data) "Failed to create voice clone"))
  ) (fun error =>
    showRecordingResult (message_text error) "error" ;;
    when statusText
      (write "recordingStatusText" (SetTextContent "Ready to record"))).

(** [Date.now() - recordingStartTime], in milliseconds; [null] counts as 0. *)
Definition elapsed_ms (now : Z) (v : Vars) : Z :=
  (now - match recordingStartTime v with Some t => t | None => 0%Z end)%Z.

(** [(Date.now() - recordingStartTime) / 1000]: the operands are integers,
    so the quotient is kept as the exact rational. *)
Definition actualDuration (now : Z) (v : Vars) : Q :=
  (inject_Z (elapsed_ms now v) / 1000)%Q.

(** [Math.round(x)]: the nearest integer, halves upwards. *)
Definition Qltb (x y : Q) : bool := negb (Qle_bool y x).

Definition Math_round (x : Q) : Z := Qfloor (x + (1 # 2))%Q.

Definition too_short_message (d : Q) : jsstring :=
  "Recording too short (" +++ string_of_Z (Math_round d)
  +++ "s). Please record at least 30 seconds.".

(** [startSetupRecording] up to [await getUserMedia]: the answer says
    whether the microphone has been requested. *)
Definition startSetupRecording_request : M Vars bool :=
  v <- get_vars ;;
  if isRecordingSetup v then ret false else
  emit GetUserMedia ;;
  ret true.

(** [mediaRecorder.ondataavailable]. *)
Definition mediaRecorder_ondataavailable (data : Blob) : M Vars unit :=
  when (0 <? blob_size data)%nat
    (modify_vars (fun v => set_audioChunks (audioChunks v ++ [data]) v)).

(** [mediaRecorder.onerror] of the recorder [rec]. *)
Definition mediaRecorder_onerror (rec : nat) (message : jsstring)
  : M Vars unit :=
  showRecordingResult ("Recording error: " +++ message) "error" ;;
  stopSetupRecording.

(** [mediaRecorder.onstop] of the recorder [rec], which closes over its
    stream and MIME type; [now] is [Date.now()] and [o] the fate of the
    upload request if one is made. *)
Definition mediaRecorder_onstop (rec : nat) (now : Z) (o : FetchOutcome)
  : M Vars unit :=
  b <- get_browser ;;
  match nth_error (recorders b) rec with
  | None => ret tt
  | Some r =>
      stop_tracks (rec_stream r) ;;
      v <- get_vars ;;
      let actualDuration := actualDuration now v in
      let audioBlob := new_Blob (audioChunks v) (rec_mimeType r) in
      if Qltb actualDuration 30%Q then
        showRecordingResult (too_short_message actualDuration) "error" ;;
        resetRecordingUI
      else
        uploadRecording audioBlob o
  end.

(** The tick of the recording timer. *)
Definition pad2 (s : jsstring) : jsstring :=
  match s with [c] => "0" +++ [c] | [] => js "00" | _ => s end.

Definition recordingTimer_tick (now : Z) : M Vars unit :=
  v <- get_vars ;;
  let elapsed := (elapsed_ms now v / 1000)%Z in
  timerText <- getElementById "timerText" ;;
  when timerText (write "timerText" (SetTextContent
    (pad2 (string_of_Z (elapsed / 60)) +++ ":"
     +++ pad2 (string_of_Z (Z.rem elapsed 60))))).

(** [startSetupRecording] from the moment the microphone promise settles;
    [now] is [Date.now()]. *)
Definition startSetupRecording_settle (mic : MicOutcome) (now : Z)
  : M Vars unit :=
  try_catch (
    stream <- getUserMedia_settle mic ;;
    opus <- MediaRecorder_isTypeSupported "audio/webm;codecs=opus" ;;
    mimeType <-
      (if opus then ret (js "audio/webm;codecs=opus") else
       webm <- MediaRecorder_isTypeSupported "audio/webm" ;;
       if webm then ret (js "audio/webm") else
       mp4 <- MediaRecorder_isTypeSupported "audio/mp4" ;;
       if mp4 then ret (js "audio/mp4") else ret (js "audio/webm")) ;;
    rec <- new_MediaRecorder stream mimeType ;;
    modify_vars (set_mediaRecorder (Some rec)) ;;
    modify_vars (set_audioChunks []) ;;
    MediaRecorder_start rec 1000%N ;;
    modify_vars (set_isRecordingSetup true) ;;
    modify_vars (set_recordingStartTime (Some now)) ;;
    recordBtn <- getElementById "recordBtn" ;;
    statusDot <- getElementById "statusDot" ;;
    statusText <- getElementById "recordingStatusText" ;;
    timerDiv <- getElementById "recordingTimer" ;;
    when recordBtn (write "recordBtn" (ClassAdd "recording")) ;;
    when statusDot (write "statusDot" (ClassAdd "recording")) ;;
    when statusText
      (write "recordingStatusText" (SetTextContent "Recording...")) ;;
    when timerDiv (write "recordingTimer" (SetDisplay "block")) ;;
    timer <- setInterval 1000%N ;;
    modify_vars (set_recordingTimer (Some timer))
  ) (fun error =>
    let errorMsg :=
      "Error accessing microphone. " +++
      (if jseqb (name_of error) "NotAllowedError"
          || jseqb (name_of error) "PermissionDeniedError"
       then js "Please allow microphone permissions in your browser settings."
       else if jseqb (name_of error) "NotFoundError"
       then js "No microphone found."
       else message_of error) in
    showRecordingResult errorMsg "error" ;;
    resetRecordingUI).

Definition startSetupRecording (mic : MicOutcome) (now : Z) : M Vars unit :=
  requested <- startSetupRecording_request ;;
  if requested then startSetupRecording_settle mic now else ret tt.

(** The listeners of the setup record button ([mousedown] and [touchstart];
    [mouseup], [mouseleave] and [touchend]).  The press listener starts
    [startSetupRecording] and goes on while that call awaits the
    microphone. *)
Definition recordBtn_press : M Vars bool :=
  v <- get_vars ;;
  if negb (isRecordingSetup v) then
    requested <- startSetupRecording_request ;;
    modify_vars (set_isPressed true) ;;
    ret requested
  else ret false.

Definition recordBtn_release : M Vars unit :=
  v <- get_vars ;;
  if isPressed v && isRecordingSetup v then
    stopSetupRecording ;;
    modify_vars (set_isPressed false)
  else ret tt.

(** The listeners of the conversation's record button ([mousedown] and
    [touchstart]; [mouseup], [mouseleave] and [touchend]).  They close over
    an [isPressed] variable of their own, which is passed in and handed
    back. *)
Definition voiceRecordBtn_press (isPressed : bool) : M Vars bool :=
  v <- get_vars ;;
  if negb (isRecording v) then startRecording ;; ret true
  else ret isPressed.

Definition voiceRecordBtn_release (isPressed : bool) : M Vars bool :=
  v <- get_vars ;;
  if isPressed && isRecording v then stopRecording ;; ret false
  else ret isPressed.

End Voice.

(** * The public voice page (the script of the shared voice agent) *)

(** The default message for a failure status,
    [`HTTP ${response.status}: ${response.statusText}`]. *)
Definition http_status_line (response : Response) : jsstring :=
  "HTTP " +++ string_of_N (status response) +++ ": " +++ statusText response.

Module PublicVoice.

(** [window.API_BASE] and the top-level [const] and [let] bindings the
    functions of the script read.  A binding is there from the moment the
    script is instantiated, but it has no value until its declaration has
    been evaluated: [None].  (Were one of the names declared by an earlier
    script of the page, this script would not be instantiated at all and
    none of its functions would exist.)  The constants for the elements of
    the page hold what [document.getElementById] answered: whether the page
    has the element. *)
Record Vars := {
  window_API_BASE : option jsstring;   (* [None]: not defined *)
  SHARE_TOKEN : option jsstring;
  recognition : option bool;           (* [Some false]: [null] *)
  isRecording : option bool;
  conversationHistory : option (list Turn);
  voiceRecordBtn : option bool;
  statusMessage : option bool;
  statusText : option bool;
  statusIcon : option bool;
  waveform : option bool;
  audioPlayer : option bool
}.


Definition set_isRecording (x : option bool) (v : Vars) : Vars :=
  {| window_API_BASE := window_API_BASE v; SHARE_TOKEN := SHARE_TOKEN v;
     recognition := recognition v; isRecording := x;
     conversationHistory := conversationHistory v;
     voiceRecordBtn := voiceRecordBtn v; statusMessage := statusMessage v;
     statusText := statusText v; statusIcon := statusIcon v;
     waveform := waveform v; audioPlayer := audioPlayer v |}.

Definition set_conversationHistory (x : option (list Turn)) (v : Vars) : Vars :=
  {| window_API_BASE := window_API_BASE v; SHARE_TOKEN := SHARE_TOKEN v;
     recognition := recognition v; isRecording := isRecording v;
     conversationHistory := x;
     voiceRecordBtn := voiceRecordBtn v; statusMessage := statusMessage v;
     statusText := statusText v; statusIcon := statusIcon v;
     waveform := waveform v; audioPlayer := audioPlayer v |}.

(** What reading a binding without a value throws. *)
Definition ReferenceError (name : string) : Thrown :=
  JsError "ReferenceError"
    ("Cannot access '" +++ js name +++ "' before initialization").

(** Reading a top-level binding of the script. *)
Definition read {A : Type} (name : string) (binding : Vars -> option A)
  : M Vars A :=
  v <- get_vars ;;
  match binding v with
  | Some x => ret x
  | None => throw (ReferenceError name)
  end.


(** A write to the element a constant holds.  The element is the one the
    page has under this id; a page that has lost it shows nothing of the
    write. *)
Definition write_to (id : string) (w : DomWrite) : M Vars unit :=
  b <- get_browser ;;
  if present (dom b) id then write id w else ret tt.

Definition statusIcon_of (type : jsstring) : jsstring :=
  if jseqb type "listening" then [0xD83C; 0xDFA4]%N
  else if jseqb type "processing" then [0x2699; 0xFE0F]%N
  else if jseqb type "speaking" then [0xD83D; 0xDD0A]%N
  else if jseqb type "error" then [0x274C]%N
  else [0xD83C; 0xDFA4]%N.

Definition updateStatus (text type : jsstring) : M Vars unit :=
  statusText <- read "statusText" statusText ;;
  when statusText (write_to "statusText" (SetTextContent text)) ;;
  statusMessage <- read "statusMessage" statusMessage ;;
  when statusMessage (
    write_to "statusMessage" (SetClassName [js "status-message"]) ;;
    when (negb (jseqb type "ready"))
      (write_to "statusMessage" (ClassAdd type))) ;;
  statusIcon <- read "statusIcon" statusIcon ;;
  when statusIcon (write_to "statusIcon" (SetTextContent (statusIcon_of type))).

Definition setWaveformState (state : jsstring) : M Vars unit :=
  waveform <- read "waveform" waveform ;;
  when waveform (
    write_to "waveform" (SetClassName [js "waveform"]) ;;
    when (truthy state) (write_to "waveform" (ClassAdd state))).

Definition stopRecording : M Vars unit :=
  isRecording <- read "isRecording" isRecording ;;
  if negb isRecording then ret tt else
  modify_vars (set_isRecording (Some false)) ;;
  voiceRecordBtn <- read "voiceRecordBtn" voiceRecordBtn ;;
  when voiceRecordBtn (write_to "voiceRecordBtn" (ClassRemove "recording")) ;;
  setWaveformState "processing" ;;
  updateStatus "Processing..." "processing" ;;
  recognition <- read "recognition" recognition ;;
  when recognition (try_catch recognition_stop (fun _ => ret tt)).

(** [!recognition || isRecording]: the flag is read only when there is a
    recogniser. *)
Definition startRecording : M Vars unit :=
  recognition <- read "recognition" recognition ;;
  if negb recognition then ret tt else
  isRecording <- read "isRecording" isRecording ;;
  if isRecording then ret tt else
  modify_vars (set_isRecording (Some true)) ;;
  voiceRecordBtn <- read "voiceRecordBtn" voiceRecordBtn ;;
  when voiceRecordBtn (write_to "voiceRecordBtn" (ClassAdd "recording")) ;;
  setWaveformState "listening" ;;
  updateStatus "Listening..." "listening" ;;
  try_catch recognition_start (fun _ => stopRecording).

(** How the playback goes on; nothing awaits it, and its handlers run
    when it ends or fails. *)
Inductive Playback :=
| PlaybackEnded
| PlaybackError
| PlayRejected
| PlaybackPending.

Definition playAudio (audioUrl : jsstring) (p : Playback) : M Vars unit :=
  audioPlayer <- read "audioPlayer" audioPlayer ;;
  if negb audioPlayer then ret tt else
  emit (AudioPlay audioUrl) ;;
  match p with
  | PlaybackEnded =>
      setWaveformState empty ;;
      updateStatus "Ready to listen" "ready"
  | PlaybackError =>
      setWaveformState empty ;;
      updateStatus "Error playing audio" "error"
  | PlayRejected =>
      setWaveformState empty ;;
      updateStatus "Error playing audio" "error"
  | PlaybackPending => ret tt
  end.

(** The request of [handleVoiceInput]; an undefined [window.API_BASE]
    prints as "undefined" in the template literal. *)
Definition ask_request (base : option jsstring) (token : jsstring)
    (history : list Turn) (text : jsstring) : Request :=
  {| req_url := match base with
                | Some b => b
                | None => js "undefined"
                end +++ "/voice/public/" +++ token +++ "/ask/";
     req_method := "POST";
     req_content_type := Some (js "application/json");
     req_credentials := None;
     req_body := JsonAsk text (slice_last 10 history) |}.

(** [conversationHistory.push(t)]. *)
Definition push_turn (t : Turn) : M Vars unit :=
  history <- read "conversationHistory" conversationHistory ;;
  modify_vars (set_conversationHistory (Some (history ++ [t]))).

(** [handleVoiceInput(text)], with the answer to its request; being an
    [async] function it hands what it throws to its promise. *)
Definition handleVoiceInput (text : jsstring) (o : FetchOutcome) (p : Playback)
  : M Vars unit :=
  if blank text then
    setWaveformState empty ;;
    updateStatus "Ready to listen" "ready"
  else
    push_turn {| role := user; content := text |} ;;
    setWaveformState "processing" ;;
    updateStatus "Getting response..." "processing" ;;
    try_catch (
      v <- get_vars ;;
      token <- read "SHARE_TOKEN" SHARE_TOKEN ;;
      history <- read "conversationHistory" conversationHistory ;;
      response <- fetch (ask_request (window_API_BASE v) token history text) o ;;
      if negb (ok response) then
        errorData <- response_json response ;;
        throw (new_Error (or_else (error errorData)
                 (http_status_line response)))
      else
        data <- response_json response ;;
        if success data then
          push_turn {| role := assistant; content := response_text data |} ;;
          match truthy_value (audio_url data) with
          | Some audioUrl =>
              setWaveformState "active" ;;
              updateStatus "Speaking..." "speaking" ;;
              playAudio audioUrl p
          | None =>
              setWaveformState empty ;;
              updateStatus "Ready to listen" "ready"
          end
        else
          throw (new_Error (or_else (error data) "Failed to get response"))
    ) (fun error =>
      setWaveformState empty ;;
      updateStatus ("Error: " +++ message_of error) "error").

End PublicVoice.

(** * The chat page (chat.js) *)

Module Chat.

Record Vars := {
  window_API_BASE : option jsstring;   (* [window.API_BASE], if defined *)
  messageHistory : list (jsstring * jsstring);   (* type, text *)
  conversationHistory : list Turn;
  voiceEnabled : bool
}.

(** The script's own constant. *)
Definition API_BASE : jsstring := "/api".

Definition set_messageHistory (x : list (jsstring * jsstring)) (v : Vars)
  : Vars :=
  {| window_API_BASE := window_API_BASE v; messageHistory := x;
     conversationHistory := conversationHistory v;
     voiceEnabled := voiceEnabled v |}.

Definition set_conversationHistory (x : list Turn) (v : Vars) : Vars :=
  {| window_API_BASE := window_API_BASE v;
     messageHistory := messageHistory v; conversationHistory := x;
     voiceEnabled := voiceEnabled v |}.

Definition push_turn (t : Turn) (v : Vars) : Vars :=
  set_conversationHistory (conversationHistory v ++ [t]) v.

(** [text.replace(/\n/g, '<br>')]. *)
Fixpoint replace_newlines (s : jsstring) : jsstring :=
  match s with
  | [] => []
  | c :: s' => (if N.eqb c 10 then js "<br>" else [c]) ++ replace_newlines s'
  end.

(** The time stamp of a message is for display only and is left out. *)
Definition addMessage (type text : jsstring) (showActions : bool)
  : M Vars unit :=
  messagesContainer <- getElementById "chatMessages" ;;
  if negb messagesContainer then ret tt else
  write "chatMessages"
    (AppendChild (MessageDiv type (replace_newlines text)
                    (showActions && jseqb type "agent"))) ;;
  write "chatMessages" ScrollToBottom ;;
  modify_vars (fun v => set_messageHistory (messageHistory v ++ [(type, text)]) v).

(** The indicator is a child of the message container with the class
    [message agent] and the id [typing-indicator]. *)
Definition showTypingIndicator : M Vars string :=
  write "chatMessages" (AppendChild TypingDiv) ;;
  write "chatMessages" ScrollToBottom ;;
  ret "typing-indicator".

Definition typing_indicator_present (b : Browser) : bool :=
  match dom b "chatMessages" with
  | Some e => existsb is_typing (children e)
  | None => false
  end.

(** [document.getElementById(id)] answers with the first element of the
    document that has the id, and [indicator.remove()] takes it out.  The
    script gives this id to typing indicators only, which are children of
    the message container, and the lookup is embedded as the search for the
    first of them.  That is the lookup of the code on a page that has no
    element of its own with this id and whose messages are plain text; the
    markup of a message could otherwise bring an element with the id, which
    the code would find first. *)
Definition hideTypingIndicator (id : string) : M Vars unit :=
  b <- get_browser ;;
  when (typing_indicator_present b) (write "chatMessages" (RemoveChild TypingDiv)).

(** [input.value]. *)
Definition value_of (b : Browser) (id : string) : jsstring :=
  match dom b id with Some e => value e | None => [] end.

Definition generate_request (v : Vars) (text : jsstring) : Request :=
  {| req_url := API_BASE +++ "/generate/";
     req_method := "POST";
     req_content_type := Some (js "application/json");
     req_credentials := Some (js "include");
     req_body := JsonGenerate text (slice_last 10 (conversationHistory v)) |}.

Definition cross_mark : jsstring := [0x274C]%N.
Definition light_bulb : jsstring := [0xD83D; 0xDCA1]%N.

Definition memory_notice : jsstring :=
  light_bulb +++ " I learned something new about you! <a href=" +++ dquote
  +++ "/timeline/" +++ dquote +++ " style=" +++ dquote
  +++ "color: var(--secondary); text-decoration: underline;" +++ dquote
  +++ ">View Memory Timeline</a>".

(** [sendMessage] up to its [await fetch(...)]: the answer is the id of the
    typing indicator when a request is in flight. *)
Definition sendMessage_send : M Vars (option string) :=
  input <- getElementById "messageInput" ;;
  if negb input then ret None else
  b <- get_browser ;;
  let text := trim (value_of b "messageInput") in
  if negb (truthy text) then ret None else
  modify_vars (push_turn {| role := user; content := text |}) ;;
  addMessage "user" text false ;;
  write "messageInput" (SetValue empty) ;;
  write "messageInput" (SetHeight "auto") ;;
  typingId <- showTypingIndicator ;;
  v <- get_vars ;;
  emit (Fetch (generate_request v text)) ;;
  ret (Some typingId).

(** [sendMessage] from the moment the fetch promise settles. *)
Definition sendMessage_settle (typingId : string) (o : FetchOutcome)
  : M Vars unit :=
  try_catch (
    response <- match o with
                | FetchRejected e => throw e
                | FetchResolved r => ret r
                end ;;
    if negb (ok response) then
      throw (new_Error ("HTTP " +++ string_of_N (status response) +++ ": "
                        +++ statusText response))
    else
      data <- response_json response ;;
      hideTypingIndicator typingId ;;
      if success data then
        modify_vars (push_turn {| role := assistant;
                                  content := generated_content data |}) ;;
        addMessage "agent" (generated_content data) true ;;
        when (memory_extracted data)
          (emit (AddMessageAfter 500%N "system" memory_notice))
      else
        let errorMsg := or_else (error data) "Generation failed" in
        addMessage "system" (cross_mark +++ " Error: " +++ errorMsg) false
  ) (fun error =>
    hideTypingIndicator typingId ;;
    addMessage "system"
      (cross_mark +++ " Error: " +++ message_of error
       +++ ". Please try again or check the console for details.") false).

Definition sendMessage (o : FetchOutcome) : M Vars unit :=
  sent <- sendMessage_send ;;
  match sent with
  | Some typingId => sendMessage_settle typingId o
  | None => ret tt
  end.

(** [window.speechSynthesis.cancel()]: the queue is emptied, the utterance
    being spoken stops. *)
Definition speechSynthesis_cancel : M Vars unit :=
  modify_browser (fun b =>
    match speechSynthesis b with
    | Some _ => set_speechSynthesis (Some []) b
    | None => b
    end) ;;
  emit SpeechCancel.

(** [window.speechSynthesis.speak(u)]: the utterance joins the queue and is
    spoken when those before it are done. *)
Definition speechSynthesis_speak (u : Utterance) : M Vars unit :=
  modify_browser (fun b =>
    match speechSynthesis b with
    | Some q => set_speechSynthesis (Some (q ++ [u])) b
    | None => b
    end) ;;
  emit (SpeechSpeak u).

(** [new SpeechSynthesisUtterance(text)] with the properties the script sets. *)
Definition new_utterance (text : jsstring) : Utterance :=
  {| utt_text := text; utt_rate := 1%Q; utt_pitch := 1%Q; utt_volume := 1%Q;
     utt_lang := "en-US" |}.

Definition speakResponse (text : jsstring) : M Vars unit :=
  b <- get_browser ;;
  match speechSynthesis b with
  | None => ret tt
  | Some _ =>
      speechSynthesis_cancel ;;
      let utterance := new_utterance text in
      speechSynthesis_speak utterance
  end.

(** The request [sendVoiceMessage] sends; an undefined [window.API_BASE]
    prints as "undefined" in the template literal. *)
Definition voice_ask_request (v : Vars) (text : jsstring) : Request :=
  {| req_url := match window_API_BASE v with
                | Some base => base
                | None => js "undefined"
                end +++ "/voice/ask/";
     req_method := "POST";
     req_content_type := Some (js "application/json");
     req_credentials := Some (js "include");
     req_body := JsonAsk text (slice_last 10 (conversationHistory v)) |}.

Definition memory_notice_voice : jsstring :=
  light_bulb +++ " I learned something new from our conversation! Check your <a href="
  +++ dquote +++ "/timeline/" +++ dquote +++ " style=" +++ dquote
  +++ "color: var(--secondary); text-decoration: underline;" +++ dquote
  +++ ">Memory Timeline</a> to see what I remembered.".

Definition sendVoiceMessage_send (text : jsstring) : M Vars (option string) :=
  if blank text then ret None else
  modify_vars (push_turn {| role := user; content := text |}) ;;
  addMessage "user" text false ;;
  typingId <- showTypingIndicator ;;
  v <- get_vars ;;
  emit (Fetch (voice_ask_request v text)) ;;
  ret (Some typingId).

Definition sendVoiceMessage_settle (typingId : string) (o : FetchOutcome)
  : M Vars unit :=
  try_catch (
    response <- match o with
                | FetchRejected e => throw e
                | FetchResolved r => ret r
                end ;;
    if negb (ok response) then
      throw (new_Error ("HTTP " +++ string_of_N (status response) +++ ": "
                        +++ statusText response))
    else
      data <- response_json response ;;
      hideTypingIndicator typingId ;;
      if success data then
        modify_vars (push_turn {| role := assistant;
                                  content := response_text data |}) ;;
        addMessage "agent" (response_text data) false ;;
        v <- get_vars ;;
        b <- get_browser ;;
        when (voiceEnabled v
              && match speechSynthesis b with Some _ => true | None => false end)
          (speakResponse (response_text data)) ;;
        when (memory_extracted data)
          (emit (AddMessageAfter 500%N "system" memory_notice_voice))
      else
        throw (new_Error (or_else (error data) "Failed to get response"))
  ) (fun error =>
    hideTypingIndicator typingId ;;
    addMessage "system" ("Error: " +++ message_of error) false).

Definition sendVoiceMessage (text : jsstring) (o : FetchOutcome)
  : M Vars unit :=
  sent <- sendVoiceMessage_send text ;;
  match sent with
  | Some typingId => sendVoiceMessage_settle typingId o
  | None => ret tt
  end.

(** The synthesiser finishes the utterance it is speaking and goes on to
    the next in the queue. *)
Definition utterance_ended : M Vars unit :=
  modify_browser (fun b =>
    match speechSynthesis b with
    | Some q => set_speechSynthesis (Some (tl q)) b
    | None => b
    end).

(** The utterance being spoken, if any. *)
Definition speaking_now (b : Browser) : option Utterance :=
  match speechSynthesis b with
  | Some q => hd_error q
  | None => None
  end.

(** ** Regenerating the last answer *)

(** The tokens of a class attribute: its maximal runs free of ASCII
    whitespace. *)
Definition isAsciiWhitespace (c : N) : bool :=
  existsb (N.eqb c) [0x9; 0xA; 0xC; 0xD; 0x20]%N.

Fixpoint class_tokens_from (cur s : jsstring) : list jsstring :=
  match s with
  | [] => match cur with [] => [] | _ => [rev cur] end
  | c :: s' =>
      if isAsciiWhitespace c then
        match cur with
        | [] => class_tokens_from [] s'
        | _ => rev cur :: class_tokens_from [] s'
        end
      else class_tokens_from (c :: cur) s'
  end.

Definition class_tokens (s : jsstring) : list jsstring :=
  class_tokens_from [] s.

(** Whether a child of the message container matches [.message.agent]: a
    message div has the class [message] and its type, the typing indicator
    has [message agent].  The elements inside a message are those of its
    template, none of which matches, and what the markup of its text makes:
    nothing that could match when the text is plain. *)
Definition is_agent_message (n : Node) : bool :=
  match n with
  | MessageDiv type _ _ =>
      existsb (jseqb "agent") (class_tokens ("message " +++ type))
  | TypingDiv => true
  | FileItem _ _ _ => false
  end.

(** Without the last element that satisfies [p]. *)
Definition remove_last (A : Type) (p : A -> bool) (l : list A) : list A :=
  rev (remove_first p (rev l)).

Definition is_user (t : Turn) : bool :=
  match role t with user => true | assistant => false end.

Definition is_assistant (t : Turn) : bool :=
  match role t with assistant => true | user => false end.

(** [conversationHistory.filter(m => m.role === 'user').pop()]. *)
Definition lastUserMsg (h : list Turn) : option Turn :=
  hd_error (rev (filter is_user h)).

(** [h.length > 0 && h[h.length - 1].role === 'assistant']. *)
Definition ends_with_assistant (h : list Turn) : bool :=
  match rev h with
  | t :: _ => is_assistant t
  | [] => false
  end.

(** [messages[messages.length - 1].remove()] for the elements
    [querySelectorAll('.message.agent')] finds in the message container.
    On a page whose messages are plain text these are children of the
    container, and the last of them leaves. *)
Definition remove_last_agent_message (b : Browser) : Browser :=
  match dom b "chatMessages" with
  | Some e =>
      set_dom (dom_set "chatMessages"
                 (Some (with_children
                          (remove_last is_agent_message (children e)) e))
                 (dom b)) b
  | None => b
  end.

(** [window.regenerateMessage]; the promise of [sendMessage] is dropped, so
    a rejection of it goes unobserved. *)
Definition regenerateMessage (o : FetchOutcome) : M Vars unit :=
  v <- get_vars ;;
  match lastUserMsg (conversationHistory v) with
  | Some msg =>
      when (ends_with_assistant (conversationHistory v))
        (modify_vars (fun v =>
           set_conversationHistory (removelast (conversationHistory v)) v)) ;;
      messagesContainer <- getElementById "chatMessages" ;;
      when messagesContainer (modify_browser remove_last_agent_message) ;;
      input <- getElementById "messageInput" ;;
      when input (
        write "messageInput" (SetValue (content msg)) ;;
        try_catch (sendMessage o) (fun _ => ret tt))
  | None => addMessage "system" "No previous message to regenerate" false
  end.

End Chat.

(** * The onboarding file picker *)

Module Onboarding.

Record Vars := {
  currentStep : nat;
  selectedFiles : list File
}.

(** [file.size]. *)
Definition file_size (f : File) : nat := length (file_data f).

Definition set_selectedFiles (x : list File) (v : Vars) : Vars :=
  {| currentStep := currentStep v; selectedFiles := x |}.

(** [f.name === file.name && f.size === file.size]. *)
Definition same_name_size (file f : File) : bool :=
  jseqb (file_name f) (file_name file) && Nat.eqb (file_size f) (file_size file).

Definition updateFileList : M Vars unit :=
  write "fileList" ClearChildren ;;
  v <- get_vars ;;
  forEach (combine (selectedFiles v) (seq 0 (length (selectedFiles v))))
    (fun '(file, index) =>
       write "fileList"
         (AppendChild (FileItem (file_name file) (N.of_nat (file_size file))
                         index))).

Definition updateUploadButton : M Vars unit :=
  v <- get_vars ;;
  write "uploadBtn" (SetDisabled (Nat.eqb (length (selectedFiles v)) 0)).

(** The callback of the [forEach] in [handleFiles]. *)
Definition handleFiles_each (file : File) : M Vars unit :=
  v <- get_vars ;;
  when (negb (existsb (same_name_size file) (selectedFiles v)))
    (modify_vars (fun v => set_selectedFiles (selectedFiles v ++ [file]) v)).

Definition handleFiles (files : list File) : M Vars unit :=
  forEach files handleFiles_each ;;
  updateFileList ;;
  updateUploadButton.

(** [selectedFiles.splice(index, 1)]. *)
Definition removeFile (index : nat) : M Vars unit :=
  modify_vars (fun v =>
    set_selectedFiles (firstn index (selectedFiles v)
                       ++ skipn (S index) (selectedFiles v)) v) ;;
  updateFileList ;;
  updateUploadButton.

End Onboarding.

(** * Vocabulary of the properties *)

(** A state with another document, or other variables. *)
Definition with_dom {V} (d : Dom) (s : State V) : State V :=
  {| vars := vars s; browser := set_dom d (browser s) |}.

Definition with_vars {V} (v : V) (s : State V) : State V :=
  {| vars := v; browser := browser s |}.

(** Two documents with the same elements, whatever their content. *)
Definition same_elements (d d' : Dom) : Prop :=
  forall id, present d' id = present d id.

Definition is_dom_write (e : Effect) : bool :=
  match e with Dom_ _ _ => true | _ => false end.

(** A log of DOM writes only. *)
Definition dom_log (l : list Effect) : Prop := forallb is_dom_write l = true.

(** The status types a log adds to the status message. *)
Definition status_types (l : list Effect) : list jsstring :=
  flat_map (fun e => match e with
                     | Dom_ id (ClassAdd c) =>
                         if String.eqb id "statusMessage" then [c] else []
                     | _ => []
                     end) l.

(** What the status types of a run are when the status message element
    is there, and when it is not. *)
Definition if_present (d : Dom) (id : string) (l : list jsstring)
  : list jsstring :=
  if present d id then l else [].

(** The requests a log sends, in order. *)
Definition fetches (l : list Effect) : list Request :=
  flat_map (fun e => match e with Fetch r => [r] | _ => [] end) l.

(** The conversation history a request body carries. *)
Definition window_of (r : Request) : list Turn :=
  match req_body r with
  | JsonAsk _ h => h
  | JsonGenerate _ h => h
  | FormData _ => []
  end.

(** [w] is the [n] most recent turns of [h] (all of [h] when it has fewer),
    in the order they have in [h]. *)
Definition most_recent (n : nat) (w h : list Turn) : Prop :=
  (exists older, h = older ++ w) /\ length w = Nat.min n (length h).

(** The playbacks a log starts. *)
Definition plays (l : list Effect) : list jsstring :=
  flat_map (fun e => match e with AudioPlay u => [u] | _ => [] end) l.

(** The states of the voice controller, as the status line shows them:
    [updateStatus] resets the class of the status message and adds the
    status type unless it is "ready". *)
Inductive Ctrl := Idle | Listening | Processing | Speaking | Error.

Definition ctrl_of_class (tokens : list jsstring) : Ctrl :=
  if existsb (jseqb "error") tokens then Error
  else if existsb (jseqb "speaking") tokens then Speaking
  else if existsb (jseqb "processing") tokens then Processing
  else if existsb (jseqb "listening") tokens then Listening
  else Idle.

(** The state the page shows; [None] without a status message element. *)
Definition controller (b : Browser) : option Ctrl :=
  option_map (fun e => ctrl_of_class (className e)) (dom b "statusMessage").

Definition text_of (b : Browser) (id : string) : option jsstring :=
  option_map textContent (dom b id).

Definition class_of (b : Browser) (id : string) : option (list jsstring) :=
  option_map className (dom b id).

Definition display_of (b : Browser) (id : string) : option jsstring :=
  option_map display (dom b id).

(** An effect that belongs to the Speaking state: the status or waveform
    write that announces it, or the start of a playback. *)
Definition is_speaking_effect (e : Effect) : bool :=
  match e with
  | Dom_ id (ClassAdd c) =>
      (String.eqb id "statusMessage" && jseqb c "speaking")
      || (String.eqb id "waveform" && jseqb c "active")
  | Dom_ id (SetTextContent t) =>
      String.eqb id "statusText" && jseqb t "Speaking..."
  | AudioPlay _ => true
  | _ => false
  end.

Definition never_speaks (l : list Effect) : Prop :=
  forallb (fun e => negb (is_speaking_effect e)) l = true.

(** An ask exchange that fails: the request is rejected, the response is
    not 2xx, its body does not parse, or the body reports no success. *)
Definition failed_exchange (o : FetchOutcome) : bool :=
  match o with
  | FetchRejected _ => true
  | FetchResolved r =>
      negb (ok r)
      || match json r with
         | JsonOk d => negb (success d)
         | JsonFail _ => true
         end
  end.

(** What a failed exchange throws into the [catch] block. *)
Definition thrown_by (o : FetchOutcome) : Thrown :=
  match o with
  | FetchRejected e => e
  | FetchResolved r =>
      match json r with
      | JsonFail e => e
      | JsonOk d =>
          new_Error (or_else (error d)
            (if ok r then js "Failed to get response"
             else "HTTP " +++ string_of_N (status r) +++ ": "
                  +++ statusText r))
      end
  end.

(** A voice-page session: utterances heard and answered one after another. *)
Fixpoint voice_session (xs : list (jsstring * FetchOutcome * Voice.Playback))
    (s : State Voice.Vars) : State Voice.Vars * list Effect :=
  match xs with
  | [] => (s, [])
  | (text, o, p) :: xs' =>
      let r := Voice.handleVoiceInput text o p s in
      let r' := voice_session xs' (state_of r) in
      (fst r', log_of r ++ snd r')
  end.

(** The recorders that are recording, and the tracks that are live. *)
Definition active_recorders (b : Browser) : list Recorder :=
  filter (fun r => match rec_state r with recording => true | _ => false end)
    (recorders b).

Definition is_live (t : TrackState) : bool :=
  match t with live => true | ended => false end.

Definition live_tracks (b : Browser) : nat :=
  length (filter is_live (concat (streams b))).

(** The track stops a log performs. *)
Definition track_stops (l : list Effect) : list (nat * nat) :=
  flat_map (fun e => match e with TrackStop s t => [(s, t)] | _ => [] end) l.

(** A page with every element the voice script looks up, freshly loaded. *)
Definition blank_element : Element :=
  {| className := []; textContent := []; display := []; height := [];
     value := []; disabled := false; children := [] |}.

Definition full_dom : Dom := fun _ => Some blank_element.

Definition browser0 : Browser :=
  {| dom := full_dom; recognizing := false;
     isTypeSupported := Some (fun _ => true);
     streams := []; recorders := []; speechSynthesis := Some [];
     nextTimer := 0 |}.

Definition voice0 : State Voice.Vars :=
  {| vars := {| Voice.API_BASE := "/api"; Voice.recognition := true;
                Voice.isRecording := false; Voice.conversationHistory := [];
                Voice.mediaRecorder := None; Voice.audioChunks := [];
                Voice.isRecordingSetup := false;
                Voice.recordingStartTime := None;
                Voice.recordingTimer := None; Voice.isPressed := false |};
     browser := browser0 |}.



Definition chat0 : State Chat.Vars :=
  {| vars := {| Chat.window_API_BASE := None; Chat.messageHistory := [];
                Chat.conversationHistory := []; Chat.voiceEnabled := true |};
     browser := browser0 |}.

Definition onboarding0 : State Onboarding.Vars :=
  {| vars := {| Onboarding.currentStep := 1; Onboarding.selectedFiles := [] |};
     browser := browser0 |}.

(** A step of the chat page that sends nothing and leaves the
    conversation history and the page's elements as they are. *)
Definition chat_quiet (s s' : State Chat.Vars) (l : list Effect) : Prop :=
  Chat.conversationHistory (vars s') = Chat.conversationHistory (vars s)
  /\ fetches l = []
  /\ same_elements (dom (browser s)) (dom (browser s')).

(** The recorder hands these segments over, one [dataavailable] event
    each. *)
Definition deliver (datas : list Blob) : M Voice.Vars unit :=
  forEach datas Voice.mediaRecorder_ondataavailable.

(** A capture started at time 0 with one microphone track, and the same
    after the record button was released. *)
Definition recording0 : State Voice.Vars :=
  state_of (Voice.startSetupRecording (MicGranted 1) 0%Z voice0).

Definition stopped0 : State Voice.Vars :=
  state_of (Voice.stopSetupRecording recording0).

(** A browser that grants the microphone but has no MediaRecorder. *)
Definition voice_no_recorder : State Voice.Vars :=
  {| vars := vars voice0;
     browser := {| dom := full_dom; recognizing := false;
                   isTypeSupported := None;
                   streams := []; recorders := []; speechSynthesis := Some [];
                   nextTimer := 0 |} |}.

(** The record button of the setup section pressed, released and pressed
    again while the microphone request of the first press is pending; then
    both requests are granted. *)
Definition double_press : M Voice.Vars unit :=
  Voice.recordBtn_press ;;
  Voice.recordBtn_release ;;
  Voice.recordBtn_press ;;
  Voice.startSetupRecording_settle (MicGranted 1) 1000%Z ;;
  Voice.startSetupRecording_settle (MicGranted 1) 2000%Z.

(** What [handleFiles] does to the list of selected files. *)
Definition add_file (sel : list File) (file : File) : list File :=
  if existsb (Onboarding.same_name_size file) sel then sel else sel ++ [file].

Definition add_files (files sel : list File) : list File :=
  fold_left add_file files sel.

(** The synthesiser finishes [n] utterances. *)
Fixpoint utterances_ended (n : nat) (s : State Chat.Vars) : State Chat.Vars :=
  match n with
  | O => s
  | S n' => state_of (Chat.utterance_ended (utterances_ended n' s))
  end.

(** A computation that leaves the script's variables alone. *)
Definition keeps_vars {V A : Type} (m : M V A) : Prop :=
  forall s, vars (state_of (m s)) = vars s.

(** Replies of the ask endpoint. *)
Definition failure_data (X : jsstring) : Reply :=
  {| success := false; response_text := empty; generated_content := empty;
     audio_url := None; error := Some X; memory_extracted := false |}.

Definition success_data (text : jsstring) (url : option jsstring) : Reply :=
  {| success := true; response_text := text; generated_content := empty;
     audio_url := url; error := None; memory_extracted := false |}.

Definition http_ok (data : Reply) : Response :=
  {| ok := true; status := 200; statusText := "OK"; json := JsonOk data |}.

Definition http_error (code : N) (data : Reply) : Response :=
  {| ok := false; status := code; statusText := "Error"; json := JsonOk data |}.

(** A chat page whose input holds a message. *)
Definition chat1 : State Chat.Vars :=
  {| vars := vars chat0;
     browser := set_dom (dom_set "messageInput"
                  (Some (apply_write (SetValue "hi") blank_element)) full_dom)
                  browser0 |}.

(** * Vocabulary of the further properties *)

Unset Implicit Arguments.

(** The calls to the speech recogniser in a log. *)
Definition is_recognition_call (e : Effect) : bool :=
  match e with RecognitionStart | RecognitionStop => true | _ => false end.

Definition recognition_calls (l : list Effect) : list Effect :=
  filter is_recognition_call l.

(** A computation that leaves an observation of the state as it is. *)
Definition stable {V A X : Type} (f : State V -> X) (m : M V A) : Prop :=
  forall s, f (state_of (m s)) = f s.

(** The record button's class and the recording flag. *)
Definition record_button (s : State Voice.Vars)
  : option (list jsstring) * bool :=
  (class_of (browser s) "voiceRecordBtn", Voice.isRecording (vars s)).

(** The record button carries the class [recording] exactly when the
    recording flag is on. *)
Definition button_mirrors_recording (s : State Voice.Vars) : Prop :=
  forall cls, class_of (browser s) "voiceRecordBtn" = Some cls ->
    existsb (jseqb "recording") cls = Voice.isRecording (vars s).

(** The record button of the conversation pressed, released and pressed
    again, with no event of the recogniser in between. *)
Definition press_release_press : M Voice.Vars bool :=
  p1 <- Voice.voiceRecordBtn_press false ;;
  p2 <- Voice.voiceRecordBtn_release p1 ;;
  Voice.voiceRecordBtn_press p2.

(** What a playback that fails throws. *)
Definition playback_thrown (p : Voice.Playback) : option Thrown :=
  match p with
  | Voice.PlaybackError => Some JsEvent
  | Voice.PlayRejected e => Some e
  | _ => None
  end.

(** The value [await playAudio(url)] throws, if it does. *)
Definition playAudio_rejection (player : bool) (p : Voice.Playback)
  : option Thrown :=
  if player then playback_thrown p
  else Some (JsString "Audio player not found").

(** Where the status line rests after a reply with audio. *)
Definition audio_ctrl (player : bool) (p : Voice.Playback) : Ctrl :=
  match playAudio_rejection player p with
  | Some _ => Error
  | None => match p with Voice.PlaybackEnded => Idle | _ => Speaking end
  end.

Definition audio_text (player : bool) (p : Voice.Playback) : jsstring :=
  match playAudio_rejection player p with
  | Some e => "Error: " +++ message_of e
  | None =>
      match p with
      | Voice.PlaybackEnded => js "Ready to listen"
      | _ => js "Speaking..."
      end
  end.

(** The status types shown from the reply on: speaking, then error once
    from the player's handler and once from the [catch] block, or once
    without a player. *)
Definition audio_status (player : bool) (p : Voice.Playback) : list jsstring :=
  js "speaking"
  :: match playAudio_rejection player p with
     | None => []
     | Some _ => if player then [js "error"; js "error"] else [js "error"]
     end.

(** The MIME type [startSetupRecording] asks the recorder for. *)
Definition chosen_mimeType (f : jsstring -> bool) : jsstring :=
  if f "audio/webm;codecs=opus" then js "audio/webm;codecs=opus"
  else if f "audio/webm" then js "audio/webm"
  else if f "audio/mp4" then js "audio/mp4"
  else js "audio/webm".

(** The calls to the recorders and to the timers in a log. *)
Definition is_recorder_call (e : Effect) : bool :=
  match e with
  | MediaRecorderNew _ _ _ | MediaRecorderStart _ _ | MediaRecorderStop _ =>
      true
  | _ => false
  end.

Definition recorder_calls (l : list Effect) : list Effect :=
  filter is_recorder_call l.

Definition is_timer_call (e : Effect) : bool :=
  match e with SetInterval _ _ | ClearInterval _ => true | _ => false end.

Definition timer_calls (l : list Effect) : list Effect :=
  filter is_timer_call l.

(** The recorder and the timer a stop has to deal with. *)
Definition stop_recorder_calls (s : State Voice.Vars) : list Effect :=
  match Voice.mediaRecorder (vars s) with
  | Some rec =>
      if recorder_active (browser s) rec then [MediaRecorderStop rec] else []
  | None => []
  end.

Definition stop_timer_calls (s : State Voice.Vars) : list Effect :=
  match Voice.recordingTimer (vars s) with
  | Some timer => [ClearInterval timer]
  | None => []
  end.

(** The record button of the setup section pressed and released before the
    microphone request is answered, and the request then granted. *)
Definition tap_before_grant (n : nat) (now : Z) : M Voice.Vars unit :=
  requested <- Voice.recordBtn_press ;;
  Voice.recordBtn_release ;;
  if requested then Voice.startSetupRecording_settle (MicGranted n) now
  else ret tt.

(** A number below 100 written with two decimal digits. *)
Definition two_digits (k : Z) : jsstring :=
  [Z.to_N (48 + k / 10); Z.to_N (48 + k mod 10)].

(** Equality of strings, as a truth value. *)
Definition jsstring_eqb (a b : jsstring) : bool :=
  if list_eq_dec N.eq_dec a b then true else false.

(** The page reloads a log schedules, and whether a request was accepted:
    it resolved with an OK status and a body that reports success. *)
Definition reloads (l : list Effect) : list N :=
  flat_map (fun e => match e with ReloadAfter ms => [ms] | _ => [] end) l.

Definition reply_accepted (o : FetchOutcome) : bool :=
  match o with
  | FetchResolved r =>
      ok r && match json r with
              | JsonOk data => success data
              | JsonFail _ => false
              end
  | FetchRejected _ => false
  end.

(** The [try] and the [catch] block of [uploadRecording]. *)
Definition upload_try (audioBlob : Blob) (o : FetchOutcome) (statusText : bool)
  : M Voice.Vars unit :=
  v <- get_vars ;;
  response <- fetch (Voice.upload_request v audioBlob) o ;;
  if negb (ok response) then
    errorData <- response_json response ;;
    throw (new_Error (or_else (error errorData) "Upload failed"))
  else
    data <- response_json response ;;
    if success data then
      Voice.showRecordingResult
        "Voice clone created successfully! Reloading..." "success" ;;
      when statusText
        (write "recordingStatusText" (SetTextContent "Success!")) ;;
      emit (ReloadAfter 2000%N)
    else
      throw (new_Error (or_else (error data) "Failed to create voice clone")).

Definition upload_catch (statusText : bool) (error : Thrown)
  : M Voice.Vars unit :=
  Voice.showRecordingResult (message_text error) "error" ;;
  when statusText
    (write "recordingStatusText" (SetTextContent "Ready to record")).

(** The message an upload that was not accepted leaves in the result box. *)
Definition upload_error (o : FetchOutcome) : Thrown :=
  match o with
  | FetchRejected e => e
  | FetchResolved r =>
      match json r with
      | JsonFail e => e
      | JsonOk data =>
          new_Error (or_else (error data)
                       (if ok r then js "Failed to create voice clone"
                        else js "Upload failed"))
      end
  end.

(** The children of the message container. *)
Definition messages_of (b : Browser) : list Node :=
  match dom b "chatMessages" with
  | Some e => children e
  | None => []
  end.

(** The text of a message becomes markup of the page.  In markup where
    every [<] opens a [<br>], the line break [replace_newlines] writes,
    there is no other tag: the message holds the elements of its template
    and line breaks, none of which has an id, or the classes [message] and
    [agent] together. *)
Fixpoint starts_with (prefix s : jsstring) : bool :=
  match prefix, s with
  | [], _ => true
  | c :: prefix', d :: s' => N.eqb c d && starts_with prefix' s'
  | _ :: _, [] => false
  end.

Fixpoint plain_markup (html : jsstring) : bool :=
  match html with
  | [] => true
  | c :: rest =>
      (negb (N.eqb c 0x3C) || starts_with "br>" rest) && plain_markup rest
  end.

Definition plain_message (n : Node) : bool :=
  match n with
  | MessageDiv _ html _ => plain_markup html
  | TypingDiv => true
  | FileItem _ _ _ => false
  end.

(** A chat page on which a lookup by id or by class finds what the script
    put there: the messages shown are plain, and the page has no element of
    its own with the id of the typing indicator. *)
Definition plain_page (b : Browser) : bool :=
  negb (present (dom b) "typing-indicator")
  && forallb plain_message (messages_of b).

(** A text without line terminators, which an input element or a text area
    gives back as it was assigned. *)
Definition single_line (s : jsstring) : bool :=
  negb (existsb (fun c => N.eqb c 0xA || N.eqb c 0xD) s).

(** A chat page with its message container and its input, and no other
    element with an id. *)
Definition chat_dom (messages : list Node) (input : jsstring) : Dom :=
  dom_set "chatMessages" (Some (with_children messages blank_element))
    (dom_set "messageInput"
       (Some (apply_write (SetValue input) blank_element))
       (fun _ => None)).

Definition chat_page (messages : list Node) (input : jsstring)
  : State Chat.Vars :=
  {| vars := vars chat0;
     browser := set_dom (chat_dom messages input) browser0 |}.

(** The notices a log schedules for later. *)
Definition notices (l : list Effect) : list (N * jsstring * jsstring) :=
  flat_map (fun e => match e with
                     | AddMessageAfter ms type text => [(ms, type, text)]
                     | _ => []
                     end) l.

(** The system message a failed exchange of [sendMessage] ends with. *)
Definition chat_error_text (o : FetchOutcome) : jsstring :=
  let suffix := js ". Please try again or check the console for details." in
  match o with
  | FetchRejected e =>
      Chat.cross_mark +++ " Error: " +++ message_of e +++ suffix
  | FetchResolved r =>
      if negb (ok r) then
        Chat.cross_mark +++ " Error: "
        +++ ("HTTP " +++ string_of_N (status r) +++ ": " +++ statusText r)
        +++ suffix
      else
        match json r with
        | JsonFail e =>
            Chat.cross_mark +++ " Error: " +++ message_of e +++ suffix
        | JsonOk data =>
            Chat.cross_mark +++ " Error: "
            +++ or_else (error data) "Generation failed"
        end
  end.

(** The calls to the speech synthesiser in a log. *)
Definition is_speech_call (e : Effect) : bool :=
  match e with SpeechCancel | SpeechSpeak _ => true | _ => false end.

Definition speech_calls (l : list Effect) : list Effect :=
  filter is_speech_call l.

(** The entry of a selected file in the list, and the entries of a
    selection: each with the position of its file. *)
Definition file_item (x : File * nat) : Node :=
  FileItem (file_name (fst x)) (N.of_nat (Onboarding.file_size (fst x)))
    (snd x).

Definition file_items (sel : list File) : list Node :=
  map file_item (combine sel (seq 0 (length sel))).

(** The entries shown, and whether the upload button is disabled. *)
Definition file_list_of (b : Browser) : option (list Node) :=
  option_map children (dom b "fileList").

Definition upload_disabled (b : Browser) : option bool :=
  option_map disabled (dom b "uploadBtn").

(** No two files of a selection have the same name and size. *)
Fixpoint no_duplicate_files (sel : list File) : bool :=
  match sel with
  | [] => true
  | f :: sel' =>
      negb (existsb (Onboarding.same_name_size f) sel')
      && no_duplicate_files sel'
  end.

Set Implicit Arguments.

(** * Proofs *)

Unset Implicit Arguments.

Arguments slice_last : simpl never.
Arguments trim : simpl never.
Arguments blank : simpl never.
Arguments string_of_N : simpl never.
Arguments string_of_Z : simpl never.

(** ** The context window *)

Lemma slice_last_most_recent n h : most_recent n (slice_last n h) h.
Proof.
  unfold most_recent, slice_last. split.
  - exists (firstn (length h - n) h). symmetry. apply firstn_skipn.
  - rewrite length_skipn. lia.
Qed.

Lemma most_recent_length n w h : most_recent n w h -> length w <= n.
Proof. intros [_ H]. rewrite H. apply Nat.le_min_l. Qed.

(** A turn that at most [n - 1] turns follow is among the [n] most
    recent, at its place. *)
Lemma slice_last_keeps (n : nat) (older : list Turn) t newer :
  S (length newer) <= n ->
  exists pre, slice_last n (older ++ t :: newer) = pre ++ t :: newer.
Proof.
  intros H. unfold slice_last. rewrite length_app. cbn [length].
  destruct (Nat.le_gt_cases (length older + S (length newer)) n) as [Hle|Hgt].
  - replace (length older + S (length newer) - n) with 0 by lia.
    exists older. reflexivity.
  - exists (skipn (length older + S (length newer) - n) older).
    rewrite skipn_app.
    replace (length older + S (length newer) - n - length older) with 0 by lia.
    reflexivity.
Qed.

(** ** Logs *)

Lemma fetches_app l1 l2 : fetches (l1 ++ l2) = fetches l1 ++ fetches l2.
Proof. apply flat_map_app. Qed.

Lemma plays_app l1 l2 : plays (l1 ++ l2) = plays l1 ++ plays l2.
Proof. apply flat_map_app. Qed.

Lemma track_stops_app l1 l2 :
  track_stops (l1 ++ l2) = track_stops l1 ++ track_stops l2.
Proof. apply flat_map_app. Qed.

Lemma status_types_app l1 l2 :
  status_types (l1 ++ l2) = status_types l1 ++ status_types l2.
Proof. apply flat_map_app. Qed.

Lemma if_present_same d d' id l :
  same_elements d d' -> if_present d' id l = if_present d id l.
Proof. intros H. unfold if_present. now rewrite H. Qed.

Lemma never_speaks_app l1 l2 :
  never_speaks (l1 ++ l2) <-> never_speaks l1 /\ never_speaks l2.
Proof. unfold never_speaks. rewrite forallb_app. apply andb_true_iff. Qed.

Lemma dom_log_app l1 l2 : dom_log (l1 ++ l2) <-> dom_log l1 /\ dom_log l2.
Proof. unfold dom_log. rewrite forallb_app. apply andb_true_iff. Qed.

Lemma dom_log_nil : dom_log [].
Proof. reflexivity. Qed.

Lemma dom_log_fetches l : dom_log l -> fetches l = [].
Proof.
  unfold dom_log. induction l as [|e l IH]; [reflexivity|].
  destruct e; cbn; try discriminate. exact IH.
Qed.

Lemma dom_log_plays l : dom_log l -> plays l = [].
Proof.
  unfold dom_log. induction l as [|e l IH]; [reflexivity|].
  destruct e; cbn; try discriminate. exact IH.
Qed.

Lemma same_elements_refl d : same_elements d d.
Proof. intro; reflexivity. Qed.

Lemma same_elements_trans d1 d2 d3 :
  same_elements d1 d2 -> same_elements d2 d3 -> same_elements d1 d3.
Proof. intros H1 H2 id. rewrite H2. apply H1. Qed.

Lemma dom_set_same id e d : dom_set id e d id = e.
Proof. unfold dom_set. now rewrite String.eqb_refl. Qed.

Lemma dom_set_other id id' e d : id <> id' -> dom_set id e d id' = d id'.
Proof.
  intros H. unfold dom_set. destruct (String.eqb_spec id id'); congruence.
Qed.

Lemma dom_set_present id e d x :
  d id = Some x -> same_elements d (dom_set id (Some e) d).
Proof.
  intros H id'. unfold present, dom_set.
  destruct (String.eqb_spec id id'); subst; [now rewrite H | reflexivity].
Qed.

(** ** The helpers of the voice page *)

Ltac open_state s :=
  let v := fresh "v" in let d := fresh "d" in
  destruct s as [v [d ? ? ? ? ? ?]].

Ltac unfold_monad :=
  unfold getElementById, write, when, fetch, response_json, bind, ret,
    get_browser, get_vars, modify_vars, modify_browser, emit, throw,
    try_catch, with_dom, with_vars, present in *.

(** Case analysis on the next element lookup of a run. *)
Ltac lookup_step :=
  match goal with
  | H : ?d ?id = _ |- context [match ?d ?id with Some _ => _ | None => _ end] =>
      rewrite H
  | |- context [match ?d ?id with Some _ => _ | None => _ end] =>
      is_var d; destruct (d id) eqn:?
  end.

Ltac run := cbn; repeat (lookup_step; cbn).

Ltac solve_same :=
  repeat first [ apply same_elements_refl
               | eapply same_elements_trans;
                 [| eapply dom_set_present; rewrite ?dom_set_same, ?dom_set_other by discriminate; eauto ] ].

Ltac solve_frame :=
  intros; rewrite ?dom_set_other by congruence; reflexivity.

Ltac splits := repeat match goal with |- _ /\ _ => split end.

Ltac finish_run :=
  eexists _, _; split; [reflexivity|]; cbn; splits;
  [ solve_same | reflexivity | solve_frame | try reflexivity | .. ].

Lemma setWaveformState_run st (s : State Voice.Vars) :
  exists d' l,
    Voice.setWaveformState st s = (Ok tt, with_dom d' s, l)
    /\ same_elements (dom (browser s)) d'
    /\ dom_log l
    /\ (forall id, id <> "waveform" -> d' id = dom (browser s) id)
    /\ status_types l = []
    /\ (jseqb st "active" = false -> never_speaks l)
    /\ (present (dom (browser s)) "waveform" = true ->
        option_map className (d' "waveform")
        = Some (if truthy st then classList_add st [js "waveform"]
                else [js "waveform"])).
Proof.
  open_state s. unfold Voice.setWaveformState. unfold_monad. run.
  - destruct (truthy st) eqn:Ht; cbn; finish_run.
    all: try (intros Hs; unfold never_speaks; cbn; now rewrite ?Hs).
    all: try (intros _; now rewrite ?dom_set_same).
  - finish_run; [reflexivity | discriminate].
Qed.

(** The class of the status message after [updateStatus]. *)
Lemma updateStatus_run text type (s : State Voice.Vars) :
  exists d' l,
    Voice.updateStatus text type s = (Ok tt, with_dom d' s, l)
    /\ same_elements (dom (browser s)) d'
    /\ dom_log l
    /\ (forall id, id <> "statusText" -> id <> "statusMessage" ->
                   id <> "statusIcon" -> d' id = dom (browser s) id)
    /\ status_types l
       = if_present (dom (browser s)) "statusMessage"
           (if jseqb type "ready" then [] else [type])
    /\ (jseqb type "speaking" = false -> jseqb text "Speaking..." = false ->
        never_speaks l)
    /\ (present (dom (browser s)) "statusMessage" = true ->
        option_map className (d' "statusMessage")
        = Some (if jseqb type "ready" then [js "status-message"]
                else classList_add type [js "status-message"]))
    /\ (present (dom (browser s)) "statusText" = true ->
        option_map textContent (d' "statusText") = Some text).
Proof.
  open_state s. unfold Voice.updateStatus. unfold_monad.
  unfold if_present.
  destruct (jseqb type "ready") eqn:Hr; run; finish_run.
  all: try (intros Hs Ht; unfold never_speaks; cbn; now rewrite ?Hs, ?Ht).
  all: try (intros _; now rewrite ?dom_set_same).
  all: try discriminate.
  all: unfold present;
    match goal with H : _ "statusMessage" = _ |- _ => now rewrite H end.
Qed.

Arguments Voice.setWaveformState : simpl never.
Arguments Voice.updateStatus : simpl never.

Ltac step :=
  match goal with
  | |- context [Voice.setWaveformState ?a ?s] =>
      let E := fresh "E" in
      destruct (setWaveformState_run a s)
        as (?d & ?l & E & ?Hsame & ?Hlog & ?Hframe & ?Hty & ?Hquiet & ?Hclass);
      rewrite E; clear E; cbn in *
  | |- context [Voice.updateStatus ?a ?b ?s] =>
      let E := fresh "E" in
      destruct (updateStatus_run a b s)
        as (?d & ?l & E & ?Hsame & ?Hlog & ?Hframe & ?Hty & ?Hquiet & ?Hclass
            & ?Htext);
      rewrite E; clear E; cbn in *
  end.

Lemma voice_send_run text (s : State Voice.Vars) :
  blank text = false ->
  let v' := Voice.push_turn {| role := user; content := text |} (vars s) in
  exists d' l,
    Voice.handleVoiceInput_send text s
    = (Ok true, with_dom d' (with_vars v' s),
       l ++ [Fetch (Voice.ask_request v' text)])
    /\ same_elements (dom (browser s)) d'
    /\ dom_log l
    /\ never_speaks l
    /\ status_types l
       = if_present (dom (browser s)) "statusMessage" [js "processing"].
Proof.
  intros Hb v'. unfold Voice.handleVoiceInput_send. rewrite Hb.
  unfold bind, modify_vars, get_vars, emit, ret. cbn.
  repeat step.
  eexists _, (_ ++ _). split; [rewrite <- app_assoc; reflexivity|].
  splits.
  - eauto using same_elements_trans.
  - apply dom_log_app; auto.
  - apply never_speaks_app; split; auto.
  - rewrite status_types_app, Hty, Hty0. apply if_present_same, Hsame.
Qed.

Lemma voice_send_blank text (s : State Voice.Vars) :
  blank text = true ->
  exists d' l,
    Voice.handleVoiceInput_send text s = (Ok false, with_dom d' s, l)
    /\ same_elements (dom (browser s)) d'
    /\ dom_log l.
Proof.
  intros Hb. unfold Voice.handleVoiceInput_send. rewrite Hb.
  unfold bind, ret. cbn. repeat step.
  eexists _, (_ ++ _). split; [rewrite app_nil_r; reflexivity|].
  split; [eauto using same_elements_trans | apply dom_log_app; auto].
Qed.

(** The [catch] block of [handleVoiceInput]. *)
Lemma voice_catch_run (error : Thrown) (s : State Voice.Vars) :
  exists d' l,
    Voice.handleVoiceInput_catch error s = (Ok tt, with_dom d' s, l)
    /\ same_elements (dom (browser s)) d'
    /\ dom_log l
    /\ never_speaks l
    /\ status_types l = if_present (dom (browser s)) "statusMessage" [js "error"]
    /\ (present (dom (browser s)) "statusMessage" = true ->
        controller (set_dom d' (browser s)) = Some Error)
    /\ (present (dom (browser s)) "statusText" = true ->
        text_of (set_dom d' (browser s)) "statusText"
        = Some ("Error: " +++ message_of error))
    /\ (present (dom (browser s)) "waveform" = true ->
        class_of (set_dom d' (browser s)) "waveform" = Some [js "waveform"]).
Proof.
  unfold Voice.handleVoiceInput_catch, bind. repeat step.
  eexists _, (_ ++ _). split; [reflexivity|].
  unfold controller, text_of, class_of. cbn. splits.
  - eauto using same_elements_trans.
  - apply dom_log_app; auto.
  - apply never_speaks_app; auto.
  - rewrite status_types_app, Hty, Hty0. cbn.
    now apply if_present_same.
  - intros H. rewrite <- Hsame in H. apply Hclass0 in H.
    destruct (d0 "statusMessage"); [|discriminate]. cbn in *.
    injection H as ->. reflexivity.
  - intros H. rewrite <- Hsame in H. auto.
  - intros H. rewrite Hframe0 by discriminate. auto.
Qed.

Arguments Voice.handleVoiceInput_catch : simpl never.

(** The idle display: what [setWaveformState('')] and
    [updateStatus('Ready to listen', 'ready')] leave. *)
Lemma voice_ready_run (s : State Voice.Vars) :
  exists d' l,
    (Voice.setWaveformState empty ;;
     Voice.updateStatus "Ready to listen" "ready") s
    = (Ok tt, with_dom d' s, l)
    /\ same_elements (dom (browser s)) d'
    /\ dom_log l
    /\ never_speaks l
    /\ status_types l = []
    /\ (present (dom (browser s)) "statusMessage" = true ->
        controller (set_dom d' (browser s)) = Some Idle)
    /\ (present (dom (browser s)) "statusText" = true ->
        text_of (set_dom d' (browser s)) "statusText"
        = Some (js "Ready to listen"))
    /\ (present (dom (browser s)) "waveform" = true ->
        class_of (set_dom d' (browser s)) "waveform" = Some [js "waveform"]).
Proof.
  unfold bind. repeat step.
  eexists _, (_ ++ _). split; [reflexivity|].
  unfold controller, text_of, class_of. cbn. splits.
  - eauto using same_elements_trans.
  - apply dom_log_app; auto.
  - apply never_speaks_app; auto.
  - rewrite status_types_app, Hty, Hty0. cbn.
    unfold if_present, present.
    match goal with |- context [match ?x with _ => _ end] => now destruct x end.
  - intros H. rewrite <- Hsame in H. apply Hclass0 in H.
    destruct (d0 "statusMessage"); [|discriminate]. cbn in *.
    injection H as ->. reflexivity.
  - intros H. rewrite <- Hsame in H. auto.
  - intros H. rewrite Hframe0 by discriminate. auto.
Qed.

Lemma voice_settle_failed o p (s : State Voice.Vars) :
  failed_exchange o = true ->
  Voice.handleVoiceInput_settle o p s
  = Voice.handleVoiceInput_catch (thrown_by o) s.
Proof.
  unfold Voice.handleVoiceInput_settle, try_catch, bind, throw, ret,
    response_json, failed_exchange, thrown_by.
  destruct o as [e|[k st stt [data|e]]]; cbn.
  all: try destruct k; cbn.
  all: try destruct (success data); cbn; try discriminate.
  all: intros _;
    destruct (Voice.handleVoiceInput_catch _ s) as [[? ?] ?]; reflexivity.
Qed.

Lemma voice_settle_no_audio r data p (s : State Voice.Vars) :
  ok r = true -> json r = JsonOk data -> success data = true ->
  truthy_value (audio_url data) = None ->
  Voice.handleVoiceInput_settle (FetchResolved r) p s
  = (Voice.setWaveformState empty ;;
     Voice.updateStatus "Ready to listen" "ready")
      (with_vars (Voice.push_turn {| role := assistant;
                                     content := response_text data |}
                    (vars s)) s).
Proof.
  intros Hk Hj Hs Ha.
  unfold Voice.handleVoiceInput_settle, try_catch, bind, throw, ret,
    response_json, modify_vars, with_vars.
  rewrite Hk, Hj. cbn. rewrite Hs, Ha. cbn.
  repeat step. reflexivity.
Qed.

Lemma playAudio_run u p (s : State Voice.Vars) :
  exists r d' l,
    Voice.playAudio u p s = (r, with_dom d' s, l)
    /\ same_elements (dom (browser s)) d'
    /\ fetches l = [].
Proof.
  open_state s.
  unfold Voice.playAudio, getElementById, bind, get_browser, ret, throw, emit.
  cbn. destruct (present d "audioPlayer"); cbn.
  - destruct p; cbn; repeat step.
    all: eexists _, _, _; split; [reflexivity|]; split;
      [eauto using same_elements_trans, same_elements_refl
      | cbn; rewrite ?fetches_app, ?dom_log_fetches by assumption; reflexivity].
  - eexists _, d, _. split; [reflexivity|].
    split; [apply same_elements_refl | reflexivity].
Qed.

Arguments Voice.playAudio : simpl never.

Lemma voice_settle_general o p (s : State Voice.Vars) :
  exists v' d' l more,
    Voice.handleVoiceInput_settle o p s = (Ok tt, with_dom d' (with_vars v' s), l)
    /\ same_elements (dom (browser s)) d'
    /\ fetches l = []
    /\ Voice.conversationHistory v'
       = Voice.conversationHistory (vars s) ++ more.
Proof.
  destruct (failed_exchange o) eqn:Hf.
  - rewrite voice_settle_failed by assumption.
    destruct (voice_catch_run (thrown_by o) s) as (d' & l & E & Hs & Hl & _).
    exists (vars s), d', l, []. rewrite E, app_nil_r.
    destruct s; auto using dom_log_fetches.
  - destruct o as [e|r]; [discriminate|]. cbn in Hf.
    destruct (ok r) eqn:Hk; [|discriminate].
    destruct (json r) as [data|] eqn:Hj; [|discriminate].
    destruct (success data) eqn:Hs; [|discriminate].
    unfold Voice.handleVoiceInput_settle, try_catch, bind, ret,
      response_json, modify_vars.
    rewrite Hk, Hj. cbn. rewrite Hs. cbn.
    destruct (truthy_value (audio_url data)) as [u|]; cbn.
    + repeat step.
      match goal with |- context [Voice.playAudio ?u ?p ?s] =>
        destruct (playAudio_run u p s) as (r' & ?d & ?l & E & ?Hsame & Hfp);
        rewrite E; clear E end.
      destruct r' as [[]|e]; cbn.
      * eexists _, _, _, [_]. split; [reflexivity|]. cbn. splits.
        -- eauto using same_elements_trans.
        -- rewrite !fetches_app, Hfp, !dom_log_fetches by assumption.
           reflexivity.
        -- reflexivity.
      * match goal with |- context [Voice.handleVoiceInput_catch ?e ?s] =>
          destruct (voice_catch_run e s) as (?d & ?l & E & ?Hsame & ?Hlog & _);
          rewrite E; clear E end.
        cbn in *.
        eexists _, _, _, [_]. split; [reflexivity|]. cbn. splits.
        -- eauto using same_elements_trans.
        -- rewrite !fetches_app, Hfp, !dom_log_fetches by assumption.
           reflexivity.
        -- reflexivity.
    + repeat step.
      eexists _, _, _, [_]. split; [reflexivity|]. cbn. splits.
      * eauto using same_elements_trans.
      * rewrite !fetches_app, !dom_log_fetches by assumption. reflexivity.
      * reflexivity.
Qed.

Lemma never_speaks_plays l : never_speaks l -> plays l = [].
Proof.
  unfold never_speaks. induction l as [|e l IH]; [reflexivity|].
  cbn. intros H. apply andb_true_iff in H as [He Hl].
  destruct e; cbn in *; try discriminate; auto.
Qed.

Lemma with_dom_vars V d (s : State V) : vars (with_dom d s) = vars s.
Proof. reflexivity. Qed.

(** [handleVoiceInput] on a text that is not blank: one request, the user
    turn appended, and whatever the reply appends after it. *)
Lemma voice_handle_run text o p (s : State Voice.Vars) :
  blank text = false ->
  let turn := {| role := user; content := text |} in
  exists v' d' l more,
    Voice.handleVoiceInput text o p s
    = (Ok tt, with_dom d' (with_vars v' s), l)
    /\ same_elements (dom (browser s)) d'
    /\ fetches l = [Voice.ask_request (Voice.push_turn turn (vars s)) text]
    /\ Voice.conversationHistory v'
       = Voice.conversationHistory (vars s) ++ turn :: more.
Proof.
  intros Hb turn. unfold Voice.handleVoiceInput, bind.
  destruct (voice_send_run text s Hb) as (d1 & l1 & E1 & Hs1 & Hl1 & _).
  rewrite E1. clear E1.
  match goal with |- context [Voice.handleVoiceInput_settle o p ?s1] =>
    destruct (voice_settle_general o p s1) as (v2 & d2 & l2 & more & E2 & Hs2 & Hf2 & Hh2);
    rewrite E2; clear E2 end.
  cbn in *. exists v2, d2, ((l1 ++ [Fetch (Voice.ask_request (Voice.push_turn turn (vars s)) text)]) ++ l2), more.
  split; [reflexivity|]. splits.
  - eauto using same_elements_trans.
  - rewrite !fetches_app, Hf2, dom_log_fetches by assumption. reflexivity.
  - rewrite Hh2, <- app_assoc. reflexivity.
Qed.

Lemma voice_handle_blank text o p (s : State Voice.Vars) :
  blank text = true ->
  exists d' l,
    Voice.handleVoiceInput text o p s = (Ok tt, with_dom d' s, l)
    /\ same_elements (dom (browser s)) d'
    /\ dom_log l.
Proof.
  intros Hb. unfold Voice.handleVoiceInput, bind.
  destruct (voice_send_blank text s Hb) as (d1 & l1 & E1 & Hs1 & Hl1).
  rewrite E1. cbn. exists d1, (l1 ++ []). rewrite app_nil_r. auto.
Qed.

(** Whatever is heard and answered, the history only grows. *)
Lemma voice_handle_grows text o p (s : State Voice.Vars) :
  exists more,
    Voice.conversationHistory (vars (state_of (Voice.handleVoiceInput text o p s)))
    = Voice.conversationHistory (vars s) ++ more.
Proof.
  destruct (blank text) eqn:Hb.
  - destruct (voice_handle_blank text o p s Hb) as (d' & l & E & _).
    rewrite E. exists []. cbn. now rewrite app_nil_r.
  - destruct (voice_handle_run text o p s Hb) as (v' & d' & l & more & E & _ & _ & H).
    rewrite E. cbn. eauto.
Qed.

Lemma voice_handle_window text o p (s : State Voice.Vars) rq :
  In rq (fetches (log_of (Voice.handleVoiceInput text o p s))) ->
  most_recent 10 (window_of rq)
    (Voice.conversationHistory (vars s) ++ [{| role := user; content := text |}]).
Proof.
  destruct (blank text) eqn:Hb.
  - destruct (voice_handle_blank text o p s Hb) as (d' & l & E & _ & Hl).
    rewrite E. unfold log_of. cbn [snd].
    rewrite dom_log_fetches by assumption. intros [].
  - destruct (voice_handle_run text o p s Hb) as (v' & d' & l & more & E & _ & Hf & _).
    rewrite E. unfold log_of. cbn [snd]. rewrite Hf. intros [<-|[]]. cbn.
    apply slice_last_most_recent.
Qed.

(** ** The chat page *)

Lemma chat_quiet_refl s : chat_quiet s s [].
Proof. repeat split. Qed.

Lemma chat_quiet_trans s1 s2 s3 l1 l2 :
  chat_quiet s1 s2 l1 -> chat_quiet s2 s3 l2 -> chat_quiet s1 s3 (l1 ++ l2).
Proof.
  intros (H1 & F1 & E1) (H2 & F2 & E2). repeat split.
  - congruence.
  - now rewrite fetches_app, F1, F2.
  - eauto using same_elements_trans.
Qed.

Ltac chat_quiet_now :=
  eexists _, _, _; split; [reflexivity|];
  unfold chat_quiet; cbn; splits; [reflexivity | reflexivity | solve_same].

Lemma addMessage_quiet type text sa (s : State Chat.Vars) :
  exists s' l,
    Chat.addMessage type text sa s = (Ok tt, s', l) /\ chat_quiet s s' l.
Proof.
  open_state s. unfold Chat.addMessage. unfold_monad. run.
  all: eexists _, _; split; [reflexivity|];
    unfold chat_quiet; cbn; splits; [reflexivity | reflexivity | solve_same].
Qed.

Lemma hideTypingIndicator_quiet id (s : State Chat.Vars) :
  exists s' l,
    Chat.hideTypingIndicator id s = (Ok tt, s', l) /\ chat_quiet s s' l.
Proof.
  open_state s. unfold Chat.hideTypingIndicator, Chat.typing_indicator_present.
  unfold_monad. run.
  - destruct (existsb is_typing (children e)); run.
    all: eexists _, _; split; [reflexivity|];
      unfold chat_quiet; cbn; splits; [reflexivity | reflexivity | solve_same].
  - eexists _, _; split; [reflexivity|].
    unfold chat_quiet; cbn; splits; [reflexivity | reflexivity | solve_same].
Qed.

Arguments Chat.addMessage : simpl never.
Arguments Chat.hideTypingIndicator : simpl never.

Ltac chat_step :=
  match goal with
  | |- context [Chat.addMessage ?a ?b ?c ?st] =>
      let E := fresh "E" in
      destruct (addMessage_quiet a b c st) as (?s & ?l & E & ?Hq);
      rewrite E; clear E; cbn
  | |- context [Chat.hideTypingIndicator ?a ?st] =>
      let E := fresh "E" in
      destruct (hideTypingIndicator_quiet a st) as (?s & ?l & E & ?Hq);
      rewrite E; clear E; cbn
  end.

(** [sendMessage] up to the request: with an input element, text in it and
    a message container the request goes out; without any of them none
    does. *)
Lemma chat_send_run (s : State Chat.Vars) :
  let text := trim (Chat.value_of (browser s) "messageInput") in
  let turn := {| role := user; content := text |} in
  let typed := present (dom (browser s)) "messageInput" && truthy text in
  let sent := typed && present (dom (browser s)) "chatMessages" in
  exists r s' l,
    Chat.sendMessage_send s = (r, s', l)
    /\ same_elements (dom (browser s)) (dom (browser s'))
    /\ Chat.conversationHistory (vars s')
       = (if typed then Chat.conversationHistory (vars s) ++ [turn]
          else Chat.conversationHistory (vars s))
    /\ fetches l
       = (if sent
          then [Chat.generate_request (Chat.push_turn turn (vars s)) text]
          else [])
    /\ (forall id, r = Ok (Some id) -> sent = true)
    /\ (sent = true -> exists id, r = Ok (Some id)).
Proof.
  intros text turn typed sent. subst text turn typed sent.
  open_state s. unfold Chat.sendMessage_send, Chat.showTypingIndicator,
    Chat.value_of.
  unfold getElementById, bind, get_browser, ret. cbn. unfold present.
  destruct (d "messageInput") as [input|] eqn:Hin; cbn; rewrite ?Hin; cbn.
  2: { eexists _, _, _. split; [reflexivity|]. cbn. splits; try reflexivity.
       - apply same_elements_refl.
       - discriminate.
       - discriminate. }
  destruct (truthy (trim (value input))) eqn:Ht; cbn.
  2: { eexists _, _, _. split; [reflexivity|]. cbn. splits; try reflexivity.
       - apply same_elements_refl.
       - discriminate.
       - discriminate. }
  unfold modify_vars. cbn. chat_step.
  match goal with
  | H : chat_quiet _ ?s1 _ |- _ =>
      destruct H as (Hh & Hf & Hs); destruct s1 as [v0 [d0 ? ? ? ? ? ?]]
  end. cbn in *.
  assert (Hin0 : present d0 "messageInput" = true)
    by (rewrite Hs; unfold present; now rewrite Hin).
  unfold write, bind, get_browser, modify_browser, emit, throw, get_vars, ret.
  cbn. unfold present in Hin0.
  destruct (d0 "messageInput") as [input0|] eqn:Hin0'; [|discriminate].
  cbn.
  pose proof (Hs "chatMessages") as Hc. unfold present in Hc.
  destruct (d0 "chatMessages") as [c0|] eqn:Hc0; cbn.
  - eexists _, _, _. split; [reflexivity|]. cbn.
    destruct (d "chatMessages"); [|discriminate]. cbn. splits.
    + eapply same_elements_trans; [exact Hs|]. solve_same.
    + now rewrite Hh.
    + rewrite !fetches_app, Hf. cbn. unfold Chat.generate_request.
      rewrite Hh. reflexivity.
    + reflexivity.
    + eauto.
  - eexists _, _, _. split; [reflexivity|]. cbn.
    destruct (d "chatMessages"); [discriminate|]. cbn. splits.
    + eapply same_elements_trans; [exact Hs|]. solve_same.
    + now rewrite Hh.
    + rewrite !fetches_app, Hf. reflexivity.
    + discriminate.
    + discriminate.
Qed.

Lemma chat_settle_general id o (s : State Chat.Vars) :
  exists r s' l more,
    Chat.sendMessage_settle id o s = (r, s', l)
    /\ fetches l = []
    /\ Chat.conversationHistory (vars s')
       = Chat.conversationHistory (vars s) ++ more.
Proof.
  unfold Chat.sendMessage_settle, try_catch, bind, throw, ret, response_json,
    when, modify_vars, emit.
  destruct o as [e|[k st stt [data|e]]]; cbn.
  all: try destruct k; cbn.
  all: try (destruct (success data); cbn).
  all: try (destruct (memory_extracted data); cbn).
  all: repeat chat_step.
  all: repeat match goal with H : chat_quiet _ _ _ |- _ =>
         destruct H as (? & ? & ?) end.
  all: cbn in *.
  all: try (eexists _, _, _, []; split; [reflexivity|]; split;
            [ cbn; rewrite ?fetches_app; cbn;
              repeat match goal with H : fetches _ = [] |- _ => rewrite H end;
              reflexivity
            | rewrite app_nil_r; congruence ]).
  all: eexists _, _, _, [_]; split; [reflexivity|]; split;
        [ cbn; rewrite ?fetches_app; cbn;
          repeat match goal with H : fetches _ = [] |- _ => rewrite H end;
          reflexivity
        | cbn;
          repeat match goal with
                 | H : Chat.conversationHistory _ = _ |- _ => rewrite H; clear H
                 end; reflexivity ].
Qed.

(** [sendMessage]: at most one request, sent from the history with the
    user turn appended; the history only grows. *)
Lemma chat_handle_run o (s : State Chat.Vars) :
  let text := trim (Chat.value_of (browser s) "messageInput") in
  let turn := {| role := user; content := text |} in
  let sent := present (dom (browser s)) "messageInput" && truthy text
              && present (dom (browser s)) "chatMessages" in
  exists r s' l more,
    Chat.sendMessage o s = (r, s', l)
    /\ fetches l
       = (if sent
          then [Chat.generate_request (Chat.push_turn turn (vars s)) text]
          else [])
    /\ Chat.conversationHistory (vars s')
       = Chat.conversationHistory (vars s) ++ more.
Proof.
  intros text turn sent. unfold Chat.sendMessage, bind.
  destruct (chat_send_run s) as (r1 & s1 & l1 & E1 & _ & Hh1 & Hf1 & Hr1 & _).
  fold text turn sent in Hh1, Hf1, Hr1. rewrite E1. clear E1.
  destruct r1 as [[id|]|e].
  - destruct (chat_settle_general id o s1) as (r2 & s2 & l2 & more & E2 & Hf2 & Hh2).
    rewrite E2. pose proof (Hr1 id eq_refl) as Hsent.
    rewrite Hsent in Hf1 |- *. unfold sent in Hsent.
    apply andb_true_iff in Hsent as [Ht Hc]. rewrite Ht in Hh1.
    exists r2, s2, (l1 ++ l2), (turn :: more). split; [reflexivity|].
    rewrite fetches_app, Hf1, Hf2, Hh2, Hh1.
    rewrite <- app_assoc. split; reflexivity.
  - exists (Ok tt), s1, (l1 ++ []).
    exists (if present (dom (browser s)) "messageInput" && truthy text
            then [turn] else []).
    split; [reflexivity|]. rewrite app_nil_r, Hf1, Hh1.
    split; [reflexivity|]. destruct (_ && truthy text); [reflexivity|].
    now rewrite app_nil_r.
  - exists (Throw e), s1, l1.
    exists (if present (dom (browser s)) "messageInput" && truthy text
            then [turn] else []).
    split; [reflexivity|]. rewrite Hf1, Hh1.
    split; [reflexivity|]. destruct (_ && truthy text); [reflexivity|].
    now rewrite app_nil_r.
Qed.

(** ** The context window of a request *)

(** C1. For every conversation history, the body of the request sent to
    the ask endpoint ([handleVoiceInput]) and to the generate endpoint
    ([sendMessage]) carries the 10 most recent turns of the local history
    (all of them when there are fewer), in their original order; the local
    history at that moment is the previous one with the user turn appended,
    and after the exchange it still starts with the previous history: no
    turn is removed.  A text that is not blank (for the chat page: an input
    element holding one, and a message container) does send one request. *)
Theorem context_window_last_ten :
  forall (s : State Voice.Vars) (text : jsstring) (o : FetchOutcome)
         (p : Voice.Playback) (c : State Chat.Vars) (oc : FetchOutcome),
    let run := Voice.handleVoiceInput text o p s in
    let h := Voice.conversationHistory (vars s)
             ++ [{| role := user; content := text |}] in
    let crun := Chat.sendMessage oc c in
    let ctext := trim (Chat.value_of (browser c) "messageInput") in
    let ch := Chat.conversationHistory (vars c)
              ++ [{| role := user; content := ctext |}] in
    (forall rq, In rq (fetches (log_of run)) ->
       length (window_of rq) <= 10 /\ most_recent 10 (window_of rq) h)
    /\ (blank text = false ->
        exists rq, fetches (log_of run) = [rq]
          /\ req_url rq = Voice.API_BASE (vars s) +++ "/voice/ask/")
    /\ (exists more,
          Voice.conversationHistory (vars (state_of run))
          = Voice.conversationHistory (vars s) ++ more)
    /\ (forall rq, In rq (fetches (log_of crun)) ->
         length (window_of rq) <= 10 /\ most_recent 10 (window_of rq) ch)
    /\ (present (dom (browser c)) "messageInput" = true ->
        truthy ctext = true ->
        present (dom (browser c)) "chatMessages" = true ->
        exists rq, fetches (log_of crun) = [rq]
          /\ req_url rq = Chat.API_BASE +++ "/generate/")
    /\ (exists more,
          Chat.conversationHistory (vars (state_of crun))
          = Chat.conversationHistory (vars c) ++ more).
Proof.
  intros s text o p c oc run h crun ctext ch. splits.
  - intros rq Hin. apply voice_handle_window in Hin.
    split; [eapply most_recent_length; eassumption | assumption].
  - intros Hb.
    destruct (voice_handle_run text o p s Hb)
      as (v' & d' & l & more & E & _ & Hf & _).
    subst run. rewrite E. unfold log_of. cbn [snd]. rewrite Hf.
    eexists. split; reflexivity.
  - apply voice_handle_grows.
  - destruct (chat_handle_run oc c) as (r & s' & l & more & E & Hf & _).
    subst crun. rewrite E. unfold log_of. cbn [snd]. rewrite Hf.
    intros rq Hin. destruct (_ && _); [|destruct Hin].
    destruct Hin as [<-|[]]. cbn.
    pose proof (slice_last_most_recent 10 ch) as Hm.
    split; [eapply most_recent_length; eassumption | assumption].
  - intros H1 H2 H3.
    destruct (chat_handle_run oc c) as (r & s' & l & more & E & Hf & _).
    subst crun. rewrite E. unfold log_of. cbn [snd]. rewrite Hf.
    fold ctext. rewrite H1, H2, H3. cbn. eexists. split; reflexivity.
  - destruct (chat_handle_run oc c) as (r & s' & l & more & E & _ & Hh).
    subst crun. rewrite E. exists more. exact Hh.
Qed.

Lemma context_window_last_ten_witness :
  (exists rq,
     fetches (log_of (Voice.handleVoiceInput "hello" (FetchRejected JsEvent)
                        Voice.PlaybackPending voice0)) = [rq]
     /\ req_url rq = Voice.API_BASE (vars voice0) +++ "/voice/ask/")
  /\ (exists rq,
        fetches (log_of (Chat.sendMessage (FetchRejected JsEvent) chat1)) = [rq]
        /\ req_url rq = Chat.API_BASE +++ "/generate/").
Proof.
  pose proof (context_window_last_ten voice0 "hello" (FetchRejected JsEvent)
                Voice.PlaybackPending chat1 (FetchRejected JsEvent)) as H.
  cbv zeta in H.
  destruct H as (_ & Hv & _ & _ & Hc & _).
  split; [apply Hv; reflexivity | apply Hc; reflexivity].
Defined.

(** ** Failed and silent replies on the voice page *)

Lemma never_speaks_fetch r : never_speaks [Fetch r].
Proof. reflexivity. Qed.

Lemma voice_handle_failed text o p (s : State Voice.Vars) :
  blank text = false -> failed_exchange o = true ->
  let v' := Voice.push_turn {| role := user; content := text |} (vars s) in
  exists d' l,
    Voice.handleVoiceInput text o p s = (Ok tt, with_dom d' (with_vars v' s), l)
    /\ never_speaks l
    /\ status_types l
       = if_present (dom (browser s)) "statusMessage"
           [js "processing"; js "error"]
    /\ (present (dom (browser s)) "statusMessage" = true ->
        controller (set_dom d' (browser s)) = Some Error)
    /\ (present (dom (browser s)) "statusText" = true ->
        text_of (set_dom d' (browser s)) "statusText"
        = Some ("Error: " +++ message_of (thrown_by o)))
    /\ (present (dom (browser s)) "waveform" = true ->
        class_of (set_dom d' (browser s)) "waveform" = Some [js "waveform"]).
Proof.
  intros Hb Hf v'. unfold Voice.handleVoiceInput, bind.
  destruct (voice_send_run text s Hb) as (d1 & l1 & E1 & Hs1 & Hl1 & Hn1 & Hy1).
  rewrite E1. clear E1. rewrite voice_settle_failed by assumption.
  match goal with |- context [Voice.handleVoiceInput_catch ?e ?s1] =>
    destruct (voice_catch_run e s1)
      as (d2 & l2 & E2 & Hs2 & Hl2 & Hn2 & Hy2 & Hc2 & Ht2 & Hw2);
    rewrite E2; clear E2 end.
  cbn in *. eexists d2, _. split; [reflexivity|]. splits.
  - rewrite !never_speaks_app. auto using never_speaks_fetch.
  - rewrite !status_types_app, Hy1, Hy2. cbn.
    rewrite (if_present_same _ _ _ _ Hs1). unfold if_present, present.
    match goal with |- context [match ?x with _ => _ end] => now destruct x end.
  - intros H. apply Hc2. now rewrite Hs1.
  - intros H. apply Ht2. now rewrite Hs1.
  - intros H. apply Hw2. now rewrite Hs1.
Qed.


Lemma voice_handle_no_audio text r data p (s : State Voice.Vars) :
  blank text = false ->
  ok r = true -> json r = JsonOk data -> success data = true ->
  truthy_value (audio_url data) = None ->
  let v' := Voice.push_turn {| role := assistant;
                               content := response_text data |}
              (Voice.push_turn {| role := user; content := text |} (vars s)) in
  exists d' l,
    Voice.handleVoiceInput text (FetchResolved r) p s
    = (Ok tt, with_dom d' (with_vars v' s), l)
    /\ never_speaks l
    /\ status_types l
       = if_present (dom (browser s)) "statusMessage" [js "processing"]
    /\ (present (dom (browser s)) "statusMessage" = true ->
        controller (set_dom d' (browser s)) = Some Idle)
    /\ (present (dom (browser s)) "statusText" = true ->
        text_of (set_dom d' (browser s)) "statusText"
        = Some (js "Ready to listen"))
    /\ (present (dom (browser s)) "waveform" = true ->
        class_of (set_dom d' (browser s)) "waveform" = Some [js "waveform"]).
Proof.
  intros Hb Hk Hj Hs Ha v'. unfold Voice.handleVoiceInput.
  unfold bind at 1.
  destruct (voice_send_run text s Hb) as (d1 & l1 & E1 & Hs1 & Hl1 & Hn1 & Hy1).
  rewrite E1. clear E1.
  rewrite (voice_settle_no_audio r data p _ Hk Hj Hs Ha).
  match goal with |- context [bind _ _ ?s1] =>
    destruct (voice_ready_run s1)
      as (d2 & l2 & E2 & Hs2 & Hl2 & Hn2 & Hy2 & Hc2 & Ht2 & Hw2);
    rewrite E2; clear E2 end.
  cbn in *. eexists d2, _. split; [reflexivity|]. splits.
  - rewrite !never_speaks_app. auto using never_speaks_fetch.
  - rewrite !status_types_app, Hy1, Hy2. cbn. rewrite !app_nil_r.
    apply if_present_same. apply same_elements_refl.
  - intros H. apply Hc2. now rewrite Hs1.
  - intros H. apply Ht2. now rewrite Hs1.
  - intros H. apply Hw2. now rewrite Hs1.
Qed.

(** ** A reply without audio *)

(** C6. For every ask-endpoint response with success true and no audio
    URL the voice controller goes from Processing directly to Idle: the
    handler ends with the waveform reset and the status "Ready to listen",
    no other status type is shown on the way, the Speaking state is never
    entered and no playback is started; the user turn and the assistant
    turn are appended. *)
Theorem ask_success_without_audio_goes_idle :
  forall (s : State Voice.Vars) (text : jsstring) (r : Response) (data : Reply)
         (p : Voice.Playback),
    blank text = false ->
    ok r = true -> json r = JsonOk data -> success data = true ->
    audio_url data = None ->
    let run := Voice.handleVoiceInput text (FetchResolved r) p s in
    let b := browser (state_of run) in
    result_of run = Ok tt
    /\ never_speaks (log_of run)
    /\ plays (log_of run) = []
    /\ status_types (log_of run)
       = if_present (dom (browser s)) "statusMessage" [js "processing"]
    /\ (present (dom (browser s)) "statusMessage" = true ->
        controller b = Some Idle)
    /\ (present (dom (browser s)) "statusText" = true ->
        text_of b "statusText" = Some (js "Ready to listen"))
    /\ (present (dom (browser s)) "waveform" = true ->
        class_of b "waveform" = Some [js "waveform"])
    /\ Voice.conversationHistory (vars (state_of run))
       = Voice.conversationHistory (vars s)
         ++ [{| role := user; content := text |};
             {| role := assistant; content := response_text data |}].
Proof.
  intros s text r data p Hb Hk Hj Hs Ha run b.
  assert (Ha' : truthy_value (audio_url data) = None) by now rewrite Ha.
  destruct (voice_handle_no_audio text r data p s Hb Hk Hj Hs Ha')
    as (d' & l & E & Hn & Hy & Hc & Ht & Hw).
  subst run b. rewrite E. cbn. splits; auto.
  - now apply never_speaks_plays.
  - now rewrite <- app_assoc.
Qed.

Lemma ask_success_without_audio_goes_idle_witness :
  let run := Voice.handleVoiceInput "hello"
               (FetchResolved (http_ok (success_data "hi there" None)))
               Voice.PlaybackPending voice0 in
  controller (browser (state_of run)) = Some Idle
  /\ plays (log_of run) = [].
Proof.
  pose proof (ask_success_without_audio_goes_idle voice0 "hello"
                (http_ok (success_data "hi there" None))
                (success_data "hi there" None)
                Voice.PlaybackPending eq_refl eq_refl eq_refl eq_refl eq_refl)
    as H.
  cbv zeta in H. destruct H as (_ & _ & Hp & _ & Hc & _).
  split; [apply Hc; reflexivity | exact Hp].
Defined.

(** ** Sessions: the history only grows *)

Lemma voice_session_grows xs (s : State Voice.Vars) :
  exists more,
    Voice.conversationHistory (vars (fst (voice_session xs s)))
    = Voice.conversationHistory (vars s) ++ more.
Proof.
  revert s. induction xs as [|[[text o] p] xs IH]; intros s.
  - exists []. cbn. now rewrite app_nil_r.
  - cbn [voice_session fst].
    destruct (IH (state_of (Voice.handleVoiceInput text o p s))) as [m2 H2].
    destruct (voice_handle_grows text o p s) as [m1 H1].
    exists (m1 ++ m2). rewrite H2, H1. now rewrite app_assoc.
Qed.

(** ** A failed exchange *)

(** C9 (amended). On every failed ask exchange of the voice page (rejected
    request, response that is not 2xx or does not parse, body with success
    false) the user turn appended before the request stays in the local
    history: the failure path adds and removes nothing, and no later
    exchange removes it.  A later request carries that turn, at its place,
    as long as it is among the 10 most recent turns: whenever at most 8
    turns were appended after it before the request's own user turn. *)
Theorem failed_turn_stays_in_history :
  forall (s : State Voice.Vars) (text : jsstring) (o : FetchOutcome)
         (p : Voice.Playback),
    blank text = false -> failed_exchange o = true ->
    let turn := {| role := user; content := text |} in
    let s1 := state_of (Voice.handleVoiceInput text o p s) in
    let h := Voice.conversationHistory (vars s) in
    Voice.conversationHistory (vars s1) = h ++ [turn]
    /\ (forall xs, exists newer,
          Voice.conversationHistory (vars (fst (voice_session xs s1)))
          = h ++ turn :: newer)
    /\ (forall (s2 : State Voice.Vars) newer text2 o2 p2,
          Voice.conversationHistory (vars s2) = h ++ turn :: newer ->
          length newer <= 8 -> blank text2 = false ->
          exists rq pre,
            fetches (log_of (Voice.handleVoiceInput text2 o2 p2 s2)) = [rq]
            /\ window_of rq
               = pre ++ turn :: newer
                 ++ [{| role := user; content := text2 |}]).
Proof.
  intros s text o p Hb Hf turn s1 h.
  assert (H1 : Voice.conversationHistory (vars s1) = h ++ [turn]).
  { destruct (voice_handle_failed text o p s Hb Hf) as (d' & l & E & _).
    subst s1. rewrite E. reflexivity. }
  splits; auto.
  - intros xs. destruct (voice_session_grows xs s1) as [more Hm].
    exists more. rewrite Hm, H1, <- app_assoc. reflexivity.
  - intros s2 newer text2 o2 p2 Hh Hlen Hb2.
    destruct (voice_handle_run text2 o2 p2 s2 Hb2)
      as (v' & d' & l & more & E & _ & Hfe & _).
    rewrite E. unfold log_of. cbn [snd]. rewrite Hfe.
    destruct (slice_last_keeps 10 h turn
                (newer ++ [{| role := user; content := text2 |}]))
      as [pre Hpre].
    { rewrite length_app. cbn. lia. }
    eexists. exists pre. split; [reflexivity|].
    cbn. rewrite Hh, <- app_assoc. exact Hpre.
Qed.

Lemma failed_turn_stays_in_history_witness :
  let turn := {| role := user; content := js "a" |} in
  let s1 := state_of (Voice.handleVoiceInput "a" (FetchRejected JsEvent)
                        Voice.PlaybackPending voice0) in
  Voice.conversationHistory (vars s1) = [turn]
  /\ exists rq pre,
       fetches (log_of (Voice.handleVoiceInput "b" (FetchRejected JsEvent)
                          Voice.PlaybackPending s1)) = [rq]
       /\ window_of rq = pre ++ [turn; {| role := user; content := js "b" |}].
Proof.
  pose proof (failed_turn_stays_in_history voice0 "a"
                (FetchRejected JsEvent) Voice.PlaybackPending
                eq_refl eq_refl) as H.
  cbv zeta in H. destruct H as (H1 & _ & H5).
  split; [exact H1|].
  apply (H5 _ [] "b" (FetchRejected JsEvent) Voice.PlaybackPending).
  - exact H1.
  - apply Nat.le_0_l.
  - reflexivity.
Defined.

(** C9 as stated fails: a request made after ten more turns no longer
    carries the failed turn, though the history still has it. *)
Lemma failed_turn_leaves_the_window :
  let turn := {| role := user; content := js "a" |} in
  let s1 := state_of (Voice.handleVoiceInput "a" (FetchRejected JsEvent)
                        Voice.PlaybackPending voice0) in
  let later := repeat (js "b", FetchRejected JsEvent, Voice.PlaybackPending)
                 10 in
  In turn (Voice.conversationHistory (vars (fst (voice_session later s1))))
  /\ exists rq,
       In rq (fetches (snd (voice_session later s1)))
       /\ ~ In turn (window_of rq).
Proof.
  vm_compute. split; [left; reflexivity|].
  eexists. split; [do 9 right; left; reflexivity|].
  cbn. intros H.
  repeat (destruct H as [H|H]; [discriminate H|]). exact H.
Qed.

(** ** Voice-sample capture *)

Lemma list_update_length (A : Type) i (x : A) l :
  length (list_update i x l) = length l.
Proof.
  revert i. induction l as [|y l IH]; intros [|i]; cbn; auto.
Qed.

Lemma list_update_same (A : Type) i (x : A) l :
  i < length l -> nth_error (list_update i x l) i = Some x.
Proof.
  revert i. induction l as [|y l IH]; intros [|i] H; cbn in *; try lia; auto.
  apply IH. lia.
Qed.

Lemma list_update_other (A : Type) i j (x : A) l :
  i <> j -> nth_error (list_update i x l) j = nth_error l j.
Proof.
  revert i j. induction l as [|y l IH]; intros [|i] [|j] H; cbn; auto.
  congruence.
Qed.

(** The loop of [stop_tracks]: every track whose index is in the list is
    ended, the others and the other streams are as before. *)
Lemma stop_tracks_loop (V : Type) stream idxs (s : State V) :
  exists s' l,
    forEach idxs (track_stop stream) s = (Ok tt, s', l)
    /\ vars s' = vars s
    /\ dom (browser s') = dom (browser s)
    /\ recorders (browser s') = recorders (browser s)
    /\ fetches l = []
    /\ track_stops l = map (pair stream) idxs
    /\ (forall j, j <> stream ->
          nth_error (streams (browser s')) j = nth_error (streams (browser s)) j)
    /\ (forall ts, nth_error (streams (browser s)) stream = Some ts ->
          exists ts', nth_error (streams (browser s')) stream = Some ts'
            /\ length ts' = length ts
            /\ (forall i, In i idxs -> i < length ts ->
                  nth_error ts' i = Some ended)
            /\ (forall i, ~ In i idxs -> nth_error ts' i = nth_error ts i)).
Proof.
  revert s. induction idxs as [|i idxs IH]; intros s.
  - exists s, []. cbn. splits; auto.
    intros ts H. exists ts. splits; auto. intros i [].
  - cbn [forEach]. unfold bind at 1.
    unfold track_stop at 1, bind, modify_browser, emit.
    match goal with |- context [forEach idxs _ ?s1] =>
      destruct (IH s1) as (s' & l & E & Hv & Hd & Hr & Hf & Ht & Ho & Hs);
      rewrite E; clear E end.
    exists s', (TrackStop stream i :: l). split; [reflexivity|].
    cbn in *. splits; auto.
    + rewrite Hd. now destruct (nth_error (streams (browser s)) stream).
    + rewrite Hr. now destruct (nth_error (streams (browser s)) stream).
    + f_equal. exact Ht.
    + intros j Hj. rewrite (Ho j Hj).
      destruct (nth_error (streams (browser s)) stream); [|reflexivity].
      cbn. apply list_update_other. congruence.
    + intros ts Hts. rewrite Hts in *. cbn in *.
      assert (Hlt : stream < length (streams (browser s))).
      { apply nth_error_Some. congruence. }
      destruct (Hs (list_update i ended ts)) as (ts' & E' & Hl & Hin & Hout).
      { now apply list_update_same. }
      exists ts'. rewrite list_update_length in Hl. splits; auto.
      * intros k [<-|Hk] Hklt.
        -- destruct (in_dec Nat.eq_dec i idxs) as [Hi|Hi].
           ++ apply Hin; [assumption | now rewrite list_update_length].
           ++ rewrite (Hout i Hi). now apply list_update_same.
        -- apply Hin; [assumption | now rewrite list_update_length].
      * intros k Hk. rewrite Hout by tauto.
        apply list_update_other. tauto.
Qed.

Lemma stop_tracks_run stream (s : State Voice.Vars) :
  exists s' l,
    stop_tracks stream s = (Ok tt, s', l)
    /\ vars s' = vars s
    /\ dom (browser s') = dom (browser s)
    /\ recorders (browser s') = recorders (browser s)
    /\ fetches l = []
    /\ (forall j, j <> stream ->
          nth_error (streams (browser s')) j = nth_error (streams (browser s)) j)
    /\ (forall ts, nth_error (streams (browser s)) stream = Some ts ->
          nth_error (streams (browser s')) stream
          = Some (repeat ended (length ts))
          /\ track_stops l = map (pair stream) (seq 0 (length ts))).
Proof.
  unfold stop_tracks, bind at 1, get_browser. cbn.
  destruct (nth_error (streams (browser s)) stream) as [ts|] eqn:Hts.
  - destruct (stop_tracks_loop Voice.Vars stream (seq 0 (length ts)) s)
      as (s' & l & E & Hv & Hd & Hr & Hf & Ht & Ho & Hs).
    rewrite E. exists s', l. cbn. splits; auto.
    intros ts0 [= <-]. destruct (Hs ts Hts) as (ts' & E' & Hl & Hin & _).
    split; [|assumption]. rewrite E'. f_equal.
    apply nth_error_ext. intros i.
    destruct (Nat.lt_ge_cases i (length ts)) as [Hlt|Hge].
    + rewrite Hin by (try apply in_seq; lia).
      symmetry. rewrite nth_error_repeat; auto.
    + rewrite (proj2 (nth_error_None _ _)) by lia.
      symmetry. apply nth_error_None. rewrite repeat_length. lia.
  - exists s, []. destruct s. cbn. splits; auto. discriminate.
Qed.

Lemma classList_remove_gone c l :
  existsb (jseqb c) (classList_remove c l) = false.
Proof.
  unfold classList_remove. induction l as [|x l IH]; [reflexivity|].
  cbn. destruct (jseqb c x) eqn:E; cbn; [assumption|]. now rewrite E.
Qed.

(** A write guarded by the element's presence. *)
Lemma guarded_write_run (V : Type) id w (flag : bool) (s : State V) :
  flag = present (dom (browser s)) id ->
  exists d' l,
    when flag (write id w) s = (Ok tt, with_dom d' s, l)
    /\ same_elements (dom (browser s)) d'
    /\ dom_log l
    /\ (forall id', id' <> id -> d' id' = dom (browser s) id')
    /\ d' id = option_map (apply_write w) (dom (browser s) id).
Proof.
  intros ->. open_state s. unfold when, write, present. unfold_monad. cbn.
  destruct (d id) as [e|] eqn:He; cbn.
  - rewrite He. cbn. eexists _, _. split; [reflexivity|]. cbn. splits.
    + eapply dom_set_present; eauto.
    + reflexivity.
    + intros id' H. apply dom_set_other. congruence.
    + apply dom_set_same.
  - eexists d, _. split; [reflexivity|]. cbn. splits; auto;
      try reflexivity; try apply same_elements_refl.
Qed.

Lemma showRecordingResult_run message type (s : State Voice.Vars) :
  exists d' l,
    Voice.showRecordingResult message type s = (Ok tt, with_dom d' s, l)
    /\ same_elements (dom (browser s)) d'
    /\ dom_log l
    /\ (forall id, id <> "recordingResult" -> d' id = dom (browser s) id)
    /\ (present (dom (browser s)) "recordingResult" = true ->
        option_map textContent (d' "recordingResult") = Some message
        /\ option_map className (d' "recordingResult")
           = Some [js "recording-result"; type]
        /\ option_map display (d' "recordingResult") = Some (js "block")).
Proof.
  open_state s. unfold Voice.showRecordingResult. unfold_monad. run.
  - eexists _, _. split; [reflexivity|]. cbn. splits;
      [solve_same | reflexivity | solve_frame | auto].
  - eexists _, _. split; [reflexivity|]. cbn. splits;
      [solve_same | reflexivity | solve_frame | discriminate].
Qed.

Arguments Voice.showRecordingResult : simpl never.

Lemma resetRecordingUI_run (s : State Voice.Vars) :
  exists d' l,
    Voice.resetRecordingUI s
    = (Ok tt,
       with_dom d' (with_vars (Voice.set_isRecordingSetup false (vars s)) s), l)
    /\ same_elements (dom (browser s)) d'
    /\ dom_log l
    /\ (forall id, id <> "recordBtn" -> id <> "statusDot" ->
                   id <> "recordingStatusText" -> id <> "recordingTimer" ->
                   d' id = dom (browser s) id)
    /\ (present (dom (browser s)) "recordingStatusText" = true ->
        option_map textContent (d' "recordingStatusText")
        = Some (js "Ready to record"))
    /\ (present (dom (browser s)) "recordingTimer" = true ->
        option_map display (d' "recordingTimer") = Some (js "none"))
    /\ (forall e, dom (browser s) "recordBtn" = Some e ->
        option_map className (d' "recordBtn")
        = Some (classList_remove "recording" (className e)))
    /\ (forall e, dom (browser s) "statusDot" = Some e ->
        option_map className (d' "statusDot")
        = Some (classList_remove "recording" (className e))).
Proof.
  open_state s. unfold Voice.resetRecordingUI. unfold_monad. run.
  all: eexists _, _; (split; [reflexivity|]); cbn; splits;
    [ solve_same | reflexivity | solve_frame | .. ].
  all: try discriminate; try reflexivity.
  all: try (intros ? [= <-]; reflexivity).
Qed.

Arguments Voice.resetRecordingUI : simpl never.

Arguments when : simpl never.
Arguments write : simpl never.

Ltac setup_step :=
  match goal with
  | |- context [Voice.showRecordingResult ?a ?b ?st] =>
      let E := fresh "E" in
      destruct (showRecordingResult_run a b st)
        as (?d & ?l & E & ?Hsame & ?Hlog & ?Hframe & ?Hshown);
      rewrite E; clear E; cbn in *
  | |- context [Voice.resetRecordingUI ?st] =>
      let E := fresh "E" in
      destruct (resetRecordingUI_run st)
        as (?d & ?l & E & ?Hsame & ?Hlog & ?Hframe & ?Htext & ?Htimer
            & ?Hbtn & ?Hdot);
      rewrite E; clear E; cbn in *
  | |- context [when ?flag (write ?id ?w) ?st] =>
      let E := fresh "E" in
      let H := fresh "H" in
      assert (H : flag = present (dom (browser st)) id)
        by (cbn; repeat match goal with
                        | Hs : same_elements _ _ |- _ => rewrite Hs
                        end; reflexivity);
      destruct (guarded_write_run _ id w flag st H)
        as (?d & ?l & E & ?Hsame & ?Hlog & ?Hframe & ?Hwritten);
      rewrite E; clear E H; cbn in *
  end.

Lemma fetches_cons e l :
  fetches (e :: l) = match e with Fetch r => [r] | _ => [] end ++ fetches l.
Proof. reflexivity. Qed.

Lemma fetches_nil : fetches [] = [].
Proof. reflexivity. Qed.

Arguments fetches : simpl never.

Ltac dom_logs :=
  repeat rewrite ?fetches_app, ?fetches_cons, ?fetches_nil;
  repeat match goal with
         | H : dom_log ?l |- context [fetches ?l] =>
             rewrite (dom_log_fetches l H)
         | H : fetches ?l = _ |- context [fetches ?l] => rewrite H
         end;
  cbn [app]; rewrite ?app_nil_r; reflexivity.

Lemma uploadRecording_run audioBlob o (s : State Voice.Vars) :
  exists d' l,
    Voice.uploadRecording audioBlob o s = (Ok tt, with_dom d' s, l)
    /\ same_elements (dom (browser s)) d'
    /\ fetches l = [Voice.upload_request (vars s) audioBlob].
Proof.
  unfold Voice.uploadRecording, getElementById, try_catch, fetch.
  unfold bind, get_browser, get_vars, ret, throw, emit, response_json.
  cbn. setup_step.
  destruct o as [e|[k st stt [data|e]]]; cbn.
  all: try destruct k; cbn.
  all: try (destruct (success data); cbn).
  all: repeat setup_step.
  all: eexists _, _; (split; [reflexivity|]); split;
    [ eauto 6 using same_elements_trans | dom_logs ].
Qed.

Arguments Voice.uploadRecording : simpl never.

Lemma Qltb_true x y : (x < y)%Q -> Voice.Qltb x y = true.
Proof.
  intros H. unfold Voice.Qltb. destruct (Qle_bool y x) eqn:E; [|reflexivity].
  apply Qle_bool_iff in E. exfalso. eapply Qlt_not_le; eauto.
Qed.

Lemma Qltb_false x y : (y <= x)%Q -> Voice.Qltb x y = false.
Proof.
  intros H. unfold Voice.Qltb. apply Qle_bool_iff in H. now rewrite H.
Qed.

Arguments stop_tracks : simpl never.
Arguments Voice.too_short_message : simpl never.
Arguments Voice.actualDuration : simpl never.

(** ** A recording that is too short *)

Lemma onstop_short_run rec r now o (s : State Voice.Vars) :
  nth_error (recorders (browser s)) rec = Some r ->
  (Voice.actualDuration now (vars s) < 30)%Q ->
  let d := dom (browser s) in
  exists s' l,
    Voice.mediaRecorder_onstop rec now o s = (Ok tt, s', l)
    /\ fetches l = []
    /\ Voice.isRecordingSetup (vars s') = false
    /\ (present d "recordingResult" = true ->
        text_of (browser s') "recordingResult"
        = Some (Voice.too_short_message (Voice.actualDuration now (vars s)))
        /\ class_of (browser s') "recordingResult"
           = Some [js "recording-result"; js "error"]
        /\ display_of (browser s') "recordingResult" = Some (js "block"))
    /\ (present d "recordingStatusText" = true ->
        text_of (browser s') "recordingStatusText"
        = Some (js "Ready to record"))
    /\ (present d "recordingTimer" = true ->
        display_of (browser s') "recordingTimer" = Some (js "none"))
    /\ (present d "recordBtn" = true ->
        exists cls, class_of (browser s') "recordBtn" = Some cls
                    /\ existsb (jseqb "recording") cls = false)
    /\ (present d "statusDot" = true ->
        exists cls, class_of (browser s') "statusDot" = Some cls
                    /\ existsb (jseqb "recording") cls = false)
    /\ (forall ts, nth_error (streams (browser s)) (rec_stream r) = Some ts ->
        nth_error (streams (browser s')) (rec_stream r)
        = Some (repeat ended (length ts))).
Proof.
  intros Hr Hd d. subst d.
  unfold Voice.mediaRecorder_onstop.
  unfold bind at 1, get_browser. cbn. rewrite Hr. unfold bind at 1.
  destruct (stop_tracks_run (rec_stream r) s)
    as (s0 & l0 & E0 & Hv0 & Hd0 & Hr0 & Hf0 & Ho0 & Hs0).
  rewrite E0. unfold bind at 1, get_vars. cbn. rewrite Hv0.
  rewrite (Qltb_true _ _ Hd). unfold bind. repeat setup_step.
  eexists _, _. split; [reflexivity|].
  unfold text_of, class_of, display_of. cbn. rewrite Hd0 in *. splits.
  - dom_logs.
  - reflexivity.
  - intros H. rewrite !Hframe0 by discriminate. auto.
  - intros H. apply Htext. now rewrite Hsame.
  - intros H. apply Htimer. now rewrite Hsame.
  - intros H. unfold present in H.
    destruct (dom (browser s) "recordBtn") as [e|] eqn:He; [|discriminate].
    rewrite (Hbtn e) by (rewrite Hframe by discriminate; exact He).
    eexists. split; [reflexivity | apply classList_remove_gone].
  - intros H. unfold present in H.
    destruct (dom (browser s) "statusDot") as [e|] eqn:He; [|discriminate].
    rewrite (Hdot e) by (rewrite Hframe by discriminate; exact He).
    eexists. split; [reflexivity | apply classList_remove_gone].
  - intros ts Hts. apply Hs0, Hts.
Qed.

(** C2. For every setup recording whose elapsed wall-clock duration, taken
    from the recording start time when the recorder's stop handler runs, is
    less than 30 seconds, the handler makes no upload call; it shows the
    "Recording too short" message as an error and resets the recording UI:
    the flag [isRecordingSetup] is off, the status reads "Ready to record",
    the timer is hidden and the button and status dot no longer carry the
    [recording] class. *)
Theorem short_recording_is_rejected :
  forall (s : State Voice.Vars) (rec : nat) (r : Recorder) (now : Z)
         (o : FetchOutcome),
    nth_error (recorders (browser s)) rec = Some r ->
    (Voice.actualDuration now (vars s) < 30)%Q ->
    let run := Voice.mediaRecorder_onstop rec now o s in
    let b := browser (state_of run) in
    let d := dom (browser s) in
    result_of run = Ok tt
    /\ fetches (log_of run) = []
    /\ Voice.isRecordingSetup (vars (state_of run)) = false
    /\ (present d "recordingResult" = true ->
        text_of b "recordingResult"
        = Some (Voice.too_short_message (Voice.actualDuration now (vars s)))
        /\ class_of b "recordingResult"
           = Some [js "recording-result"; js "error"]
        /\ display_of b "recordingResult" = Some (js "block"))
    /\ (present d "recordingStatusText" = true ->
        text_of b "recordingStatusText" = Some (js "Ready to record"))
    /\ (present d "recordingTimer" = true ->
        display_of b "recordingTimer" = Some (js "none"))
    /\ (present d "recordBtn" = true ->
        exists cls, class_of b "recordBtn" = Some cls
                    /\ existsb (jseqb "recording") cls = false)
    /\ (present d "statusDot" = true ->
        exists cls, class_of b "statusDot" = Some cls
                    /\ existsb (jseqb "recording") cls = false).
Proof.
  intros s rec r now o Hr Hd run b d.
  destruct (onstop_short_run rec r now o s Hr Hd) as (s' & l & E & H).
  subst run b d. rewrite E. split; [reflexivity | tauto].
Qed.

Lemma short_recording_is_rejected_witness :
  fetches (log_of (Voice.mediaRecorder_onstop 0 5000%Z (FetchRejected JsEvent)
                     stopped0)) = []
  /\ Voice.isRecordingSetup
       (vars (state_of (Voice.mediaRecorder_onstop 0 5000%Z
                          (FetchRejected JsEvent) stopped0))) = false.
Proof.
  pose proof (short_recording_is_rejected stopped0 0
                {| rec_stream := 0; rec_mimeType := "audio/webm;codecs=opus";
                   rec_state := inactive |}
                5000%Z (FetchRejected JsEvent) eq_refl eq_refl) as H.
  cbv zeta in H. destruct H as (_ & Hf & Hs & _). split; assumption.
Defined.

(** ** A recording of 30 seconds or more *)

Lemma deliver_run datas (s : State Voice.Vars) :
  exists s',
    deliver datas s = (Ok tt, s', [])
    /\ browser s' = browser s
    /\ Voice.API_BASE (vars s') = Voice.API_BASE (vars s)
    /\ Voice.recordingStartTime (vars s') = Voice.recordingStartTime (vars s)
    /\ Voice.audioChunks (vars s')
       = Voice.audioChunks (vars s)
         ++ filter (fun data : Blob => (0 <? blob_size data)%nat) datas.
Proof.
  unfold deliver. revert s. induction datas as [|data datas IH]; intros s.
  - exists s. cbn. splits; auto. now rewrite app_nil_r.
  - cbn [forEach filter]. unfold bind.
    unfold Voice.mediaRecorder_ondataavailable at 1, when, modify_vars, ret.
    destruct (0 <? blob_size data)%nat.
    + match goal with |- context [forEach datas _ ?s1] =>
        destruct (IH s1) as (s' & E & Hb & Ha & Ht & Hc); rewrite E end.
      exists s'. cbn in *. splits; auto. now rewrite Hc, <- app_assoc.
    + destruct (IH s) as (s' & E & Hb & Ha & Ht & Hc). rewrite E.
      exists s'. cbn. splits; auto.
Qed.

(** Empty segments carry no bytes. *)
Lemma concat_nonempty datas :
  concat (map blob_data (filter (fun data : Blob => (0 <? blob_size data)%nat) datas))
  = concat (map blob_data datas).
Proof.
  induction datas as [|data datas IH]; [reflexivity|].
  cbn [filter map concat].
  destruct (0 <? blob_size data)%nat eqn:E.
  - cbn [map concat]. now rewrite IH.
  - apply Nat.ltb_ge in E. unfold blob_size in E.
    assert (H : blob_data data = []) by (apply length_zero_iff_nil; lia).
    now rewrite H, IH.
Qed.

Lemma onstop_long_run rec r now o (s : State Voice.Vars) :
  nth_error (recorders (browser s)) rec = Some r ->
  (30 <= Voice.actualDuration now (vars s))%Q ->
  exists s' l,
    Voice.mediaRecorder_onstop rec now o s = (Ok tt, s', l)
    /\ fetches l
       = [Voice.upload_request (vars s)
            (new_Blob (Voice.audioChunks (vars s)) (rec_mimeType r))]
    /\ (forall ts, nth_error (streams (browser s)) (rec_stream r) = Some ts ->
        nth_error (streams (browser s')) (rec_stream r)
        = Some (repeat ended (length ts))).
Proof.
  intros Hr Hd.
  unfold Voice.mediaRecorder_onstop.
  unfold bind at 1, get_browser. cbn. rewrite Hr. unfold bind at 1.
  destruct (stop_tracks_run (rec_stream r) s)
    as (s0 & l0 & E0 & Hv0 & Hd0 & Hr0 & Hf0 & Ho0 & Hs0).
  rewrite E0. unfold bind at 1, get_vars. cbn. rewrite Hv0.
  rewrite (Qltb_false _ _ Hd).
  match goal with |- context [Voice.uploadRecording ?blob o ?s1] =>
    destruct (uploadRecording_run blob o s1) as (d1 & l1 & E1 & _ & Hf1);
    rewrite E1 end.
  eexists _, _. split; [reflexivity|]. split.
  - rewrite fetches_app, Hf0, Hf1, Hv0. reflexivity.
  - intros ts Hts. cbn. apply Hs0, Hts.
Qed.

(** C3. For every setup recording whose elapsed wall-clock duration is at
    least 30 seconds the stop handler makes exactly one upload call: a POST
    to the voice-sample endpoint whose body is multipart form data with the
    single field [audio_file], a file named voice-sample.webm whose bytes
    are the buffered audio chunks concatenated in order; the chunks are the
    segments the recorder delivered, in the order of delivery. *)
Theorem long_recording_is_uploaded_once :
  forall (s : State Voice.Vars) (datas : list Blob) (rec : nat) (r : Recorder)
         (now : Z) (o : FetchOutcome),
    nth_error (recorders (browser s)) rec = Some r ->
    (30 <= Voice.actualDuration now (vars s))%Q ->
    let s1 := state_of (deliver datas s) in
    let run := Voice.mediaRecorder_onstop rec now o s1 in
    exists file,
      fetches (log_of run)
      = [{| req_url := Voice.API_BASE (vars s) +++ "/voice/upload-sample/";
            req_method := "POST";
            req_content_type := None;
            req_credentials := Some (js "include");
            req_body := FormData [(js "audio_file", file)] |}]
      /\ file_name file = js "voice-sample.webm"
      /\ file_type file = js "audio/webm"
      /\ file_data file
         = concat (map blob_data (Voice.audioChunks (vars s)))
           ++ concat (map blob_data datas).
Proof.
  intros s datas rec r now o Hr Hd s1 run.
  destruct (deliver_run datas s) as (s' & E & Hb & Ha & Ht & Hc).
  subst s1 run. rewrite E. cbn [state_of fst snd].
  destruct (onstop_long_run rec r now o s') as (s2 & l & E2 & Hf & _).
  { now rewrite Hb. }
  { unfold Voice.actualDuration, Voice.elapsed_ms in *. now rewrite Ht. }
  rewrite E2. unfold log_of. cbn [snd]. rewrite Hf.
  eexists. unfold Voice.upload_request. rewrite Ha. split; [reflexivity|].
  cbn. rewrite Hc, map_app, concat_app, concat_nonempty, app_nil_r.
  auto.
Qed.

Lemma long_recording_is_uploaded_once_witness :
  exists file,
    fetches (log_of (Voice.mediaRecorder_onstop 0 31000%Z
                       (FetchRejected JsEvent)
                       (state_of (deliver
                          [{| blob_data := [Byte.x01; Byte.x02];
                              blob_type := "audio/webm" |};
                           {| blob_data := [Byte.x03];
                              blob_type := "audio/webm" |}] stopped0))))
    = [{| req_url := js "/api/voice/upload-sample/";
          req_method := "POST";
          req_content_type := None;
          req_credentials := Some (js "include");
          req_body := FormData [(js "audio_file", file)] |}]
    /\ file_data file = [Byte.x01; Byte.x02; Byte.x03].
Proof.
  assert (H30 : (30 <= Voice.actualDuration 31000%Z (vars stopped0))%Q)
    by (vm_compute; discriminate).
  destruct (long_recording_is_uploaded_once stopped0
              [{| blob_data := [Byte.x01; Byte.x02];
                  blob_type := "audio/webm" |};
               {| blob_data := [Byte.x03]; blob_type := "audio/webm" |}]
              0 {| rec_stream := 0; rec_mimeType := "audio/webm;codecs=opus";
                   rec_state := inactive |}
              31000%Z (FetchRejected JsEvent) eq_refl H30)
    as (file & Hf & _ & _ & Hd).
  exists file. split; [exact Hf | exact Hd].
Defined.

(** ** The microphone after a capture *)

(** The stop handler releases the microphone whichever branch it takes. *)
Lemma onstop_releases_microphone rec r now o ts (s : State Voice.Vars) :
  nth_error (recorders (browser s)) rec = Some r ->
  nth_error (streams (browser s)) (rec_stream r) = Some ts ->
  nth_error (streams (browser (state_of (Voice.mediaRecorder_onstop rec now o s))))
    (rec_stream r)
  = Some (repeat ended (length ts)).
Proof.
  intros Hr Hts.
  destruct (Qlt_le_dec (Voice.actualDuration now (vars s)) 30) as [Hd|Hd].
  - destruct (onstop_short_run rec r now o s Hr Hd) as (s' & l & E & H).
    rewrite E. decompose [and] H. auto.
  - destruct (onstop_long_run rec r now o s Hr Hd) as (s' & l & E & _ & H).
    rewrite E. auto.
Qed.

Lemma dom_log_track_stops l : dom_log l -> track_stops l = [].
Proof.
  unfold dom_log. induction l as [|e l IH]; [reflexivity|].
  destruct e; cbn; try discriminate. exact IH.
Qed.

(** Whenever the browser has no MediaRecorder, a granted microphone is
    left live by [startSetupRecording]: the tracks of the new stream are
    all live after the [catch] block and the log stops none. *)
Lemma setup_failure_leaks n now (s : State Voice.Vars) :
  Voice.isRecordingSetup (vars s) = false ->
  isTypeSupported (browser s) = None ->
  exists s' l,
    Voice.startSetupRecording (MicGranted n) now s = (Ok tt, s', l)
    /\ track_stops l = []
    /\ nth_error (streams (browser s')) (length (streams (browser s)))
       = Some (repeat live n)
    /\ Voice.isRecordingSetup (vars s') = false.
Proof.
  intros Hflag Hnone.
  unfold Voice.startSetupRecording, Voice.startSetupRecording_request.
  unfold bind at 1. unfold bind at 1, get_vars. cbn. rewrite Hflag.
  unfold bind at 1, emit, ret. cbn.
  unfold Voice.startSetupRecording_settle, try_catch.
  unfold bind at 1. unfold getUserMedia_settle.
  unfold bind at 1, get_browser. cbn.
  unfold bind at 1, modify_browser, ret. cbn.
  unfold bind at 1. unfold MediaRecorder_isTypeSupported at 1.
  unfold bind at 1, get_browser, throw. cbn. rewrite Hnone. cbn.
  unfold bind. repeat setup_step.
  eexists _, _. split; [reflexivity|]. cbn. splits.
  - rewrite !track_stops_app, !dom_log_track_stops by assumption. reflexivity.
  - rewrite nth_error_app2 by lia. now rewrite Nat.sub_diag.
  - reflexivity.
Qed.

(** C8 fails on this input: the microphone is granted, the browser has no
    MediaRecorder, [startSetupRecording] ends in its [catch] block with the
    UI reset, and the granted track is still live: no track was stopped. *)
Theorem recorder_setup_failure_leaves_microphone_live :
  let run := Voice.startSetupRecording (MicGranted 1) 0%Z voice_no_recorder in
  result_of run = Ok tt
  /\ Voice.isRecordingSetup (vars (state_of run)) = false
  /\ recorders (browser (state_of run)) = []
  /\ streams (browser (state_of run)) = [[live]]
  /\ live_tracks (browser (state_of run)) = 1
  /\ track_stops (log_of run) = []
  /\ text_of (browser (state_of run)) "recordingResult"
     = Some (js "Error accessing microphone. MediaRecorder is not defined").
Proof.
  vm_compute. repeat split.
Qed.

(** ** Starting while a recording is active *)

Lemma startRecording_noop (s : State Voice.Vars) :
  Voice.isRecording (vars s) = true ->
  Voice.startRecording s = (Ok tt, s, []).
Proof.
  intros H. unfold Voice.startRecording, bind, get_vars. cbn.
  rewrite H, orb_true_r. reflexivity.
Qed.

Lemma startSetupRecording_noop mic now (s : State Voice.Vars) :
  Voice.isRecordingSetup (vars s) = true ->
  Voice.startSetupRecording mic now s = (Ok tt, s, []).
Proof.
  intros H.
  unfold Voice.startSetupRecording, Voice.startSetupRecording_request,
    bind, get_vars. cbn.
  rewrite H. reflexivity.
Qed.

Lemma recordBtn_press_noop (s : State Voice.Vars) :
  Voice.isRecordingSetup (vars s) = true ->
  Voice.recordBtn_press s = (Ok false, s, []).
Proof.
  intros H. unfold Voice.recordBtn_press, bind, get_vars. cbn.
  rewrite H. reflexivity.
Qed.

(** C4 fails on this input: the second press finds [isRecordingSetup]
    still false, because the flag is set only after the microphone is
    granted; both calls go on, and two recorders record at once, on two
    live tracks, the first one out of reach of [mediaRecorder]. *)
Theorem two_pending_starts_record_twice :
  let run := double_press voice0 in
  result_of run = Ok tt
  /\ length (active_recorders (browser (state_of run))) = 2
  /\ live_tracks (browser (state_of run)) = 2
  /\ Voice.mediaRecorder (vars (state_of run)) = Some 1
  /\ Voice.isRecordingSetup (vars (state_of run)) = true.
Proof.
  vm_compute. repeat split.
Qed.

(** ** Speech synthesis on the chat page *)

Lemma speakResponse_run text q (s : State Chat.Vars) :
  speechSynthesis (browser s) = Some q ->
  Chat.speakResponse text s
  = (Ok tt,
     {| vars := vars s;
        browser := set_speechSynthesis (Some [Chat.new_utterance text])
                     (browser s) |},
     [SpeechCancel; SpeechSpeak (Chat.new_utterance text)]).
Proof.
  intros Hq.
  unfold Chat.speakResponse, Chat.speechSynthesis_cancel,
    Chat.speechSynthesis_speak, bind, get_browser, modify_browser, emit.
  cbn. rewrite Hq. cbn. rewrite Hq. reflexivity.
Qed.

Lemma utterances_ended_supported n q (s : State Chat.Vars) :
  speechSynthesis (browser s) = Some q ->
  speechSynthesis (browser (utterances_ended n s)) = Some (skipn n q).
Proof.
  intros Hq. induction n as [|n IH].
  - exact Hq.
  - cbn [utterances_ended].
    set (s' := utterances_ended n s) in *.
    unfold Chat.utterance_ended, modify_browser, state_of. cbn [fst snd].
    cbn [browser]. rewrite IH. cbn [speechSynthesis set_speechSynthesis].
    f_equal. clear. revert q.
    induction n as [|n IHn]; intros [|x q]; cbn [skipn tl]; auto.
Qed.

(** C7. On the chat page every run of [speakResponse] (with speech
    synthesis available) first cancels the synthesiser and then speaks the
    new utterance, which leaves that utterance alone in the queue: one
    utterance at most plays at a time.  After two runs in succession,
    however many utterances the synthesiser finished in between, the queue
    holds the second utterance only and it is the one being spoken. *)
Theorem speech_synthesis_last_wins :
  forall (s : State Chat.Vars) (q : list Utterance) (t1 t2 : jsstring)
         (n : nat),
    speechSynthesis (browser s) = Some q ->
    let r1 := Chat.speakResponse t1 s in
    let r2 := Chat.speakResponse t2 (utterances_ended n (state_of r1)) in
    log_of r1 = [SpeechCancel; SpeechSpeak (Chat.new_utterance t1)]
    /\ speechSynthesis (browser (state_of r1)) = Some [Chat.new_utterance t1]
    /\ log_of r2 = [SpeechCancel; SpeechSpeak (Chat.new_utterance t2)]
    /\ speechSynthesis (browser (state_of r2)) = Some [Chat.new_utterance t2]
    /\ Chat.speaking_now (browser (state_of r2))
       = Some (Chat.new_utterance t2).
Proof.
  intros s q t1 t2 n Hq r1 r2. subst r1 r2.
  rewrite (speakResponse_run t1 q s Hq). cbn [state_of log_of fst snd].
  split; [reflexivity|]. split; [reflexivity|].
  match goal with |- context [utterances_ended n ?s1] =>
    pose proof (utterances_ended_supported n [Chat.new_utterance t1] s1
                  eq_refl) as Hn
  end.
  rewrite (speakResponse_run t2 _ _ Hn). cbn. repeat split.
Qed.

Lemma speech_synthesis_last_wins_witness :
  speechSynthesis
    (browser (state_of (Chat.speakResponse "second"
                          (state_of (Chat.speakResponse "first" chat0)))))
  = Some [Chat.new_utterance "second"].
Proof.
  pose proof (speech_synthesis_last_wins chat0 [] "first" "second" 0 eq_refl)
    as H.
  cbv zeta in H. destruct H as (_ & _ & _ & H & _). exact H.
Defined.

(** Without speech synthesis [speakResponse] does nothing. *)
Lemma speakResponse_unsupported text (s : State Chat.Vars) :
  speechSynthesis (browser s) = None ->
  Chat.speakResponse text s = (Ok tt, s, []).
Proof.
  intros Hq. unfold Chat.speakResponse, bind, get_browser. cbn.
  rewrite Hq. reflexivity.
Qed.

(** ** The onboarding file picker *)

Lemma jseqb_refl a : jseqb a a = true.
Proof. unfold jseqb. now destruct (list_eq_dec N.eq_dec a a). Qed.

Lemma same_name_size_refl f : Onboarding.same_name_size f f = true.
Proof.
  unfold Onboarding.same_name_size. now rewrite jseqb_refl, Nat.eqb_refl.
Qed.

Lemma add_file_keeps sel file f :
  existsb (Onboarding.same_name_size f) sel = true ->
  existsb (Onboarding.same_name_size f) (add_file sel file) = true.
Proof.
  intros H. unfold add_file.
  destruct (existsb (Onboarding.same_name_size file) sel); [assumption|].
  rewrite existsb_app, H. reflexivity.
Qed.

Lemma add_files_keeps files sel f :
  existsb (Onboarding.same_name_size f) sel = true ->
  existsb (Onboarding.same_name_size f) (add_files files sel) = true.
Proof.
  unfold add_files. revert sel.
  induction files as [|file files IH]; intros sel H; [assumption|].
  cbn. apply IH. now apply add_file_keeps.
Qed.

(** After [handleFiles] every incoming file has a selected file of its
    name and size. *)
Lemma add_files_covers files sel f :
  In f files ->
  existsb (Onboarding.same_name_size f) (add_files files sel) = true.
Proof.
  unfold add_files. revert sel.
  induction files as [|file files IH]; intros sel Hin; [destruct Hin|].
  cbn. destruct Hin as [->|Hin]; [|now apply IH].
  apply (add_files_keeps files). unfold add_file.
  destruct (existsb (Onboarding.same_name_size f) sel) eqn:E; [assumption|].
  rewrite existsb_app. cbn. rewrite same_name_size_refl.
  now rewrite orb_true_r.
Qed.

(** Files that all have a match are all skipped. *)
Lemma add_files_skips files sel :
  (forall f, In f files ->
     existsb (Onboarding.same_name_size f) sel = true) ->
  add_files files sel = sel.
Proof.
  unfold add_files. induction files as [|file files IH]; intros H;
    [reflexivity|].
  cbn. unfold add_file at 2. rewrite (H file) by now left.
  apply IH. intros f Hf. apply H. now right.
Qed.

Lemma add_files_idempotent files sel :
  add_files files (add_files files sel) = add_files files sel.
Proof.
  apply add_files_skips. intros f Hf. now apply add_files_covers.
Qed.


Lemma keeps_vars_bind (V A B : Type) (m : M V A) (k : A -> M V B) :
  keeps_vars m -> (forall a, keeps_vars (k a)) -> keeps_vars (bind m k).
Proof.
  intros Hm Hk s. unfold bind. specialize (Hm s).
  destruct (m s) as [[[a|e] s1] l1]; cbn in *; [|assumption].
  specialize (Hk a s1). destruct (k a s1) as [[r s2] l2]. cbn in *.
  congruence.
Qed.

Lemma keeps_vars_write (V : Type) id w : keeps_vars (@write V id w).
Proof.
  intros s. unfold write, bind, get_browser, modify_browser, emit, throw.
  cbn. now destruct (dom (browser s) id).
Qed.

Lemma keeps_vars_forEach (V A : Type) (l : list A) (f : A -> M V unit) :
  (forall x, keeps_vars (f x)) -> keeps_vars (forEach l f).
Proof.
  intros Hf. induction l as [|x l IH]; [intros s; reflexivity|].
  cbn [forEach]. apply keeps_vars_bind; auto.
Qed.

Lemma keeps_vars_get (V : Type) : keeps_vars (@get_vars V).
Proof. intros s. reflexivity. Qed.

Lemma updateFileList_vars : keeps_vars Onboarding.updateFileList.
Proof.
  unfold Onboarding.updateFileList.
  apply keeps_vars_bind; [apply keeps_vars_write|]. intros _.
  apply keeps_vars_bind; [apply keeps_vars_get|]. intros v.
  apply keeps_vars_forEach. intros [file index]. apply keeps_vars_write.
Qed.

Lemma updateUploadButton_vars : keeps_vars Onboarding.updateUploadButton.
Proof.
  unfold Onboarding.updateUploadButton.
  apply keeps_vars_bind; [apply keeps_vars_get|]. intros v.
  apply keeps_vars_write.
Qed.

(** The loop of [handleFiles]. *)
Lemma handleFiles_loop files (s : State Onboarding.Vars) :
  exists s',
    forEach files Onboarding.handleFiles_each s = (Ok tt, s', [])
    /\ Onboarding.selectedFiles (vars s')
       = add_files files (Onboarding.selectedFiles (vars s)).
Proof.
  revert s. induction files as [|file files IH]; intros s.
  - exists s. split; reflexivity.
  - cbn [forEach]. unfold bind at 1.
    unfold Onboarding.handleFiles_each at 1, bind, get_vars, when.
    cbn [add_files fold_left]. unfold add_file at 2.
    destruct (existsb (Onboarding.same_name_size file)
                (Onboarding.selectedFiles (vars s))) eqn:E; cbn [negb].
    + unfold ret. destruct (IH s) as (s' & E' & H'). rewrite E'.
      exists s'. split; [reflexivity | exact H'].
    + unfold modify_vars.
      match goal with |- context [forEach files _ ?s1] =>
        destruct (IH s1) as (s' & E' & H'); rewrite E' end.
      exists s'. split; [reflexivity | exact H'].
Qed.

Lemma handleFiles_selected files (s : State Onboarding.Vars) :
  Onboarding.selectedFiles (vars (state_of (Onboarding.handleFiles files s)))
  = add_files files (Onboarding.selectedFiles (vars s)).
Proof.
  unfold Onboarding.handleFiles. unfold bind at 1.
  destruct (handleFiles_loop files s) as (s' & E & H). rewrite E.
  pose proof (keeps_vars_bind _ _ _ Onboarding.updateFileList
                (fun _ : unit => Onboarding.updateUploadButton)
                updateFileList_vars (fun _ => updateUploadButton_vars) s')
    as Hk.
  destruct (bind Onboarding.updateFileList _ s') as [[r s2] l2].
  cbn in *. now rewrite Hk.
Qed.

(** C10. In the onboarding file picker [handleFiles] skips every incoming
    file whose name and size both match a file already selected, so that
    for every list of selected files, applying it twice to the same
    incoming files leaves the selected files as applying it once does. *)
Theorem handleFiles_idempotent :
  forall (s : State Onboarding.Vars) (files : list File),
    let s1 := state_of (Onboarding.handleFiles files s) in
    let s2 := state_of (Onboarding.handleFiles files s1) in
    Onboarding.selectedFiles (vars s2) = Onboarding.selectedFiles (vars s1)
    /\ (forall file,
          existsb (Onboarding.same_name_size file)
            (Onboarding.selectedFiles (vars s)) = true ->
          Onboarding.selectedFiles
            (vars (state_of (Onboarding.handleFiles [file] s)))
          = Onboarding.selectedFiles (vars s)).
Proof.
  intros s files s1 s2. subst s1 s2. split.
  - rewrite !handleFiles_selected. apply add_files_idempotent.
  - intros file H. rewrite handleFiles_selected.
    apply add_files_skips. intros f [<-|[]]. exact H.
Qed.

Lemma handleFiles_idempotent_witness :
  let cv := {| file_data := [Byte.x01]; file_name := "cv.pdf";
               file_type := "application/pdf" |} in
  let s1 := state_of (Onboarding.handleFiles [cv] onboarding0) in
  Onboarding.selectedFiles (vars (state_of (Onboarding.handleFiles [cv] s1)))
  = Onboarding.selectedFiles (vars s1).
Proof.
  intros cv s1.
  pose proof (handleFiles_idempotent s1 [cv]) as H.
  cbv zeta in H. destruct H as (_ & H). apply (H cv). reflexivity.
Defined.

(** ** Starting and stopping the listening *)

Lemma recognition_calls_app l1 l2 :
  recognition_calls (l1 ++ l2) = recognition_calls l1 ++ recognition_calls l2.
Proof. apply filter_app. Qed.

Lemma dom_log_recognition_calls l : dom_log l -> recognition_calls l = [].
Proof.
  unfold dom_log. induction l as [|e l IH]; [reflexivity|].
  destruct e; cbn; try discriminate. exact IH.
Qed.

Lemma recognition_calls_cons e l :
  recognition_calls (e :: l)
  = (if is_recognition_call e then [e] else []) ++ recognition_calls l.
Proof. unfold recognition_calls. cbn. now destruct (is_recognition_call e). Qed.

Lemma status_types_cons e l :
  status_types (e :: l)
  = match e with
    | Dom_ id (ClassAdd c) =>
        if String.eqb id "statusMessage" then [c] else []
    | _ => []
    end ++ status_types l.
Proof. reflexivity. Qed.

Lemma never_speaks_cons e l :
  is_speaking_effect e = false -> never_speaks l -> never_speaks (e :: l).
Proof. unfold never_speaks. cbn. now intros -> ->. Qed.

(** The presence of an element after a chain of writes. *)
Ltac presence :=
  repeat match goal with
         | Hs : same_elements _ ?d |- context [present ?d _] => rewrite Hs
         end;
  try assumption; try reflexivity.

(** Facts about the log of a run made of DOM logs and single effects. *)
Ltac log_facts :=
  repeat rewrite ?recognition_calls_app, ?recognition_calls_cons,
    ?status_types_app, ?status_types_cons, ?fetches_app, ?fetches_cons;
  repeat match goal with
         | H : dom_log ?l |- context [recognition_calls ?l] =>
             rewrite (dom_log_recognition_calls l H)
         | H : dom_log ?l |- context [fetches ?l] =>
             rewrite (dom_log_fetches l H)
         | H : status_types ?l = _ |- context [status_types ?l] => rewrite H
         | H : recognition_calls ?l = _ |- context [recognition_calls ?l] =>
             rewrite H
         | H : fetches ?l = _ |- context [fetches ?l] => rewrite H
         end;
  cbn [app]; rewrite ?app_nil_r.

Ltac quiet_log :=
  repeat first [ reflexivity
               | match goal with |- never_speaks (_ ++ _) =>
                   apply never_speaks_app; split end
               | match goal with |- never_speaks (_ :: _) =>
                   apply never_speaks_cons; [reflexivity|] end
               | match goal with H : _ -> never_speaks ?l |- never_speaks ?l =>
                   apply H; reflexivity end
               | match goal with H : _ -> _ -> never_speaks ?l |- never_speaks ?l =>
                   apply H; reflexivity end
               | assumption ].

(** What a chain of writes leaves of an element it did not touch. *)
Ltac frames :=
  intros;
  repeat match goal with
         | Hf : forall id : string, _ |- context [?d ?x] =>
             is_var d; rewrite (Hf x) by (assumption || discriminate)
         end;
  try reflexivity; try assumption.

Lemma stopRecording_run (s : State Voice.Vars) :
  Voice.isRecording (vars s) = true ->
  exists d' l,
    Voice.stopRecording s
    = (Ok tt,
       with_dom d' (with_vars (Voice.set_isRecording false (vars s)) s), l)
    /\ same_elements (dom (browser s)) d'
    /\ recognition_calls l
       = (if Voice.recognition (vars s) then [RecognitionStop] else [])
    /\ fetches l = []
    /\ (forall id, id <> "voiceRecordBtn" -> id <> "waveform" ->
          id <> "statusText" -> id <> "statusMessage" -> id <> "statusIcon" ->
          d' id = dom (browser s) id)
    /\ d' "voiceRecordBtn"
       = option_map (apply_write (ClassRemove "recording"))
           (dom (browser s) "voiceRecordBtn")
    /\ (present (dom (browser s)) "statusMessage" = true ->
        option_map className (d' "statusMessage")
        = Some [js "status-message"; js "processing"])
    /\ (present (dom (browser s)) "statusText" = true ->
        option_map textContent (d' "statusText") = Some (js "Processing..."))
    /\ (present (dom (browser s)) "waveform" = true ->
        option_map className (d' "waveform")
        = Some [js "waveform"; js "processing"]).
Proof.
  intros Hrec. unfold Voice.stopRecording.
  unfold bind at 1, get_vars. cbn. rewrite Hrec. cbn.
  unfold bind at 1, modify_vars. cbn.
  unfold bind at 1, getElementById, bind at 1, get_browser, ret. cbn.
  setup_step.
  destruct (Voice.recognition (vars s));
    unfold when, try_catch, recognition_stop, emit, ret; cbn; repeat step.
  all: eexists _, _; (split; [reflexivity|]); splits.
  all: try solve [eauto using same_elements_trans].
  all: try solve [log_facts; reflexivity].
  all: try solve [frames].
  all: try solve [intros H; rewrite Hframe1 by discriminate; apply Hclass;
                  presence].
  all: try solve [intros H; first [apply Hclass0 | apply Htext]; presence].
Qed.

Arguments Voice.stopRecording : simpl never.

Lemma startRecording_run (s : State Voice.Vars) :
  Voice.recognition (vars s) = true ->
  Voice.isRecording (vars s) = false ->
  let busy := recognizing (browser s) in
  exists s' l,
    Voice.startRecording s = (Ok tt, s', l)
    /\ vars s' = Voice.set_isRecording (negb busy) (vars s)
    /\ recognizing (browser s') = true
    /\ same_elements (dom (browser s)) (dom (browser s'))
    /\ recognition_calls l
       = (if busy then [RecognitionStop] else [RecognitionStart])
    /\ fetches l = []
    /\ (forall id, id <> "voiceRecordBtn" -> id <> "waveform" ->
          id <> "statusText" -> id <> "statusMessage" -> id <> "statusIcon" ->
          dom (browser s') id = dom (browser s) id)
    /\ dom (browser s') "voiceRecordBtn"
       = option_map
           (fun e => if busy
                     then apply_write (ClassRemove "recording")
                            (apply_write (ClassAdd "recording") e)
                     else apply_write (ClassAdd "recording") e)
           (dom (browser s) "voiceRecordBtn")
    /\ (present (dom (browser s)) "statusMessage" = true ->
        option_map className (dom (browser s') "statusMessage")
        = Some [js "status-message";
                if busy then js "processing" else js "listening"])
    /\ (present (dom (browser s)) "statusText" = true ->
        option_map textContent (dom (browser s') "statusText")
        = Some (if busy then js "Processing..." else js "Listening...")).
Proof.
  intros Hrecog Hrec busy. subst busy. unfold Voice.startRecording.
  unfold bind at 1, get_vars. cbn. rewrite Hrecog, Hrec. cbn.
  unfold bind at 1, modify_vars. cbn.
  unfold bind at 1, getElementById, bind at 1, get_browser, ret. cbn.
  setup_step. repeat step.
  unfold try_catch, recognition_start, bind, get_browser, modify_browser,
    emit, throw. cbn.
  destruct (recognizing (browser s)) eqn:Hbusy; cbn.
  - match goal with |- context [Voice.stopRecording ?s1] =>
      destruct (stopRecording_run s1 eq_refl)
        as (d2 & l2 & E & Hs2 & Hc2 & Hf2 & Hfr2 & Hb2 & Hm2 & Ht2 & Hw2);
      rewrite E; clear E end.
    cbn in *. rewrite Hrecog in Hc2.
    eexists _, _. split; [reflexivity|]. cbn. splits.
    + reflexivity.
    + assumption.
    + eauto using same_elements_trans.
    + log_facts. reflexivity.
    + log_facts. reflexivity.
    + frames.
    + rewrite Hb2, Hframe1, Hframe0, Hwritten by discriminate.
      now destruct (dom (browser s) "voiceRecordBtn").
    + intros H. apply Hm2. presence.
    + intros H. apply Ht2. presence.
  - eexists _, _. split; [reflexivity|]. cbn. splits.
    + reflexivity.
    + reflexivity.
    + eauto using same_elements_trans.
    + log_facts. reflexivity.
    + log_facts. reflexivity.
    + frames.
    + rewrite Hframe1, Hframe0, Hwritten by discriminate. reflexivity.
    + intros H. apply Hclass0. presence.
    + intros H. apply Htext. presence.
Qed.

Arguments Voice.startRecording : simpl never.

Lemma classList_add_has c l : existsb (jseqb c) (classList_add c l) = true.
Proof.
  unfold classList_add. destruct (existsb (jseqb c) l) eqn:E; [assumption|].
  rewrite existsb_app. cbn. now rewrite jseqb_refl, orb_true_r.
Qed.

Lemma stopRecording_idle (s : State Voice.Vars) :
  Voice.isRecording (vars s) = false ->
  Voice.stopRecording s = (Ok tt, s, []).
Proof.
  intros H. unfold Voice.stopRecording, bind, get_vars. cbn.
  rewrite H. reflexivity.
Qed.

(** ** A reply that reports failure *)



(** * Further properties of the handlers *)

(** X1. Stopping the listening.  [stopRecording] turns the flag off and asks
    the recogniser to stop exactly when the flag was on and the page has a
    recogniser; it sends nothing.  From the recording state the status
    goes to Processing and the button loses the class [recording]; when the
    flag was off nothing changes at all, so a second stop in a row is a
    no-op. *)
Theorem stopRecording_stops_once :
  forall s : State Voice.Vars,
  exists s1 l,
    Voice.stopRecording s = (Ok tt, s1, l)
    /\ Voice.isRecording (vars s1) = false
    /\ recognition_calls l
       = (if Voice.isRecording (vars s) && Voice.recognition (vars s)
          then [RecognitionStop] else [])
    /\ fetches l = []
    /\ (Voice.isRecording (vars s) = true ->
        (present (dom (browser s)) "statusMessage" = true ->
         controller (browser s1) = Some Processing)
        /\ (present (dom (browser s)) "statusText" = true ->
            text_of (browser s1) "statusText" = Some (js "Processing..."))
        /\ (present (dom (browser s)) "voiceRecordBtn" = true ->
            exists cls, class_of (browser s1) "voiceRecordBtn" = Some cls
                        /\ existsb (jseqb "recording") cls = false))
    /\ (Voice.isRecording (vars s) = false -> s1 = s /\ l = [])
    /\ Voice.stopRecording s1 = (Ok tt, s1, []).
Proof.
  intros s. destruct (Voice.isRecording (vars s)) eqn:Hrec.
  - destruct (stopRecording_run s Hrec)
      as (d & l & E & Hs & Hc & Hf & Hfr & Hb & Hm & Ht & Hw).
    rewrite E. eexists _, l. split; [reflexivity|].
    unfold controller, text_of, class_of. cbn. splits.
    + reflexivity.
    + exact Hc.
    + exact Hf.
    + intros _. splits.
      * intros H. apply Hm in H.
        destruct (d "statusMessage") as [e|]; [|discriminate].
        cbn in *. injection H as ->. reflexivity.
      * exact Ht.
      * intros H. rewrite Hb. unfold present in H.
        destruct (dom (browser s) "voiceRecordBtn") as [e|]; [|discriminate].
        cbn. eexists. split; [reflexivity|]. apply classList_remove_gone.
    + discriminate.
    + now apply stopRecording_idle.
  - rewrite (stopRecording_idle s Hrec). exists s, [].
    split; [reflexivity|]. splits.
    + exact Hrec.
    + reflexivity.
    + reflexivity.
    + discriminate.
    + intros _. split; reflexivity.
    + now apply stopRecording_idle.
Qed.

(** X2. Starting to listen.  With a recogniser and the flag off,
    [startRecording] starts the recogniser and shows Listening; if the
    recogniser is still active from an earlier start, the start fails, the
    [catch] block stops the recording again, and the page is left in
    Processing with the flag off and a stop sent to the recogniser
    instead. *)
Theorem startRecording_listens_or_falls_back :
  forall s : State Voice.Vars,
    Voice.recognition (vars s) = true ->
    Voice.isRecording (vars s) = false ->
    let busy := recognizing (browser s) in
    exists s1 l,
      Voice.startRecording s = (Ok tt, s1, l)
      /\ Voice.isRecording (vars s1) = negb busy
      /\ recognizing (browser s1) = true
      /\ recognition_calls l
         = (if busy then [RecognitionStop] else [RecognitionStart])
      /\ fetches l = []
      /\ (present (dom (browser s)) "statusMessage" = true ->
          controller (browser s1)
          = Some (if busy then Processing else Listening))
      /\ (present (dom (browser s)) "statusText" = true ->
          text_of (browser s1) "statusText"
          = Some (if busy then js "Processing..." else js "Listening..."))
      /\ (present (dom (browser s)) "voiceRecordBtn" = true ->
          exists cls, class_of (browser s1) "voiceRecordBtn" = Some cls
                      /\ existsb (jseqb "recording") cls = negb busy).
Proof.
  intros s Hrecog Hrec busy.
  destruct (startRecording_run s Hrecog Hrec)
    as (s1 & l & E & Hv & Hz & Hs & Hc & Hf & Hfr & Hb & Hm & Ht).
  fold busy in Hv, Hc, Hb, Hm, Ht.
  exists s1, l. split; [exact E|].
  unfold controller, text_of, class_of. splits.
  - now rewrite Hv.
  - exact Hz.
  - exact Hc.
  - exact Hf.
  - intros H. apply Hm in H.
    destruct (dom (browser s1) "statusMessage") as [e|]; [|discriminate].
    cbn in *. injection H as ->. now destruct busy.
  - exact Ht.
  - intros H. rewrite Hb. unfold present in H.
    destruct (dom (browser s) "voiceRecordBtn") as [e|]; [|discriminate].
    cbn. eexists. split; [reflexivity|]. destruct busy; cbn.
    + apply classList_remove_gone.
    + apply classList_add_has.
Qed.

Lemma startRecording_listens_or_falls_back_witness :
  let s := state_of (Voice.stopRecording
                       (state_of (Voice.startRecording voice0))) in
  exists s1 l,
    Voice.startRecording s = (Ok tt, s1, l)
    /\ Voice.isRecording (vars s1) = false
    /\ recognition_calls l = [RecognitionStop]
    /\ controller (browser s1) = Some Processing.
Proof.
  intros s.
  destruct (startRecording_listens_or_falls_back s eq_refl eq_refl)
    as (s1 & l & E & Hr & _ & Hc & _ & Hm & _).
  exists s1, l. split; [exact E|]. split; [exact Hr|].
  split; [exact Hc|]. apply Hm. reflexivity.
Defined.

(** ** Observations a computation leaves as they are *)

Lemma stable_bind (V A B X : Type) (f : State V -> X) (m : M V A)
    (k : A -> M V B) :
  stable f m -> (forall a, stable f (k a)) -> stable f (bind m k).
Proof.
  intros Hm Hk s. unfold bind. specialize (Hm s).
  destruct (m s) as [[[a|e] s1] l1]; cbn in *; [|assumption].
  specialize (Hk a s1). destruct (k a s1) as [[r s2] l2]. cbn in *.
  congruence.
Qed.

Lemma stable_try_catch (V A X : Type) (f : State V -> X) (m : M V A)
    (h : Thrown -> M V A) :
  stable f m -> (forall e, stable f (h e)) -> stable f (try_catch m h).
Proof.
  intros Hm Hh s. unfold try_catch. specialize (Hm s).
  destruct (m s) as [[[a|e] s1] l1]; cbn in *; [assumption|].
  specialize (Hh e s1). destruct (h e s1) as [[r s2] l2]. cbn in *.
  congruence.
Qed.

Lemma stable_ret (V A X : Type) (f : State V -> X) (a : A) : stable f (ret a).
Proof. intros s. reflexivity. Qed.

Lemma stable_throw (V A X : Type) (f : State V -> X) e :
  stable f (@throw V A e).
Proof. intros s. reflexivity. Qed.

Lemma stable_emit (V X : Type) (f : State V -> X) e : stable f (emit e).
Proof. intros s. reflexivity. Qed.

Lemma stable_get_vars (V X : Type) (f : State V -> X) : stable f get_vars.
Proof. intros s. reflexivity. Qed.

Lemma stable_get_browser (V X : Type) (f : State V -> X) :
  stable f get_browser.
Proof. intros s. reflexivity. Qed.

Lemma stable_when (V X : Type) (f : State V -> X) b (m : M V unit) :
  stable f m -> stable f (when b m).
Proof. intros H. destruct b; [exact H | apply stable_ret]. Qed.

Lemma stable_forEach (V A X : Type) (f : State V -> X) (l : list A)
    (g : A -> M V unit) :
  (forall x, stable f (g x)) -> stable f (forEach l g).
Proof.
  intros Hg. induction l as [|x l IH]; [apply stable_ret|].
  cbn [forEach]. apply stable_bind; auto.
Qed.

Lemma stable_modify_vars (V X : Type) (f : State V -> X) (g : V -> V) :
  (forall s, f {| vars := g (vars s); browser := browser s |} = f s) ->
  stable f (modify_vars g).
Proof. intros H s. apply H. Qed.

Lemma stable_modify_browser (V X : Type) (f : State V -> X)
    (g : Browser -> Browser) :
  (forall s, f {| vars := vars s; browser := g (browser s) |} = f s) ->
  stable f (modify_browser g).
Proof. intros H s. apply H. Qed.

Lemma stable_write (V X : Type) (f : State V -> X) id w :
  (forall s e,
     f {| vars := vars s;
          browser := set_dom (dom_set id (Some e) (dom (browser s)))
                       (browser s) |} = f s) ->
  stable f (write id w).
Proof.
  intros H s. unfold write, bind, get_browser, modify_browser, emit, throw.
  cbn. destruct (dom (browser s) id) as [e|]; cbn; [apply H | reflexivity].
Qed.

Lemma stable_getElementById (V X : Type) (f : State V -> X) id :
  stable f (getElementById id).
Proof. intros s. reflexivity. Qed.

Ltac stable_step :=
  first
    [ apply stable_ret | apply stable_throw | apply stable_emit
    | apply stable_get_vars | apply stable_get_browser
    | apply stable_getElementById
    | apply stable_when
    | apply stable_write; intros ? ?; reflexivity
    | apply stable_modify_vars; intros ?; reflexivity
    | apply stable_modify_browser; intros ?; reflexivity
    | apply stable_bind; [|intros ?]
    | apply stable_try_catch; [|intros ?]
    | match goal with
      | |- stable _ (if ?b then _ else _) => destruct b
      | |- stable _ (match ?x with _ => _ end) => destruct x
      end ].

Ltac stable_all := repeat stable_step.

Lemma setWaveformState_button st :
  stable record_button (Voice.setWaveformState st).
Proof. unfold Voice.setWaveformState. stable_all. Qed.

Lemma updateStatus_button text type :
  stable record_button (Voice.updateStatus text type).
Proof. unfold Voice.updateStatus. stable_all. Qed.

Lemma playAudio_button u p : stable record_button (Voice.playAudio u p).
Proof.
  unfold Voice.playAudio.
  repeat first [apply setWaveformState_button | apply updateStatus_button
               | stable_step].
Qed.

Lemma handleVoiceInput_button text o p :
  stable record_button (Voice.handleVoiceInput text o p).
Proof.
  unfold Voice.handleVoiceInput, Voice.handleVoiceInput_send,
    Voice.handleVoiceInput_settle, Voice.handleVoiceInput_catch, response_json.
  repeat first [apply setWaveformState_button | apply updateStatus_button
               | apply playAudio_button | stable_step].
Qed.

Lemma stable_button_mirrors (A : Type) (m : M Voice.Vars A) s :
  stable record_button m ->
  button_mirrors_recording s -> button_mirrors_recording (state_of (m s)).
Proof.
  intros Hm H. specialize (Hm s). unfold record_button in Hm.
  injection Hm as Hc Hr. unfold button_mirrors_recording.
  now rewrite Hc, Hr.
Qed.

Lemma startRecording_without_recogniser (s : State Voice.Vars) :
  Voice.recognition (vars s) = false ->
  Voice.startRecording s = (Ok tt, s, []).
Proof.
  intros H. unfold Voice.startRecording, bind, get_vars. cbn.
  rewrite H. reflexivity.
Qed.

Lemma startRecording_mirrors s :
  button_mirrors_recording s ->
  button_mirrors_recording (state_of (Voice.startRecording s)).
Proof.
  intros H.
  destruct (Voice.recognition (vars s)) eqn:Hrecog.
  2: { now rewrite startRecording_without_recogniser. }
  destruct (Voice.isRecording (vars s)) eqn:Hrec.
  1: { now rewrite startRecording_noop. }
  destruct (startRecording_run s Hrecog Hrec)
    as (s1 & l & E & Hv & _ & _ & _ & _ & _ & Hb & _).
  rewrite E. cbn. intros cls. unfold class_of. rewrite Hb, Hv. cbn.
  destruct (dom (browser s) "voiceRecordBtn") as [e|]; [|discriminate].
  cbn. intros [= <-]. destruct (recognizing (browser s)); cbn.
  - apply classList_remove_gone.
  - apply classList_add_has.
Qed.

Lemma stopRecording_mirrors s :
  button_mirrors_recording s ->
  button_mirrors_recording (state_of (Voice.stopRecording s)).
Proof.
  intros H. destruct (Voice.isRecording (vars s)) eqn:Hrec.
  2: { now rewrite stopRecording_idle. }
  destruct (stopRecording_run s Hrec) as (d & l & E & _ & _ & _ & _ & Hb & _).
  rewrite E. cbn. intros cls. unfold class_of. cbn. rewrite Hb.
  destruct (dom (browser s) "voiceRecordBtn") as [e|]; [|discriminate].
  cbn. intros [= <-]. apply classList_remove_gone.
Qed.

Lemma bind_mirrors (A B : Type) (m : M Voice.Vars A) (k : A -> M Voice.Vars B) :
  (forall s, button_mirrors_recording s ->
             button_mirrors_recording (state_of (m s))) ->
  (forall a s, button_mirrors_recording s ->
               button_mirrors_recording (state_of (k a s))) ->
  forall s, button_mirrors_recording s ->
            button_mirrors_recording (state_of (bind m k s)).
Proof.
  intros Hm Hk s H. unfold bind. specialize (Hm s H).
  destruct (m s) as [[[a|e] s1] l1]; cbn in *; [|assumption].
  specialize (Hk a s1 Hm). now destruct (k a s1) as [[r s2] l2].
Qed.

(** X3. The record button shows the flag.  If the button of the voice page
    carries the class [recording] exactly when [isRecording] is on, this is
    still so after each of [startRecording], [stopRecording], the
    recogniser's error and end handlers, [handleVoiceInput] with any
    outcome, and the press and release listeners of the button. *)
Theorem record_button_mirrors_isRecording :
  forall s : State Voice.Vars,
    button_mirrors_recording s ->
    button_mirrors_recording (state_of (Voice.startRecording s))
    /\ button_mirrors_recording (state_of (Voice.stopRecording s))
    /\ (forall error,
          button_mirrors_recording
            (state_of (Voice.recognition_onerror error s)))
    /\ button_mirrors_recording (state_of (Voice.recognition_onend s))
    /\ (forall text o p,
          button_mirrors_recording
            (state_of (Voice.handleVoiceInput text o p s)))
    /\ (forall isPressed,
          button_mirrors_recording
            (state_of (Voice.voiceRecordBtn_press isPressed s))
          /\ button_mirrors_recording
               (state_of (Voice.voiceRecordBtn_release isPressed s))).
Proof.
  intros s H. splits.
  - now apply startRecording_mirrors.
  - now apply stopRecording_mirrors.
  - intros error. unfold Voice.recognition_onerror.
    apply bind_mirrors; auto using stopRecording_mirrors.
    intros _ s1 H1. apply stable_button_mirrors; auto.
    apply updateStatus_button.
  - unfold Voice.recognition_onend.
    apply bind_mirrors; auto using stopRecording_mirrors.
  - intros text o p. apply stable_button_mirrors; auto.
    apply handleVoiceInput_button.
  - intros isPressed. split.
    + unfold Voice.voiceRecordBtn_press.
      apply bind_mirrors; auto.
      intros v s1 H1. destruct (negb (Voice.isRecording v)); auto.
      apply bind_mirrors; auto using startRecording_mirrors.
    + unfold Voice.voiceRecordBtn_release.
      apply bind_mirrors; auto.
      intros v s1 H1. destruct (isPressed && Voice.isRecording v); auto.
      apply bind_mirrors; auto using stopRecording_mirrors.
Qed.

Lemma record_button_mirrors_isRecording_witness :
  button_mirrors_recording (state_of (Voice.startRecording voice0))
  /\ button_mirrors_recording (state_of (Voice.stopRecording voice0)).
Proof.
  assert (H0 : button_mirrors_recording voice0).
  { intros cls H. cbv in H. injection H as <-. reflexivity. }
  pose proof (record_button_mirrors_isRecording voice0 H0) as H.
  split; [exact (proj1 H) | exact (proj1 (proj2 H))].
Defined.

(** X4. An error of the recogniser.  The handler stops the recording, sends
    nothing and leaves the conversation history alone; the status ends as
    an error whose text is "Error: " followed by the recogniser's error
    code, which replaces the Processing that [stopRecording] has just
    shown. *)
Theorem recognition_error_is_shown :
  forall (s : State Voice.Vars) (error : jsstring),
  exists s1 l,
    Voice.recognition_onerror error s = (Ok tt, s1, l)
    /\ Voice.isRecording (vars s1) = false
    /\ Voice.conversationHistory (vars s1) = Voice.conversationHistory (vars s)
    /\ fetches l = []
    /\ recognition_calls l
       = (if Voice.isRecording (vars s) && Voice.recognition (vars s)
          then [RecognitionStop] else [])
    /\ (present (dom (browser s)) "statusMessage" = true ->
        controller (browser s1) = Some Error)
    /\ (present (dom (browser s)) "statusText" = true ->
        text_of (browser s1) "statusText" = Some ("Error: " +++ error)).
Proof.
  intros s error. unfold Voice.recognition_onerror, bind.
  destruct (Voice.isRecording (vars s)) eqn:Hrec.
  - destruct (stopRecording_run s Hrec)
      as (d & l & E & Hs & Hc & Hf & Hfr & Hb & Hm & Ht & Hw).
    rewrite E. step.
    eexists _, _. split; [reflexivity|].
    unfold controller, text_of. cbn. splits.
    + reflexivity.
    + reflexivity.
    + log_facts. reflexivity.
    + log_facts. reflexivity.
    + intros H. rewrite <- Hs in H. apply Hclass in H.
      destruct (d0 "statusMessage") as [e|]; [|discriminate].
      cbn in *. injection H as ->. reflexivity.
    + intros H. apply Htext. presence.
  - rewrite (stopRecording_idle s Hrec). step.
    eexists _, _. split; [reflexivity|].
    unfold controller, text_of. cbn. splits.
    + exact Hrec.
    + reflexivity.
    + log_facts. reflexivity.
    + log_facts. reflexivity.
    + intros H. apply Hclass in H.
      destruct (d "statusMessage") as [e|]; [|discriminate].
      cbn in *. injection H as ->. reflexivity.
    + intros H. apply Htext. presence.
Qed.

Lemma bind_run (V A B : Type) (m : M V A) (k : A -> M V B) s a s1 l1 r s2 l2 :
  m s = (Ok a, s1, l1) -> k a s1 = (r, s2, l2) ->
  bind m k s = (r, s2, l1 ++ l2).
Proof. intros Hm Hk. unfold bind. now rewrite Hm, Hk. Qed.

Lemma bind_run_as (V A B : Type) (m : M V A) (k : A -> M V B) s a s1 l1 r s2
    l2 l :
  m s = (Ok a, s1, l1) -> k a s1 = (r, s2, l2) -> l = l1 ++ l2 ->
  bind m k s = (r, s2, l).
Proof. intros Hm Hk ->. now apply bind_run with (a := a) (s1 := s1). Qed.

Lemma getElementById_run (V : Type) id (s : State V) :
  getElementById id s = (Ok (present (dom (browser s)) id), s, []).
Proof. reflexivity. Qed.

Lemma voiceRecordBtn_press_run p (s s1 : State Voice.Vars) l :
  Voice.isRecording (vars s) = false ->
  Voice.startRecording s = (Ok tt, s1, l) ->
  Voice.voiceRecordBtn_press p s = (Ok true, s1, l ++ []).
Proof.
  intros H E. unfold Voice.voiceRecordBtn_press, bind, get_vars.
  cbn. rewrite H. cbn. now rewrite E.
Qed.

Lemma voiceRecordBtn_release_run (s s1 : State Voice.Vars) l :
  Voice.isRecording (vars s) = true ->
  Voice.stopRecording s = (Ok tt, s1, l) ->
  Voice.voiceRecordBtn_release true s = (Ok false, s1, l ++ []).
Proof.
  intros H E. unfold Voice.voiceRecordBtn_release, bind, get_vars.
  cbn. rewrite H. cbn. now rewrite E.
Qed.

(** X5. A second press before the recogniser has ended.  After a press and
    a release the recogniser is asked to stop but is still active until its
    end event; a press in between cannot start it again: the recogniser is
    started once and stopped twice, the flag is off although the button is
    held, and the page shows Processing, which the end event does not
    change. *)
Theorem quick_second_press_is_swallowed :
  forall s : State Voice.Vars,
    Voice.recognition (vars s) = true ->
    Voice.isRecording (vars s) = false ->
    recognizing (browser s) = false ->
    exists s3 l,
      press_release_press s = (Ok true, s3, l)
      /\ recognition_calls l
         = [RecognitionStart; RecognitionStop; RecognitionStop]
      /\ Voice.isRecording (vars s3) = false
      /\ recognizing (browser s3) = true
      /\ (present (dom (browser s)) "statusMessage" = true ->
          controller (browser s3) = Some Processing
          /\ controller (browser (state_of (Voice.recognition_onend s3)))
             = Some Processing).
Proof.
  intros s Hrecog Hrec Hidle.
  destruct (startRecording_run s Hrecog Hrec)
    as (s1 & l1 & E1 & Hv1 & Hz1 & Hs1 & Hc1 & Hf1 & Hfr1 & Hb1 & Hm1 & Ht1).
  rewrite Hidle in *. cbn in Hv1.
  assert (Hrec1 : Voice.isRecording (vars s1) = true) by now rewrite Hv1.
  destruct (stopRecording_run s1 Hrec1)
    as (d2 & l2 & E2 & Hs2 & Hc2 & Hf2 & Hfr2 & Hb2 & Hm2 & Ht2 & Hw2).
  set (s2 := with_dom d2
               (with_vars (Voice.set_isRecording false (vars s1)) s1)) in *.
  destruct (startRecording_run s2)
    as (s3 & l3 & E3 & Hv3 & Hz3 & Hs3 & Hc3 & Hf3 & Hfr3 & Hb3 & Hm3 & Ht3).
  { cbn. now rewrite Hv1. }
  { reflexivity. }
  assert (Hbusy : recognizing (browser s2) = true) by exact Hz1.
  rewrite Hbusy in *. cbn in Hv3.
  exists s3, ((l1 ++ []) ++ (l2 ++ []) ++ l3 ++ []).
  split.
  { unfold press_release_press.
    eapply bind_run; [apply voiceRecordBtn_press_run; eassumption|].
    eapply bind_run; [apply voiceRecordBtn_release_run; eassumption|].
    apply voiceRecordBtn_press_run; [reflexivity | exact E3]. }
  splits.
  - rewrite Hv1 in Hc2. cbn in Hc2. rewrite Hrecog in Hc2.
    log_facts. reflexivity.
  - now rewrite Hv3.
  - exact Hz3.
  - intros H.
    assert (Hc : controller (browser s3) = Some Processing).
    { unfold controller.
      assert (Hp : present (dom (browser s2)) "statusMessage" = true)
        by (cbn; presence).
      apply Hm3 in Hp.
      destruct (dom (browser s3) "statusMessage") as [e|]; [|discriminate].
      cbn in *. injection Hp as ->. reflexivity. }
    split; [exact Hc|].
    rewrite <- Hc. unfold Voice.recognition_onend, bind, modify_browser.
    rewrite stopRecording_idle by (cbn; now rewrite Hv3).
    reflexivity.
Qed.

Lemma quick_second_press_is_swallowed_witness :
  exists s3 l,
    press_release_press voice0 = (Ok true, s3, l)
    /\ recognition_calls l
       = [RecognitionStart; RecognitionStop; RecognitionStop]
    /\ Voice.isRecording (vars s3) = false
    /\ controller (browser s3) = Some Processing.
Proof.
  destruct (quick_second_press_is_swallowed voice0 eq_refl eq_refl eq_refl)
    as (s3 & l & E & Hc & Hr & _ & Hm).
  exists s3, l. split; [exact E|]. split; [exact Hc|]. split; [exact Hr|].
  apply Hm. reflexivity.
Defined.

(** ** A reply with audio *)

Lemma plays_cons e l :
  plays (e :: l) = match e with AudioPlay u => [u] | _ => [] end ++ plays l.
Proof. reflexivity. Qed.

Arguments plays : simpl never.
Arguments status_types : simpl never.
Arguments recognition_calls : simpl never.

Ltac log_facts ::=
  repeat rewrite ?recognition_calls_app, ?recognition_calls_cons,
    ?status_types_app, ?status_types_cons, ?fetches_app, ?fetches_cons,
    ?plays_app, ?plays_cons;
  repeat match goal with
         | H : dom_log ?l |- context [recognition_calls ?l] =>
             rewrite (dom_log_recognition_calls l H)
         | H : dom_log ?l |- context [fetches ?l] =>
             rewrite (dom_log_fetches l H)
         | H : dom_log ?l |- context [plays ?l] =>
             rewrite (dom_log_plays l H)
         | H : status_types ?l = _ |- context [status_types ?l] => rewrite H
         | H : recognition_calls ?l = _ |- context [recognition_calls ?l] =>
             rewrite H
         | H : fetches ?l = _ |- context [fetches ?l] => rewrite H
         | H : plays ?l = _ |- context [plays ?l] => rewrite H
         end;
  cbn [app]; rewrite ?app_nil_r.

Ltac dom_log_tac :=
  repeat first
    [ assumption | reflexivity
    | match goal with
      | |- dom_log (_ ++ _) => apply dom_log_app; split
      | |- forallb is_dom_write (_ ++ _) = true =>
          apply (proj2 (dom_log_app _ _)); split
      | H : dom_log ?l |- forallb is_dom_write ?l = true => exact H
      end ].

Lemma playAudio_absent u p (s : State Voice.Vars) :
  present (dom (browser s)) "audioPlayer" = false ->
  Voice.playAudio u p s = (Throw (JsString "Audio player not found"), s, []).
Proof.
  intros H. unfold Voice.playAudio, getElementById, bind, get_browser, ret,
    throw. cbn. now rewrite H.
Qed.

Lemma playAudio_pending u (s : State Voice.Vars) :
  present (dom (browser s)) "audioPlayer" = true ->
  Voice.playAudio u Voice.PlaybackPending s = (Ok tt, s, [AudioPlay u]).
Proof.
  intros H. unfold Voice.playAudio, getElementById, bind, get_browser, ret,
    emit. cbn. now rewrite H.
Qed.

Lemma playAudio_ended u (s : State Voice.Vars) :
  present (dom (browser s)) "audioPlayer" = true ->
  exists d' l,
    Voice.playAudio u Voice.PlaybackEnded s
    = (Ok tt, with_dom d' s, AudioPlay u :: l)
    /\ same_elements (dom (browser s)) d'
    /\ dom_log l
    /\ status_types l = []
    /\ (present (dom (browser s)) "statusMessage" = true ->
        controller (set_dom d' (browser s)) = Some Idle)
    /\ (present (dom (browser s)) "statusText" = true ->
        text_of (set_dom d' (browser s)) "statusText"
        = Some (js "Ready to listen")).
Proof.
  intros H.
  destruct (voice_ready_run s) as (d & l & E & Hs & Hl & _ & Hy & Hc & Ht & _).
  exists d, l. split; [|auto].
  unfold Voice.playAudio.
  eapply bind_run_as; [apply getElementById_run | | reflexivity].
  rewrite H. cbn [negb].
  eapply bind_run_as; [reflexivity | exact E | reflexivity].
Qed.

Lemma playAudio_failed u p e (s : State Voice.Vars) :
  present (dom (browser s)) "audioPlayer" = true ->
  playback_thrown p = Some e ->
  exists d' l,
    Voice.playAudio u p s = (Throw e, with_dom d' s, AudioPlay u :: l)
    /\ same_elements (dom (browser s)) d'
    /\ dom_log l
    /\ status_types l
       = if_present (dom (browser s)) "statusMessage" [js "error"].
Proof.
  intros H Hp. unfold Voice.playAudio, getElementById.
  unfold bind at 1. unfold bind at 1, get_browser, ret. cbn. rewrite H. cbn.
  unfold bind at 1, emit. cbn.
  destruct p; try discriminate; injection Hp as <-.
  all: unfold bind, throw; repeat step.
  all: eexists _, _; (split; [reflexivity|]); splits.
  all: try solve [eauto using same_elements_trans].
  all: try solve [dom_log_tac].
  all: log_facts; now apply if_present_same.
Qed.

Lemma voice_settle_audio_run r data u p (s : State Voice.Vars) :
  ok r = true -> json r = JsonOk data -> success data = true ->
  truthy_value (audio_url data) = Some u ->
  let player := present (dom (browser s)) "audioPlayer" in
  exists d' l,
    Voice.handleVoiceInput_settle (FetchResolved r) p s
    = (Ok tt,
       with_dom d'
         (with_vars (Voice.push_turn {| role := assistant;
                                        content := response_text data |}
                       (vars s)) s), l)
    /\ same_elements (dom (browser s)) d'
    /\ fetches l = []
    /\ plays l = (if player then [u] else [])
    /\ status_types l
       = if_present (dom (browser s)) "statusMessage" (audio_status player p)
    /\ (present (dom (browser s)) "statusMessage" = true ->
        controller (set_dom d' (browser s)) = Some (audio_ctrl player p))
    /\ (present (dom (browser s)) "statusText" = true ->
        text_of (set_dom d' (browser s)) "statusText"
        = Some (audio_text player p)).
Proof.
  intros Hk Hj Hs Ha player.
  unfold Voice.handleVoiceInput_settle, try_catch.
  unfold bind at 1. unfold ret at 1. rewrite Hk. cbn [negb].
  unfold bind at 1. unfold response_json at 1. rewrite Hj. unfold ret at 1.
  rewrite Hs. unfold bind at 1. unfold modify_vars at 1. rewrite Ha.
  fold (@with_vars Voice.Vars
          (Voice.push_turn {| role := assistant;
                              content := response_text data |} (vars s)) s).
  set (s0 := with_vars _ s).
  unfold bind at 1. step. unfold bind at 1. step.
  assert (Hpl : present d0 "audioPlayer" = player) by (subst player; presence).
  assert (Hsp : status_types (l ++ l0)
                = if_present (dom (browser s)) "statusMessage" [js "speaking"]).
  { log_facts. now apply if_present_same. }
  unfold audio_ctrl, audio_text, audio_status, playAudio_rejection.
  destruct player eqn:Hplayer.
  - destruct p as [| |e|].
    + match goal with |- context [Voice.playAudio ?u ?p ?s1] =>
        destruct (playAudio_ended u s1 Hpl)
          as (d2 & l2 & E & Hs2 & Hl2 & Hy2 & Hc2 & Ht2);
        rewrite E; clear E end.
      cbn in Hs2, Hc2, Ht2.
      cbn. eexists _, _. split; [reflexivity|]. splits.
      * eauto using same_elements_trans.
      * log_facts. reflexivity.
      * log_facts. reflexivity.
      * rewrite <- ?app_assoc.
        rewrite (app_assoc l l0), status_types_app, Hsp.
        log_facts. reflexivity.
      * intros H. apply Hc2. presence.
      * intros H. apply Ht2. presence.
    + match goal with |- context [Voice.playAudio ?u ?p ?s1] =>
        destruct (playAudio_failed u p JsEvent s1 Hpl eq_refl)
          as (d2 & l2 & E & Hs2 & Hl2 & Hy2);
        rewrite E; clear E end.
      match goal with |- context [Voice.handleVoiceInput_catch ?e ?s1] =>
        destruct (voice_catch_run e s1)
          as (d3 & l3 & E & Hs3 & Hl3 & _ & Hy3 & Hc3 & Ht3 & _);
        rewrite E; clear E end.
      cbn in Hs2, Hy2, Hs3, Hy3, Hc3, Ht3.
      cbn. eexists _, _. split; [reflexivity|]. splits.
      * eauto using same_elements_trans.
      * log_facts. reflexivity.
      * log_facts. reflexivity.
      * rewrite <- ?app_assoc.
        rewrite (app_assoc l l0), status_types_app, Hsp.
        log_facts. unfold if_present. rewrite Hs2, Hsame0, Hsame.
        destruct (present (dom (browser s)) "statusMessage"); reflexivity.
      * intros H. apply Hc3. presence.
      * intros H. apply Ht3. presence.
    + match goal with |- context [Voice.playAudio ?u ?p ?s1] =>
        destruct (playAudio_failed u p e s1 Hpl eq_refl)
          as (d2 & l2 & E & Hs2 & Hl2 & Hy2);
        rewrite E; clear E end.
      match goal with |- context [Voice.handleVoiceInput_catch ?e ?s1] =>
        destruct (voice_catch_run e s1)
          as (d3 & l3 & E & Hs3 & Hl3 & _ & Hy3 & Hc3 & Ht3 & _);
        rewrite E; clear E end.
      cbn in Hs2, Hy2, Hs3, Hy3, Hc3, Ht3.
      cbn. eexists _, _. split; [reflexivity|]. splits.
      * eauto using same_elements_trans.
      * log_facts. reflexivity.
      * log_facts. reflexivity.
      * rewrite <- ?app_assoc.
        rewrite (app_assoc l l0), status_types_app, Hsp.
        log_facts. unfold if_present. rewrite Hs2, Hsame0, Hsame.
        destruct (present (dom (browser s)) "statusMessage"); reflexivity.
      * intros H. apply Hc3. presence.
      * intros H. apply Ht3. presence.
    + rewrite playAudio_pending by exact Hpl.
      cbn. eexists _, _. split; [reflexivity|].
      unfold controller, text_of. cbn. splits.
      * eauto using same_elements_trans.
      * log_facts. reflexivity.
      * log_facts. reflexivity.
      * rewrite <- ?app_assoc.
        rewrite (app_assoc l l0), status_types_app, Hsp.
        log_facts. reflexivity.
      * intros H. rewrite <- Hsame in H. apply Hclass0 in H.
        destruct (d0 "statusMessage"); [|discriminate]. cbn in *.
        injection H as ->. reflexivity.
      * intros H. apply Htext. presence.
  - rewrite playAudio_absent by exact Hpl.
    match goal with |- context [Voice.handleVoiceInput_catch ?e ?s1] =>
      destruct (voice_catch_run e s1)
        as (d3 & l3 & E & Hs3 & Hl3 & _ & Hy3 & Hc3 & Ht3 & _);
      rewrite E; clear E end.
    cbn in Hs3, Hy3, Hc3, Ht3.
    cbn. eexists _, _. split; [reflexivity|]. splits.
    + eauto using same_elements_trans.
    + log_facts. reflexivity.
    + log_facts. reflexivity.
    + rewrite <- ?app_assoc.
        rewrite (app_assoc l l0), status_types_app, Hsp.
      log_facts. unfold if_present. rewrite Hsame0, Hsame.
      destruct (present (dom (browser s)) "statusMessage"); reflexivity.
    + intros H. apply Hc3. presence.
    + intros H. apply Ht3. presence.
Qed.

Lemma voice_handle_audio text r data u p (s : State Voice.Vars) :
  blank text = false ->
  ok r = true -> json r = JsonOk data -> success data = true ->
  truthy_value (audio_url data) = Some u ->
  let player := present (dom (browser s)) "audioPlayer" in
  exists s1 l,
    Voice.handleVoiceInput text (FetchResolved r) p s = (Ok tt, s1, l)
    /\ Voice.conversationHistory (vars s1)
       = Voice.conversationHistory (vars s)
         ++ [{| role := user; content := text |};
             {| role := assistant; content := response_text data |}]
    /\ plays l = (if player then [u] else [])
    /\ status_types l
       = if_present (dom (browser s)) "statusMessage"
           (js "processing" :: audio_status player p)
    /\ (present (dom (browser s)) "statusMessage" = true ->
        controller (browser s1) = Some (audio_ctrl player p))
    /\ (present (dom (browser s)) "statusText" = true ->
        text_of (browser s1) "statusText" = Some (audio_text player p)).
Proof.
  intros Hb Hk Hj Hs Ha player. unfold Voice.handleVoiceInput, bind.
  destruct (voice_send_run text s Hb) as (d1 & l1 & E1 & Hs1 & Hl1 & Hn1 & Hy1).
  rewrite E1. clear E1.
  match goal with |- context [Voice.handleVoiceInput_settle _ p ?s1] =>
    destruct (voice_settle_audio_run r data u p s1 Hk Hj Hs Ha)
      as (d2 & l2 & E2 & Hs2 & Hf2 & Hp2 & Hy2 & Hc2 & Ht2);
    rewrite E2; clear E2 end.
  cbn in Hs2, Hp2, Hy2, Hc2, Ht2.
  assert (Hpl : present d1 "audioPlayer" = player) by (subst player; presence).
  rewrite Hpl in *.
  eexists _, _. split; [reflexivity|]. cbn. splits.
  - now rewrite <- app_assoc.
  - log_facts. reflexivity.
  - log_facts. unfold if_present. rewrite Hs1.
    destruct (present (dom (browser s)) "statusMessage"); reflexivity.
  - intros H. apply Hc2. presence.
  - intros H. apply Ht2. presence.
Qed.

(** X6. A reply with audio.  When the ask endpoint answers with success and
    an audio URL, the page has its audio player and the playback does not
    fail, the audio is played once; the status goes through processing to
    speaking and is back at "Ready to listen" once the playback has ended.
    Both turns are in the history. *)
Theorem reply_with_audio_is_played :
  forall (s : State Voice.Vars) (text : jsstring) (r : Response) (data : Reply)
         (u : jsstring) (p : Voice.Playback),
    blank text = false ->
    ok r = true -> json r = JsonOk data -> success data = true ->
    truthy_value (audio_url data) = Some u ->
    present (dom (browser s)) "audioPlayer" = true ->
    playback_thrown p = None ->
    exists s1 l,
      Voice.handleVoiceInput text (FetchResolved r) p s = (Ok tt, s1, l)
      /\ plays l = [u]
      /\ status_types l
         = if_present (dom (browser s)) "statusMessage"
             [js "processing"; js "speaking"]
      /\ (present (dom (browser s)) "statusMessage" = true ->
          controller (browser s1)
          = Some match p with Voice.PlaybackEnded => Idle | _ => Speaking end)
      /\ (present (dom (browser s)) "statusText" = true ->
          text_of (browser s1) "statusText"
          = Some match p with
                 | Voice.PlaybackEnded => js "Ready to listen"
                 | _ => js "Speaking..."
                 end)
      /\ Voice.conversationHistory (vars s1)
         = Voice.conversationHistory (vars s)
           ++ [{| role := user; content := text |};
               {| role := assistant; content := response_text data |}].
Proof.
  intros s text r data u p Hb Hk Hj Hs Ha Hpl Hp.
  destruct (voice_handle_audio text r data u p s Hb Hk Hj Hs Ha)
    as (s1 & l & E & Hh & Hpy & Hy & Hc & Ht).
  cbv zeta in *. rewrite Hpl in *.
  unfold audio_ctrl, audio_text, audio_status, playAudio_rejection in *.
  rewrite Hp in *.
  exists s1, l. split; [exact E|]. splits; assumption.
Qed.

Lemma reply_with_audio_is_played_witness :
  exists s1 l,
    Voice.handleVoiceInput "hello"
      (FetchResolved (http_ok (success_data "hi" (Some (js "/a.mp3")))))
      Voice.PlaybackEnded voice0 = (Ok tt, s1, l)
    /\ plays l = [js "/a.mp3"]
    /\ status_types l = [js "processing"; js "speaking"]
    /\ controller (browser s1) = Some Idle.
Proof.
  destruct (reply_with_audio_is_played voice0 "hello"
              (http_ok (success_data "hi" (Some (js "/a.mp3"))))
              (success_data "hi" (Some (js "/a.mp3"))) "/a.mp3"
              Voice.PlaybackEnded eq_refl eq_refl eq_refl eq_refl eq_refl
              eq_refl eq_refl)
    as (s1 & l & E & Hp & Hy & Hc & _).
  exists s1, l. split; [exact E|]. split; [exact Hp|].
  split; [exact Hy | apply Hc; reflexivity].
Defined.

(** X7. A playback that fails.  When the audio of a successful reply cannot
    be played (the player reports an error, [play] is rejected, or the page
    has no audio player) the status ends as an error with the text
    "Error: " and the message of the rejection; for the player's error
    event and for the missing player that message is undefined.  The
    assistant turn stays in the history. *)
Theorem playback_failure_is_reported :
  forall (s : State Voice.Vars) (text : jsstring) (r : Response) (data : Reply)
         (u : jsstring) (p : Voice.Playback) (e : Thrown),
    blank text = false ->
    ok r = true -> json r = JsonOk data -> success data = true ->
    truthy_value (audio_url data) = Some u ->
    let player := present (dom (browser s)) "audioPlayer" in
    playAudio_rejection player p = Some e ->
    exists s1 l,
      Voice.handleVoiceInput text (FetchResolved r) p s = (Ok tt, s1, l)
      /\ plays l = (if player then [u] else [])
      /\ (present (dom (browser s)) "statusMessage" = true ->
          controller (browser s1) = Some Error)
      /\ (present (dom (browser s)) "statusText" = true ->
          text_of (browser s1) "statusText"
          = Some ("Error: " +++ message_of e))
      /\ (player = false \/ p = Voice.PlaybackError ->
          message_of e = js "undefined")
      /\ Voice.conversationHistory (vars s1)
         = Voice.conversationHistory (vars s)
           ++ [{| role := user; content := text |};
               {| role := assistant; content := response_text data |}].
Proof.
  intros s text r data u p e Hb Hk Hj Hs Ha player He.
  destruct (voice_handle_audio text r data u p s Hb Hk Hj Hs Ha)
    as (s1 & l & E & Hh & Hpy & Hy & Hc & Ht).
  fold player in Hpy, Hy, Hc, Ht.
  unfold audio_ctrl, audio_text in *. rewrite He in *.
  exists s1, l. split; [exact E|]. splits; try assumption.
  unfold playAudio_rejection in He.
  intros [Hno|Hev].
  - rewrite Hno in He. now injection He as <-.
  - rewrite Hev in He. destruct player; now injection He as <-.
Qed.

Lemma playback_failure_is_reported_witness :
  exists s1 l,
    Voice.handleVoiceInput "hello"
      (FetchResolved (http_ok (success_data "hi" (Some (js "/a.mp3")))))
      Voice.PlaybackError voice0 = (Ok tt, s1, l)
    /\ controller (browser s1) = Some Error
    /\ text_of (browser s1) "statusText" = Some (js "Error: undefined").
Proof.
  destruct (playback_failure_is_reported voice0 "hello"
              (http_ok (success_data "hi" (Some (js "/a.mp3"))))
              (success_data "hi" (Some (js "/a.mp3"))) "/a.mp3"
              Voice.PlaybackError JsEvent eq_refl eq_refl eq_refl eq_refl
              eq_refl eq_refl)
    as (s1 & l & E & _ & Hc & Ht & _).
  exists s1, l. split; [exact E|].
  split; [apply Hc; reflexivity | apply Ht; reflexivity].
Defined.

(** ** Blank transcripts *)

Lemma trimStart_nil s : trimStart s = [] <-> forallb isWhiteSpace s = true.
Proof.
  induction s as [|c s IH]; cbn; [tauto|].
  destruct (isWhiteSpace c); cbn; [exact IH|]. split; discriminate.
Qed.

Lemma trimStart_all s :
  forallb isWhiteSpace (trimStart s) = true -> forallb isWhiteSpace s = true.
Proof.
  induction s as [|c s IH]; cbn; [tauto|].
  destruct (isWhiteSpace c) eqn:E; cbn; [exact IH|].
  now rewrite E.
Qed.

Lemma forallb_rev (A : Type) (p : A -> bool) l :
  forallb p (rev l) = forallb p l.
Proof.
  induction l as [|x l IH]; [reflexivity|].
  cbn. rewrite forallb_app, IH. cbn. rewrite andb_true_r. apply andb_comm.
Qed.

(** A text is blank exactly when it has whitespace only. *)
Lemma blank_whitespace text : blank text = forallb isWhiteSpace text.
Proof.
  unfold blank, trim.
  destruct (forallb isWhiteSpace text) eqn:E.
  - apply (trimStart_nil text) in E. rewrite E. cbn.
    now destruct text.
  - destruct text as [|c text]; [discriminate|]. cbn [truthy negb orb].
    destruct (rev (trimStart (rev (trimStart (c :: text))))) as [|x y] eqn:R;
      [|reflexivity].
    exfalso.
    assert (H : trimStart (rev (trimStart (c :: text))) = []).
    { rewrite <- (rev_involutive (trimStart _)). now rewrite R. }
    apply trimStart_nil in H. rewrite forallb_rev in H.
    apply trimStart_all in H. congruence.
Qed.

(** ** Stepping through a handler *)

Lemma bind_assoc (V A B C : Type) (m : M V A) (k : A -> M V B)
    (h : B -> M V C) s :
  bind m (fun a => bind (k a) h) s = bind (bind m k) h s.
Proof.
  unfold bind. destruct (m s) as [[[a|e] s1] l1]; [|reflexivity].
  destruct (k a s1) as [[[b|e] s2] l2]; [|reflexivity].
  destruct (h b s2) as [[r s3] l3]. now rewrite app_assoc.
Qed.

Lemma try_catch_ok (V A : Type) (m : M V A) h s a s1 l :
  m s = (Ok a, s1, l) -> try_catch m h s = (Ok a, s1, l).
Proof. intros H. unfold try_catch. now rewrite H. Qed.

Lemma try_catch_throw (V A : Type) (m : M V A) h s e s1 l1 r s2 l2 l :
  m s = (Throw e, s1, l1) -> h e s1 = (r, s2, l2) -> l = l1 ++ l2 ->
  try_catch m h s = (r, s2, l).
Proof. intros Hm Hh ->. unfold try_catch. now rewrite Hm, Hh. Qed.

Lemma bind_throw (V A B : Type) (m : M V A) (k : A -> M V B) s e s1 l :
  m s = (Throw e, s1, l) -> bind m k s = (Throw e, s1, l).
Proof. intros H. unfold bind. now rewrite H. Qed.

Lemma with_dom_same (V : Type) (s : State V) : with_dom (dom (browser s)) s = s.
Proof. now destruct s as [v []]. Qed.

(** X9. A transcript of white space only.  On the voice page
    [handleVoiceInput] drops it: nothing is sent or played, the script's
    variables, the history among them, are unchanged, and the status is set
    to "Ready to listen". *)
Theorem blank_transcript_is_dropped :
  forall (s : State Voice.Vars) (text : jsstring) (o : FetchOutcome)
         (p : Voice.Playback),
    forallb isWhiteSpace text = true ->
    exists s1 l,
      Voice.handleVoiceInput text o p s = (Ok tt, s1, l)
      /\ vars s1 = vars s
      /\ fetches l = [] /\ plays l = []
      /\ (present (dom (browser s)) "statusMessage" = true ->
          controller (browser s1) = Some Idle)
      /\ (present (dom (browser s)) "statusText" = true ->
          text_of (browser s1) "statusText" = Some (js "Ready to listen")).
Proof.
  intros s text o p Hw.
  assert (Hb : blank text = true) by now rewrite blank_whitespace.
  destruct (voice_ready_run s)
    as (d & l & E & Hs & Hl & Hn & Hy & Hc & Ht & _).
  exists (with_dom d s), ((l ++ []) ++ []). split.
  { unfold Voice.handleVoiceInput.
    eapply bind_run_as; [| | reflexivity].
    - unfold Voice.handleVoiceInput_send. rewrite Hb. rewrite bind_assoc.
      eapply bind_run_as; [exact E | reflexivity | reflexivity].
    - reflexivity. }
  splits; auto.
  + log_facts. reflexivity.
  + log_facts. reflexivity.
Qed.

Lemma blank_transcript_is_dropped_witness :
  exists s1 l,
    Voice.handleVoiceInput [0x20; 0xA0; 0x9]%N (FetchRejected JsEvent)
      Voice.PlaybackPending voice0 = (Ok tt, s1, l)
    /\ vars s1 = vars voice0
    /\ fetches l = []
    /\ controller (browser s1) = Some Idle.
Proof.
  destruct (blank_transcript_is_dropped voice0 [0x20; 0xA0; 0x9]%N
              (FetchRejected JsEvent) Voice.PlaybackPending eq_refl)
    as (s1 & l & E & Hv & Hf & _ & Hc & _).
  exists s1, l. split; [exact E|]. split; [exact Hv|]. split; [exact Hf|].
  apply Hc. reflexivity.
Defined.

(** ** The public voice page *)


(** ** Starting a capture *)

Lemma list_update_last (A : Type) (x y : A) l :
  list_update (length l) x (l ++ [y]) = l ++ [x].
Proof. induction l as [|z l IH]; cbn; [reflexivity | now rewrite IH]. Qed.

Lemma nth_error_last (A : Type) (y : A) l :
  nth_error (l ++ [y]) (length l) = Some y.
Proof. induction l as [|z l IH]; cbn; auto. Qed.

(** Equal lists up to the grouping of their pieces. *)
Ltac lists := cbn [app]; rewrite ?app_nil_r, <- ?app_assoc; reflexivity.

Lemma isTypeSupported_run (V : Type) t f (s : State V) :
  isTypeSupported (browser s) = Some f ->
  MediaRecorder_isTypeSupported t s = (Ok (f t), s, []).
Proof.
  intros H. unfold MediaRecorder_isTypeSupported, bind, get_browser, ret.
  now rewrite H.
Qed.

Lemma new_MediaRecorder_run (V : Type) stream t f (s : State V) :
  isTypeSupported (browser s) = Some f -> f t = true ->
  new_MediaRecorder stream t s
  = (Ok (length (recorders (browser s))),
     {| vars := vars s;
        browser := set_recorders
                     (recorders (browser s)
                      ++ [{| rec_stream := stream; rec_mimeType := t;
                             rec_state := inactive |}]) (browser s) |},
     [MediaRecorderNew (length (recorders (browser s))) stream t]).
Proof.
  intros H Ht. unfold new_MediaRecorder.
  eapply bind_run_as; [exact (isTypeSupported_run V t f s H) | | reflexivity].
  rewrite Ht. reflexivity.
Qed.

Lemma new_MediaRecorder_unsupported (V : Type) stream t f (s : State V) :
  isTypeSupported (browser s) = Some f -> f t = false ->
  new_MediaRecorder stream t s
  = (Throw (JsError "NotSupportedError" "mimeType is not supported"), s, []).
Proof.
  intros H Ht. unfold new_MediaRecorder.
  eapply bind_run_as; [exact (isTypeSupported_run V t f s H) | | reflexivity].
  rewrite Ht. reflexivity.
Qed.

(** The interface of a capture that has started. *)
Lemma recording_ui_run (s : State Voice.Vars) :
  exists d' l,
    (recordBtn <- getElementById "recordBtn" ;;
     statusDot <- getElementById "statusDot" ;;
     statusText <- getElementById "recordingStatusText" ;;
     timerDiv <- getElementById "recordingTimer" ;;
     when recordBtn (write "recordBtn" (ClassAdd "recording")) ;;
     when statusDot (write "statusDot" (ClassAdd "recording")) ;;
     when statusText
       (write "recordingStatusText" (SetTextContent "Recording...")) ;;
     when timerDiv (write "recordingTimer" (SetDisplay "block")) ;;
     timer <- setInterval 1000%N ;;
     modify_vars (Voice.set_recordingTimer (Some timer))) s
    = (Ok tt,
       {| vars := Voice.set_recordingTimer (Some (nextTimer (browser s)))
                    (vars s);
          browser := set_nextTimer (S (nextTimer (browser s)))
                       (set_dom d' (browser s)) |},
       l ++ [SetInterval (nextTimer (browser s)) 1000%N])
    /\ same_elements (dom (browser s)) d'
    /\ dom_log l
    /\ (forall id, id <> "recordBtn" -> id <> "statusDot" ->
          id <> "recordingStatusText" -> id <> "recordingTimer" ->
          d' id = dom (browser s) id)
    /\ d' "recordBtn"
       = option_map (apply_write (ClassAdd "recording"))
           (dom (browser s) "recordBtn")
    /\ d' "statusDot"
       = option_map (apply_write (ClassAdd "recording"))
           (dom (browser s) "statusDot")
    /\ d' "recordingStatusText"
       = option_map (apply_write (SetTextContent "Recording..."))
           (dom (browser s) "recordingStatusText")
    /\ d' "recordingTimer"
       = option_map (apply_write (SetDisplay "block"))
           (dom (browser s) "recordingTimer").
Proof.
  destruct (guarded_write_run _ "recordBtn" (ClassAdd "recording")
              (present (dom (browser s)) "recordBtn") s eq_refl)
    as (d1 & l1 & E1 & Hs1 & Hl1 & Hf1 & Hw1).
  destruct (guarded_write_run _ "statusDot" (ClassAdd "recording")
              (present (dom (browser s)) "statusDot") (with_dom d1 s))
    as (d2 & l2 & E2 & Hs2 & Hl2 & Hf2 & Hw2); [cbn; now rewrite Hs1|].
  destruct (guarded_write_run _ "recordingStatusText"
              (SetTextContent "Recording...")
              (present (dom (browser s)) "recordingStatusText")
              (with_dom d2 (with_dom d1 s)))
    as (d3 & l3 & E3 & Hs3 & Hl3 & Hf3 & Hw3); [cbn; now rewrite Hs2, Hs1|].
  destruct (guarded_write_run _ "recordingTimer" (SetDisplay "block")
              (present (dom (browser s)) "recordingTimer")
              (with_dom d3 (with_dom d2 (with_dom d1 s))))
    as (d4 & l4 & E4 & Hs4 & Hl4 & Hf4 & Hw4);
    [cbn; now rewrite Hs3, Hs2, Hs1|].
  cbn in Hs2, Hs3, Hs4, Hf2, Hf3, Hf4, Hw2, Hw3, Hw4.
  exists d4, (l1 ++ l2 ++ l3 ++ l4). split.
  { eapply bind_run_as; [apply getElementById_run | | lists].
    eapply bind_run_as; [apply getElementById_run | | reflexivity].
    eapply bind_run_as; [apply getElementById_run | | reflexivity].
    eapply bind_run_as; [apply getElementById_run | | reflexivity].
    eapply bind_run_as; [exact E1 | | reflexivity].
    eapply bind_run_as; [exact E2 | | reflexivity].
    eapply bind_run_as; [exact E3 | | reflexivity].
    eapply bind_run_as; [exact E4 | | reflexivity].
    eapply bind_run_as; [reflexivity | reflexivity | reflexivity]. }
  splits.
  - eauto using same_elements_trans.
  - dom_log_tac.
  - intros id H1 H2 H3 H4. now rewrite Hf4, Hf3, Hf2, Hf1.
  - now rewrite Hf4, Hf3, Hf2 by discriminate.
  - now rewrite Hf4, Hf3, Hw2, Hf1 by discriminate.
  - now rewrite Hf4, Hw3, Hf2, Hf1 by discriminate.
  - now rewrite Hw4, Hf3, Hf2, Hf1 by discriminate.
Qed.

Lemma recorder_calls_app l1 l2 :
  recorder_calls (l1 ++ l2) = recorder_calls l1 ++ recorder_calls l2.
Proof. apply filter_app. Qed.

Lemma recorder_calls_cons e l :
  recorder_calls (e :: l)
  = (if is_recorder_call e then [e] else []) ++ recorder_calls l.
Proof. unfold recorder_calls. cbn. now destruct (is_recorder_call e). Qed.

Lemma dom_log_recorder_calls l : dom_log l -> recorder_calls l = [].
Proof.
  unfold dom_log. induction l as [|e l IH]; [reflexivity|].
  destruct e; cbn; try discriminate. exact IH.
Qed.

Lemma timer_calls_app l1 l2 :
  timer_calls (l1 ++ l2) = timer_calls l1 ++ timer_calls l2.
Proof. apply filter_app. Qed.

Lemma timer_calls_cons e l :
  timer_calls (e :: l) = (if is_timer_call e then [e] else []) ++ timer_calls l.
Proof. unfold timer_calls. cbn. now destruct (is_timer_call e). Qed.

Lemma dom_log_timer_calls l : dom_log l -> timer_calls l = [].
Proof.
  unfold dom_log. induction l as [|e l IH]; [reflexivity|].
  destruct e; cbn; try discriminate. exact IH.
Qed.

Lemma track_stops_cons e l :
  track_stops (e :: l)
  = match e with TrackStop s t => [(s, t)] | _ => [] end ++ track_stops l.
Proof. reflexivity. Qed.

Arguments recorder_calls : simpl never.
Arguments timer_calls : simpl never.
Arguments track_stops : simpl never.

Ltac log_facts ::=
  repeat rewrite ?recognition_calls_app, ?recognition_calls_cons,
    ?status_types_app, ?status_types_cons, ?fetches_app, ?fetches_cons,
    ?plays_app, ?plays_cons, ?recorder_calls_app, ?recorder_calls_cons,
    ?timer_calls_app, ?timer_calls_cons, ?track_stops_app, ?track_stops_cons;
  repeat match goal with
         | H : dom_log ?l |- context [recognition_calls ?l] =>
             rewrite (dom_log_recognition_calls l H)
         | H : dom_log ?l |- context [fetches ?l] =>
             rewrite (dom_log_fetches l H)
         | H : dom_log ?l |- context [plays ?l] =>
             rewrite (dom_log_plays l H)
         | H : dom_log ?l |- context [recorder_calls ?l] =>
             rewrite (dom_log_recorder_calls l H)
         | H : dom_log ?l |- context [timer_calls ?l] =>
             rewrite (dom_log_timer_calls l H)
         | H : dom_log ?l |- context [track_stops ?l] =>
             rewrite (dom_log_track_stops l H)
         | H : status_types ?l = _ |- context [status_types ?l] => rewrite H
         | H : recognition_calls ?l = _ |- context [recognition_calls ?l] =>
             rewrite H
         | H : fetches ?l = _ |- context [fetches ?l] => rewrite H
         | H : plays ?l = _ |- context [plays ?l] => rewrite H
         | H : recorder_calls ?l = _ |- context [recorder_calls ?l] =>
             rewrite H
         | H : timer_calls ?l = _ |- context [timer_calls ?l] => rewrite H
         | H : track_stops ?l = _ |- context [track_stops ?l] => rewrite H
         end;
  cbn [app]; rewrite ?app_nil_r.

Lemma choose_mimeType_run f (s : State Voice.Vars) :
  isTypeSupported (browser s) = Some f ->
  (if f "audio/webm;codecs=opus" then ret (js "audio/webm;codecs=opus") else
   webm <- MediaRecorder_isTypeSupported "audio/webm" ;;
   if webm then ret (js "audio/webm") else
   mp4 <- MediaRecorder_isTypeSupported "audio/mp4" ;;
   if mp4 then ret (js "audio/mp4") else ret (js "audio/webm")) s
  = (Ok (chosen_mimeType f), s, []).
Proof.
  intros H. unfold chosen_mimeType.
  destruct (f "audio/webm;codecs=opus"); [reflexivity|].
  eapply bind_run_as;
    [exact (isTypeSupported_run _ "audio/webm" f s H) | | reflexivity].
  destruct (f "audio/webm"); [reflexivity|].
  eapply bind_run_as;
    [exact (isTypeSupported_run _ "audio/mp4" f s H) | | reflexivity].
  destruct (f "audio/mp4"); reflexivity.
Qed.

Lemma MediaRecorder_start_new (V : Type) r rs ms (s : State V) :
  recorders (browser s) = rs ++ [r] ->
  MediaRecorder_start (length rs) ms s
  = (Ok tt,
     {| vars := vars s;
        browser := set_recorders
                     (rs ++ [{| rec_stream := rec_stream r;
                                rec_mimeType := rec_mimeType r;
                                rec_state := recording |}]) (browser s) |},
     [MediaRecorderStart (length rs) ms]).
Proof.
  intros H. unfold MediaRecorder_start, bind, modify_browser, emit.
  unfold recorder_set_state. rewrite H, nth_error_last, list_update_last.
  reflexivity.
Qed.

Lemma startSetupRecording_settle_run n now f (s : State Voice.Vars) :
  isTypeSupported (browser s) = Some f ->
  f (chosen_mimeType f) = true ->
  let sid := length (streams (browser s)) in
  let rid := length (recorders (browser s)) in
  let timer := nextTimer (browser s) in
  let d := dom (browser s) in
  exists s' l,
    Voice.startSetupRecording_settle (MicGranted n) now s = (Ok tt, s', l)
    /\ streams (browser s') = streams (browser s) ++ [repeat live n]
    /\ recorders (browser s')
       = recorders (browser s)
         ++ [{| rec_stream := sid; rec_mimeType := chosen_mimeType f;
                rec_state := recording |}]
    /\ vars s'
       = Voice.set_recordingTimer (Some timer)
           (Voice.set_recordingStartTime (Some now)
              (Voice.set_isRecordingSetup true
                 (Voice.set_audioChunks []
                    (Voice.set_mediaRecorder (Some rid) (vars s)))))
    /\ nextTimer (browser s') = S timer
    /\ recorder_calls l
       = [MediaRecorderNew rid sid (chosen_mimeType f);
          MediaRecorderStart rid 1000%N]
    /\ timer_calls l = [SetInterval timer 1000%N]
    /\ track_stops l = []
    /\ fetches l = []
    /\ same_elements d (dom (browser s'))
    /\ (forall id, id <> "recordBtn" -> id <> "statusDot" ->
          id <> "recordingStatusText" -> id <> "recordingTimer" ->
          dom (browser s') id = d id)
    /\ dom (browser s') "recordBtn"
       = option_map (apply_write (ClassAdd "recording")) (d "recordBtn")
    /\ dom (browser s') "statusDot"
       = option_map (apply_write (ClassAdd "recording")) (d "statusDot")
    /\ dom (browser s') "recordingStatusText"
       = option_map (apply_write (SetTextContent "Recording..."))
           (d "recordingStatusText")
    /\ dom (browser s') "recordingTimer"
       = option_map (apply_write (SetDisplay "block")) (d "recordingTimer").
Proof.
  intros Hf Hc sid rid timer d.
  set (b1 := set_streams (streams (browser s) ++ [repeat live n]) (browser s)).
  set (r := {| rec_stream := sid; rec_mimeType := chosen_mimeType f;
               rec_state := inactive |}).
  set (v4 := Voice.set_recordingStartTime (Some now)
               (Voice.set_isRecordingSetup true
                  (Voice.set_audioChunks []
                     (Voice.set_mediaRecorder (Some rid) (vars s))))).
  set (b3 := set_recorders
               (recorders (browser s)
                ++ [{| rec_stream := sid; rec_mimeType := chosen_mimeType f;
                       rec_state := recording |}])
               (set_recorders (recorders (browser s) ++ [r]) b1)).
  destruct (recording_ui_run {| vars := v4; browser := b3 |})
    as (d' & l & E & Hs & Hl & Hfr & H1 & H2 & H3 & H4).
  assert (Hf1 : isTypeSupported
                  (browser {| vars := vars s; browser := b1 |}) = Some f)
    by exact Hf.
  eexists _, _. split.
  { unfold Voice.startSetupRecording_settle. apply try_catch_ok.
    eapply bind_run_as; [reflexivity | | reflexivity].
    eapply bind_run_as;
      [exact (isTypeSupported_run _ _ f _ Hf1) | | reflexivity].
    eapply bind_run_as;
      [exact (choose_mimeType_run f _ Hf1) | | reflexivity].
    eapply bind_run_as;
      [exact (new_MediaRecorder_run _ sid _ f _ Hf1 Hc) | | reflexivity].
    eapply bind_run_as; [reflexivity | | reflexivity].
    eapply bind_run_as; [reflexivity | | reflexivity].
    eapply bind_run_as;
      [exact (MediaRecorder_start_new _ r (recorders (browser s)) 1000%N
                {| vars := Voice.set_audioChunks []
                             (Voice.set_mediaRecorder (Some rid) (vars s));
                   browser := set_recorders (recorders (browser s) ++ [r]) b1
                |} eq_refl) | | reflexivity].
    eapply bind_run_as; [reflexivity | | reflexivity].
    eapply bind_run_as; [reflexivity | | reflexivity].
    exact E. }
  cbn [browser vars streams recorders nextTimer dom set_nextTimer set_dom].
  splits; try reflexivity; try assumption.
  - log_facts. reflexivity.
  - log_facts. reflexivity.
  - log_facts. reflexivity.
  - log_facts. reflexivity.
Qed.

Lemma startSetupRecording_request_run (s : State Voice.Vars) :
  Voice.isRecordingSetup (vars s) = false ->
  Voice.startSetupRecording_request s = (Ok true, s, [GetUserMedia]).
Proof.
  intros H. unfold Voice.startSetupRecording_request, bind, get_vars.
  cbn. now rewrite H.
Qed.

(** X10. A capture that can start: the microphone is granted and the browser
    records one of the three formats the script asks for.  The recorder is
    created on the new stream with the first supported format among
    audio/webm;codecs=opus, audio/webm and audio/mp4, and is recording; the
    script keeps it with an empty chunk buffer, the start time and the timer
    it has just set to tick every second; the button and the status dot get
    the class [recording], the status reads Recording... and the timer is
    shown. *)
Theorem capture_starts_in_first_supported_format :
  forall (s : State Voice.Vars) (f : jsstring -> bool) (n : nat) (now : Z),
    Voice.isRecordingSetup (vars s) = false ->
    isTypeSupported (browser s) = Some f ->
    f (chosen_mimeType f) = true ->
    let sid := length (streams (browser s)) in
    let rid := length (recorders (browser s)) in
    let timer := nextTimer (browser s) in
    let d := dom (browser s) in
    exists s' l,
      Voice.startSetupRecording (MicGranted n) now s = (Ok tt, s', l)
      /\ streams (browser s') = streams (browser s) ++ [repeat live n]
      /\ recorders (browser s')
         = recorders (browser s)
           ++ [{| rec_stream := sid; rec_mimeType := chosen_mimeType f;
                  rec_state := recording |}]
      /\ Voice.mediaRecorder (vars s') = Some rid
      /\ Voice.audioChunks (vars s') = []
      /\ Voice.isRecordingSetup (vars s') = true
      /\ Voice.recordingStartTime (vars s') = Some now
      /\ Voice.recordingTimer (vars s') = Some timer
      /\ recorder_calls l
         = [MediaRecorderNew rid sid (chosen_mimeType f);
            MediaRecorderStart rid 1000%N]
      /\ timer_calls l = [SetInterval timer 1000%N]
      /\ dom (browser s') "recordBtn"
         = option_map (apply_write (ClassAdd "recording")) (d "recordBtn")
      /\ dom (browser s') "statusDot"
         = option_map (apply_write (ClassAdd "recording")) (d "statusDot")
      /\ dom (browser s') "recordingStatusText"
         = option_map (apply_write (SetTextContent "Recording..."))
             (d "recordingStatusText")
      /\ dom (browser s') "recordingTimer"
         = option_map (apply_write (SetDisplay "block")) (d "recordingTimer").
Proof.
  intros s f n now Hflag Hf Hc sid rid timer d.
  destruct (startSetupRecording_settle_run n now f s Hf Hc)
    as (s' & l & E & Hst & Hrec & Hv & Ht & Hrc & Htc & Hts & Hfe & Hs & Hfr
        & H1 & H2 & H3 & H4).
  exists s', ([GetUserMedia] ++ l). split.
  { unfold Voice.startSetupRecording.
    eapply bind_run_as;
      [exact (startSetupRecording_request_run s Hflag) | exact E | reflexivity]. }
  rewrite Hv. splits; try assumption; reflexivity.
Qed.

Lemma capture_starts_in_first_supported_format_witness :
  exists s' l,
    Voice.startSetupRecording (MicGranted 1) 0%Z voice0 = (Ok tt, s', l)
    /\ recorders (browser s')
       = [{| rec_stream := 0; rec_mimeType := "audio/webm;codecs=opus";
             rec_state := recording |}]
    /\ Voice.isRecordingSetup (vars s') = true.
Proof.
  destruct (capture_starts_in_first_supported_format voice0 (fun _ => true) 1
              0%Z eq_refl eq_refl eq_refl)
    as (s' & l & E & _ & Hrec & _ & _ & Hflag & _).
  exists s', l. split; [exact E | split; [exact Hrec | exact Hflag]].
Defined.

Lemma jseqb_eq a b : jseqb a b = true <-> a = b.
Proof.
  unfold jseqb. destruct (list_eq_dec N.eq_dec a b); split; auto; discriminate.
Qed.

Lemma jseqb_neq a b : a <> b -> jseqb a b = false.
Proof.
  intros H. destruct (jseqb a b) eqn:E; [|reflexivity].
  now apply jseqb_eq in E.
Qed.

(** What the [catch] blocks of the capture leave on the page. *)
Lemma report_and_reset_run message (s : State Voice.Vars) :
  exists d' l,
    (Voice.showRecordingResult message "error" ;; Voice.resetRecordingUI) s
    = (Ok tt,
       with_dom d' (with_vars (Voice.set_isRecordingSetup false (vars s)) s), l)
    /\ same_elements (dom (browser s)) d'
    /\ dom_log l
    /\ (present (dom (browser s)) "recordingResult" = true ->
        option_map textContent (d' "recordingResult") = Some message
        /\ option_map className (d' "recordingResult")
           = Some [js "recording-result"; js "error"]
        /\ option_map display (d' "recordingResult") = Some (js "block"))
    /\ (present (dom (browser s)) "recordingStatusText" = true ->
        option_map textContent (d' "recordingStatusText")
        = Some (js "Ready to record"))
    /\ (present (dom (browser s)) "recordingTimer" = true ->
        option_map display (d' "recordingTimer") = Some (js "none")).
Proof.
  destruct (showRecordingResult_run message "error" s)
    as (d1 & l1 & E1 & Hs1 & Hl1 & Hf1 & Hw1).
  destruct (resetRecordingUI_run (with_dom d1 s))
    as (d2 & l2 & E2 & Hs2 & Hl2 & Hf2 & Ht2 & Hd2 & _).
  cbn in Hs2, Hf2, Ht2, Hd2.
  exists d2, (l1 ++ l2). split.
  { eapply bind_run_as; [exact E1 | exact E2 | reflexivity]. }
  splits.
  - eauto using same_elements_trans.
  - dom_log_tac.
  - intros H. rewrite Hf2 by discriminate. auto.
  - intros H. apply Ht2. now rewrite Hs1.
  - intros H. apply Hd2. now rewrite Hs1.
Qed.

(** X11. A refused microphone.  Nothing is recorded: no stream and no recorder
    is created, no timer is set and the capture flag stays off.  The result
    box shows an error that depends on the name of the rejection: the
    advice to allow the microphone for NotAllowedError and
    PermissionDeniedError, "No microphone found." for NotFoundError, and
    the message of the error itself for every other one. *)
Theorem microphone_refusal_is_explained :
  forall (s : State Voice.Vars) (e : Thrown) (now : Z),
    present (dom (browser s)) "recordingResult" = true ->
    exists s' l,
      Voice.startSetupRecording_settle (MicRejected e) now s = (Ok tt, s', l)
      /\ streams (browser s') = streams (browser s)
      /\ recorders (browser s') = recorders (browser s)
      /\ Voice.isRecordingSetup (vars s') = false
      /\ Voice.recordingTimer (vars s') = Voice.recordingTimer (vars s)
      /\ recorder_calls l = []
      /\ timer_calls l = []
      /\ class_of (browser s') "recordingResult"
         = Some [js "recording-result"; js "error"]
      /\ display_of (browser s') "recordingResult" = Some (js "block")
      /\ (name_of e = js "NotAllowedError"
          \/ name_of e = js "PermissionDeniedError" ->
          text_of (browser s') "recordingResult"
          = Some (js ("Error accessing microphone. Please allow microphone "
                      ++ "permissions in your browser settings.")))
      /\ (name_of e = js "NotFoundError" ->
          text_of (browser s') "recordingResult"
          = Some (js "Error accessing microphone. No microphone found."))
      /\ (name_of e <> js "NotAllowedError" ->
          name_of e <> js "PermissionDeniedError" ->
          name_of e <> js "NotFoundError" ->
          text_of (browser s') "recordingResult"
          = Some ("Error accessing microphone. " +++ message_of e)).
Proof.
  intros s e now Hp.
  match goal with
  | |- context [Voice.startSetupRecording_settle] =>
      unfold Voice.startSetupRecording_settle
  end.
  match goal with
  | |- context [try_catch ?m ?h] =>
      match h with
      | (fun error => Voice.showRecordingResult (@?msg error) _ ;; _) =>
          destruct (report_and_reset_run (msg e) s)
            as (d' & l & E & Hs & Hl & Hw & _)
      end
  end.
  cbv beta in E. destruct (Hw Hp) as (Ht & Hc & Hd).
  eexists _, l. split.
  { eapply try_catch_throw; [reflexivity | exact E | reflexivity]. }
  unfold text_of, class_of, display_of. cbn [browser with_dom with_vars vars
    streams recorders set_dom dom Voice.isRecordingSetup
    Voice.set_isRecordingSetup Voice.recordingTimer].
  splits; try reflexivity; try assumption.
  - log_facts. reflexivity.
  - log_facts. reflexivity.
  - intros [H|H]; rewrite Ht, H; reflexivity.
  - intros H. rewrite Ht, H. reflexivity.
  - intros H1 H2 H3. rewrite Ht.
    rewrite (jseqb_neq _ _ H1), (jseqb_neq _ _ H2), (jseqb_neq _ _ H3).
    reflexivity.
Qed.

Lemma microphone_refusal_is_explained_witness :
  exists s' l,
    Voice.startSetupRecording_settle
      (MicRejected (JsError "NotFoundError" "Requested device not found"))
      0%Z voice0 = (Ok tt, s', l)
    /\ text_of (browser s') "recordingResult"
       = Some (js "Error accessing microphone. No microphone found.").
Proof.
  destruct (microphone_refusal_is_explained voice0
              (JsError "NotFoundError" "Requested device not found") 0%Z
              eq_refl)
    as (s' & l & E & _ & _ & _ & _ & _ & _ & _ & _ & _ & H & _).
  exists s', l. split; [exact E | exact (H eq_refl)].
Defined.

Lemma when_true (V : Type) (m : M V unit) s : when true m s = m s.
Proof. reflexivity. Qed.

Lemma when_false (V : Type) (m : M V unit) s : when false m s = (Ok tt, s, []).
Proof. reflexivity. Qed.

(** The interface of a capture that has been stopped. *)
Lemma processing_ui_run (s : State Voice.Vars) :
  exists d' l,
    (recordBtn <- getElementById "recordBtn" ;;
     statusDot <- getElementById "statusDot" ;;
     statusText <- getElementById "recordingStatusText" ;;
     when recordBtn (write "recordBtn" (ClassRemove "recording")) ;;
     when statusDot (write "statusDot" (ClassRemove "recording")) ;;
     when statusText
       (write "recordingStatusText" (SetTextContent "Processing..."))) s
    = (Ok tt, with_dom d' s, l)
    /\ same_elements (dom (browser s)) d'
    /\ dom_log l
    /\ (forall id, id <> "recordBtn" -> id <> "statusDot" ->
          id <> "recordingStatusText" -> d' id = dom (browser s) id)
    /\ d' "recordBtn"
       = option_map (apply_write (ClassRemove "recording"))
           (dom (browser s) "recordBtn")
    /\ d' "statusDot"
       = option_map (apply_write (ClassRemove "recording"))
           (dom (browser s) "statusDot")
    /\ d' "recordingStatusText"
       = option_map (apply_write (SetTextContent "Processing..."))
           (dom (browser s) "recordingStatusText").
Proof.
  destruct (guarded_write_run _ "recordBtn" (ClassRemove "recording")
              (present (dom (browser s)) "recordBtn") s eq_refl)
    as (d1 & l1 & E1 & Hs1 & Hl1 & Hf1 & Hw1).
  destruct (guarded_write_run _ "statusDot" (ClassRemove "recording")
              (present (dom (browser s)) "statusDot") (with_dom d1 s))
    as (d2 & l2 & E2 & Hs2 & Hl2 & Hf2 & Hw2); [cbn; now rewrite Hs1|].
  destruct (guarded_write_run _ "recordingStatusText"
              (SetTextContent "Processing...")
              (present (dom (browser s)) "recordingStatusText")
              (with_dom d2 (with_dom d1 s)))
    as (d3 & l3 & E3 & Hs3 & Hl3 & Hf3 & Hw3); [cbn; now rewrite Hs2, Hs1|].
  cbn in Hs2, Hs3, Hf2, Hf3, Hw2, Hw3.
  exists d3, (l1 ++ l2 ++ l3). split.
  { eapply bind_run_as; [apply getElementById_run | | lists].
    eapply bind_run_as; [apply getElementById_run | | reflexivity].
    eapply bind_run_as; [apply getElementById_run | | reflexivity].
    eapply bind_run_as; [exact E1 | | reflexivity].
    eapply bind_run_as; [exact E2 | exact E3 | reflexivity]. }
  splits.
  - eauto using same_elements_trans.
  - dom_log_tac.
  - intros id H1 H2 H3. now rewrite Hf3, Hf2, Hf1.
  - now rewrite Hf3, Hf2 by discriminate.
  - now rewrite Hf3, Hw2, Hf1 by discriminate.
  - now rewrite Hw3, Hf2, Hf1 by discriminate.
Qed.

Lemma run_eta (V A : Type) (r : Res A * State V * list Effect) a :
  result_of r = Ok a -> r = (Ok a, state_of r, log_of r).
Proof. destruct r as [[x s] l]. cbn. now intros ->. Qed.

Lemma recorder_set_state_inactive id b :
  recorder_active (recorder_set_state id inactive b) id = false.
Proof.
  unfold recorder_active, recorder_set_state.
  destruct (nth_error (recorders b) id) as [r|] eqn:E.
  - cbn. rewrite list_update_same; [reflexivity|].
    apply nth_error_Some. congruence.
  - now rewrite E.
Qed.

Lemma recorder_set_state_streams id st b :
  streams (recorder_set_state id st b) = streams b.
Proof.
  unfold recorder_set_state. now destruct (nth_error (recorders b) id).
Qed.

Lemma recorder_set_state_dom id st b :
  dom (recorder_set_state id st b) = dom b.
Proof.
  unfold recorder_set_state. now destruct (nth_error (recorders b) id).
Qed.

Lemma recorder_set_state_length id st b :
  length (recorders (recorder_set_state id st b)) = length (recorders b).
Proof.
  unfold recorder_set_state. destruct (nth_error (recorders b) id);
    [cbn; apply list_update_length | reflexivity].
Qed.

Lemma recorder_set_state_other id j st b :
  id <> j ->
  nth_error (recorders (recorder_set_state id st b)) j
  = nth_error (recorders b) j.
Proof.
  intros H. unfold recorder_set_state.
  destruct (nth_error (recorders b) id);
    [cbn; now apply list_update_other | reflexivity].
Qed.

Arguments recorder_set_state : simpl never.

Lemma stopSetupRecording_run (s : State Voice.Vars) :
  Voice.isRecordingSetup (vars s) = true ->
  exists s' l,
    Voice.stopSetupRecording s = (Ok tt, s', l)
    /\ Voice.isRecordingSetup (vars s') = false
    /\ Voice.recordingTimer (vars s') = None
    /\ Voice.mediaRecorder (vars s') = Voice.mediaRecorder (vars s)
    /\ Voice.audioChunks (vars s') = Voice.audioChunks (vars s)
    /\ Voice.recordingStartTime (vars s') = Voice.recordingStartTime (vars s)
    /\ Voice.isPressed (vars s') = Voice.isPressed (vars s)
    /\ streams (browser s') = streams (browser s)
    /\ length (recorders (browser s')) = length (recorders (browser s))
    /\ (forall rec, Voice.mediaRecorder (vars s) = Some rec ->
          recorder_active (browser s') rec = false)
    /\ (forall rec, Voice.mediaRecorder (vars s) <> Some rec ->
          nth_error (recorders (browser s')) rec
          = nth_error (recorders (browser s)) rec)
    /\ recorder_calls l = stop_recorder_calls s
    /\ timer_calls l = stop_timer_calls s
    /\ fetches l = []
    /\ track_stops l = []
    /\ same_elements (dom (browser s)) (dom (browser s'))
    /\ (forall id, id <> "recordBtn" -> id <> "statusDot" ->
          id <> "recordingStatusText" ->
          dom (browser s') id = dom (browser s) id)
    /\ dom (browser s') "recordBtn"
       = option_map (apply_write (ClassRemove "recording"))
           (dom (browser s) "recordBtn")
    /\ dom (browser s') "statusDot"
       = option_map (apply_write (ClassRemove "recording"))
           (dom (browser s) "statusDot")
    /\ dom (browser s') "recordingStatusText"
       = option_map (apply_write (SetTextContent "Processing..."))
           (dom (browser s) "recordingStatusText").
Proof.
  intros Hflag.
  set (b1 := match Voice.mediaRecorder (vars s) with
             | Some rec =>
                 if recorder_active (browser s) rec
                 then recorder_set_state rec inactive (browser s)
                 else browser s
             | None => browser s
             end).
  set (v1 := Voice.set_isRecordingSetup false (vars s)).
  set (v2 := match Voice.recordingTimer (vars s) with
             | Some _ => Voice.set_recordingTimer None v1
             | None => v1
             end).
  destruct (processing_ui_run {| vars := v2; browser := b1 |})
    as (d' & l & E & Hs & Hl & Hfr & H1 & H2 & H3).
  assert (Hdom : dom b1 = dom (browser s)).
  { subst b1. destruct (Voice.mediaRecorder (vars s)) as [rec|];
      [|reflexivity].
    destruct (recorder_active (browser s) rec);
      [apply recorder_set_state_dom | reflexivity]. }
  cbn [browser] in Hs, Hfr, H1, H2, H3. rewrite Hdom in Hs, Hfr, H1, H2, H3.
  exists (with_dom d' {| vars := v2; browser := b1 |}),
    (stop_recorder_calls s ++ stop_timer_calls s ++ l).
  split.
  { unfold Voice.stopSetupRecording.
    eapply bind_run_as; [reflexivity | | reflexivity].
    rewrite Hflag. cbn [negb].
    eapply bind_run_as; [reflexivity | | reflexivity].
    eapply bind_run_as with (s1 := {| vars := vars s; browser := b1 |})
                            (l1 := stop_recorder_calls s);
      [ | | reflexivity].
    { subst b1. unfold stop_recorder_calls.
      destruct (Voice.mediaRecorder (vars s)) as [rec|];
        [|now destruct s].
      destruct (recorder_active (browser s) rec);
        [reflexivity | now destruct s]. }
    eapply bind_run_as; [reflexivity | | reflexivity].
    eapply bind_run_as with (s1 := {| vars := v2; browser := b1 |})
                            (l1 := stop_timer_calls s);
      [ | exact E | reflexivity].
    subst v2 v1. unfold stop_timer_calls.
    destruct (Voice.recordingTimer (vars s)); reflexivity. }
  cbn [browser vars with_dom set_dom dom streams recorders].
  assert (Hrc : recorder_calls (stop_recorder_calls s) = stop_recorder_calls s).
  { unfold stop_recorder_calls.
    destruct (Voice.mediaRecorder (vars s)) as [rec|]; [|reflexivity].
    now destruct (recorder_active (browser s) rec). }
  assert (Htc : timer_calls (stop_recorder_calls s) = []).
  { unfold stop_recorder_calls.
    destruct (Voice.mediaRecorder (vars s)) as [rec|]; [|reflexivity].
    now destruct (recorder_active (browser s) rec). }
  assert (Hrt : recorder_calls (stop_timer_calls s) = []).
  { unfold stop_timer_calls. now destruct (Voice.recordingTimer (vars s)). }
  assert (Htt : timer_calls (stop_timer_calls s) = stop_timer_calls s).
  { unfold stop_timer_calls. now destruct (Voice.recordingTimer (vars s)). }
  assert (Hfc : fetches (stop_recorder_calls s) = []
                /\ track_stops (stop_recorder_calls s) = []).
  { unfold stop_recorder_calls.
    destruct (Voice.mediaRecorder (vars s)) as [rec|]; [|split; reflexivity].
    now destruct (recorder_active (browser s) rec). }
  assert (Hft : fetches (stop_timer_calls s) = []
                /\ track_stops (stop_timer_calls s) = []).
  { unfold stop_timer_calls. now destruct (Voice.recordingTimer (vars s)). }
  destruct Hfc as (Hfc1 & Hfc2). destruct Hft as (Hft1 & Hft2).
  splits; try assumption.
  - subst v2 v1. destruct (Voice.recordingTimer (vars s)) eqn:Et; cbn; auto.
  - subst v2 v1. destruct (Voice.recordingTimer (vars s)) eqn:Et; cbn; auto.
  - subst v2 v1. destruct (Voice.recordingTimer (vars s)) eqn:Et; cbn; auto.
  - subst v2 v1. destruct (Voice.recordingTimer (vars s)) eqn:Et; cbn; auto.
  - subst v2 v1. destruct (Voice.recordingTimer (vars s)) eqn:Et; cbn; auto.
  - subst v2 v1. destruct (Voice.recordingTimer (vars s)) eqn:Et; cbn; auto.
  - subst b1. destruct (Voice.mediaRecorder (vars s)) as [rec|];
      [|reflexivity].
    destruct (recorder_active (browser s) rec);
      [apply recorder_set_state_streams | reflexivity].
  - subst b1. destruct (Voice.mediaRecorder (vars s)) as [rec|];
      [|reflexivity].
    destruct (recorder_active (browser s) rec);
      [apply recorder_set_state_length | reflexivity].
  - intros rec Hm. subst b1. rewrite Hm.
    destruct (recorder_active (browser s) rec) eqn:Ha;
      [apply recorder_set_state_inactive | exact Ha].
  - intros rec Hm. subst b1.
    destruct (Voice.mediaRecorder (vars s)) as [rec0|]; [|reflexivity].
    destruct (recorder_active (browser s) rec0); [|reflexivity].
    apply recorder_set_state_other. congruence.
  - rewrite !recorder_calls_app, Hrc, Hrt,
      (dom_log_recorder_calls l Hl). now rewrite !app_nil_r.
  - rewrite !timer_calls_app, Htc, Htt, (dom_log_timer_calls l Hl).
    now rewrite app_nil_r.
  - rewrite !fetches_app, Hfc1, Hft1. now apply dom_log_fetches.
  - rewrite !track_stops_app, Hfc2, Hft2. now apply dom_log_track_stops.
Qed.

Lemma stopSetupRecording_idle (s : State Voice.Vars) :
  Voice.isRecordingSetup (vars s) = false ->
  Voice.stopSetupRecording s = (Ok tt, s, []).
Proof.
  intros H. unfold Voice.stopSetupRecording, bind, get_vars. cbn.
  now rewrite H.
Qed.

(** X12. Releasing the button during a capture.  The recorder is stopped and
    the timer is cleared, each once; the capture flag goes off and the
    status reads Processing..., while the timer display is left as it is.
    The microphone is not released by the stop itself: no track is stopped
    and nothing is uploaded before the recorder's stop handler runs.  The
    chunks and the start time are kept for that handler, and a second stop
    does nothing. *)
Theorem stop_halts_recorder_and_timer :
  forall (s : State Voice.Vars) (rec timer : nat),
    Voice.isRecordingSetup (vars s) = true ->
    Voice.mediaRecorder (vars s) = Some rec ->
    recorder_active (browser s) rec = true ->
    Voice.recordingTimer (vars s) = Some timer ->
    exists s' l,
      Voice.stopSetupRecording s = (Ok tt, s', l)
      /\ recorder_active (browser s') rec = false
      /\ Voice.isRecordingSetup (vars s') = false
      /\ Voice.recordingTimer (vars s') = None
      /\ recorder_calls l = [MediaRecorderStop rec]
      /\ timer_calls l = [ClearInterval timer]
      /\ track_stops l = []
      /\ fetches l = []
      /\ streams (browser s') = streams (browser s)
      /\ Voice.audioChunks (vars s') = Voice.audioChunks (vars s)
      /\ Voice.recordingStartTime (vars s')
         = Voice.recordingStartTime (vars s)
      /\ dom (browser s') "recordingStatusText"
         = option_map (apply_write (SetTextContent "Processing..."))
             (dom (browser s) "recordingStatusText")
      /\ dom (browser s') "recordBtn"
         = option_map (apply_write (ClassRemove "recording"))
             (dom (browser s) "recordBtn")
      /\ dom (browser s') "recordingTimer" = dom (browser s) "recordingTimer"
      /\ Voice.stopSetupRecording s' = (Ok tt, s', []).
Proof.
  intros s rec timer Hflag Hm Ha Ht.
  destruct (stopSetupRecording_run s Hflag)
    as (s' & l & E & Hflag' & Ht' & _ & Hc & Hst & _ & Hstr & _ & Hact & _
        & Hrc & Htc & Hfe & Hts & _ & Hfr & H1 & _ & H3).
  exists s', l. splits; auto.
  - rewrite Hrc. unfold stop_recorder_calls. now rewrite Hm, Ha.
  - rewrite Htc. unfold stop_timer_calls. now rewrite Ht.
  - apply Hfr; discriminate.
  - now apply stopSetupRecording_idle.
Qed.

Lemma stop_halts_recorder_and_timer_witness :
  exists s' l,
    Voice.stopSetupRecording recording0 = (Ok tt, s', l)
    /\ recorder_active (browser s') 0 = false
    /\ timer_calls l = [ClearInterval 0].
Proof.
  destruct (stop_halts_recorder_and_timer recording0 0 0 eq_refl eq_refl
              eq_refl eq_refl)
    as (s' & l & E & Ha & _ & _ & _ & Ht & _).
  exists s', l. split; [exact E | split; [exact Ha | exact Ht]].
Defined.

Lemma recordBtn_press_run (s : State Voice.Vars) :
  Voice.isRecordingSetup (vars s) = false ->
  Voice.recordBtn_press s
  = (Ok true, with_vars (Voice.set_isPressed true (vars s)) s, [GetUserMedia]).
Proof.
  intros H. unfold Voice.recordBtn_press.
  eapply bind_run_as; [reflexivity | | reflexivity].
  rewrite H. cbn [negb].
  eapply bind_run_as;
    [exact (startSetupRecording_request_run s H) | reflexivity | reflexivity].
Qed.

Lemma recordBtn_release_idle (s : State Voice.Vars) :
  Voice.isPressed (vars s) && Voice.isRecordingSetup (vars s) = false ->
  Voice.recordBtn_release s = (Ok tt, s, []).
Proof.
  intros H. unfold Voice.recordBtn_release, bind, get_vars. cbn.
  now rewrite H.
Qed.

Lemma recordBtn_release_run (s s1 : State Voice.Vars) l :
  Voice.isPressed (vars s) = true ->
  Voice.isRecordingSetup (vars s) = true ->
  Voice.stopSetupRecording s = (Ok tt, s1, l) ->
  Voice.recordBtn_release s
  = (Ok tt, with_vars (Voice.set_isPressed false (vars s1)) s1, l).
Proof.
  intros Hp Hf E. unfold Voice.recordBtn_release.
  eapply bind_run_as; [reflexivity | | reflexivity].
  rewrite Hp, Hf. cbn [andb].
  eapply bind_run_as; [exact E | reflexivity | now rewrite app_nil_r].
Qed.

(** X13. A tap that ends before the microphone is granted.  The release finds
    no capture to stop, so the capture that starts when the permission
    arrives runs with nobody holding the button: the recorder is recording
    and no stop was asked for.  The button still counts as pressed, and the
    next release or leave event is what stops the recorder. *)
Theorem tap_before_grant_keeps_recording :
  forall (s : State Voice.Vars) (f : jsstring -> bool) (n : nat) (now : Z),
    Voice.isRecordingSetup (vars s) = false ->
    isTypeSupported (browser s) = Some f ->
    f (chosen_mimeType f) = true ->
    let rid := length (recorders (browser s)) in
    exists s' l,
      tap_before_grant n now s = (Ok tt, s', l)
      /\ Voice.isRecordingSetup (vars s') = true
      /\ Voice.isPressed (vars s') = true
      /\ Voice.mediaRecorder (vars s') = Some rid
      /\ recorder_active (browser s') rid = true
      /\ recorder_calls l
         = [MediaRecorderNew rid (length (streams (browser s)))
              (chosen_mimeType f);
            MediaRecorderStart rid 1000%N]
      /\ exists s'' l',
           Voice.recordBtn_release s' = (Ok tt, s'', l')
           /\ recorder_calls l' = [MediaRecorderStop rid]
           /\ recorder_active (browser s'') rid = false
           /\ Voice.isRecordingSetup (vars s'') = false
           /\ Voice.isPressed (vars s'') = false.
Proof.
  intros s f n now Hflag Hf Hc rid.
  destruct (startSetupRecording_settle_run n now f
              (with_vars (Voice.set_isPressed true (vars s)) s) Hf Hc)
    as (s' & l & E & _ & Hrec & Hv & _ & Hrc & _).
  cbn [browser with_vars vars] in Hrec, Hv, Hrc.
  assert (Hflag' : Voice.isRecordingSetup (vars s') = true)
    by now rewrite Hv.
  assert (Hp' : Voice.isPressed (vars s') = true) by now rewrite Hv.
  assert (Hm' : Voice.mediaRecorder (vars s') = Some rid) by now rewrite Hv.
  assert (Ha' : recorder_active (browser s') rid = true).
  { unfold recorder_active. subst rid. now rewrite Hrec, nth_error_last. }
  destruct (stopSetupRecording_run s' Hflag')
    as (s'' & l' & E' & Hflag'' & _ & _ & _ & _ & _ & _ & _ & Hact & _
        & Hrc' & _).
  exists s', ([GetUserMedia] ++ l). split.
  { unfold tap_before_grant.
    eapply bind_run_as;
      [exact (recordBtn_press_run s Hflag) | | reflexivity].
    eapply bind_run_as; [apply recordBtn_release_idle | exact E | reflexivity].
    cbn. rewrite Hflag. reflexivity. }
  splits; auto.
  exists (with_vars (Voice.set_isPressed false (vars s'')) s''), l'.
  split; [now apply recordBtn_release_run|].
  cbn [browser vars with_vars]. splits; auto.
  rewrite Hrc'. unfold stop_recorder_calls. now rewrite Hm', Ha'.
Qed.

Lemma tap_before_grant_keeps_recording_witness :
  exists s' l,
    tap_before_grant 1 0%Z voice0 = (Ok tt, s', l)
    /\ Voice.isRecordingSetup (vars s') = true
    /\ recorder_active (browser s') 0 = true.
Proof.
  destruct (tap_before_grant_keeps_recording voice0 (fun _ => true) 1 0%Z
              eq_refl eq_refl eq_refl)
    as (s' & l & E & Hflag & _ & _ & Ha & _).
  exists s', l. split; [exact E | split; [exact Hflag | exact Ha]].
Defined.

(** ** The clock of a capture *)

Lemma pad2_two_digits k :
  (0 <= k < 100)%Z -> Voice.pad2 (string_of_Z k) = two_digits k.
Proof.
  intros H.
  assert (Hall : forallb (fun i => jsstring_eqb
                                     (Voice.pad2 (string_of_Z (Z.of_nat i)))
                                     (two_digits (Z.of_nat i)))
                   (seq 0 100) = true) by (vm_compute; reflexivity).
  rewrite forallb_forall in Hall.
  specialize (Hall (Z.to_nat k)).
  rewrite Z2Nat.id in Hall by lia.
  unfold jsstring_eqb in Hall.
  destruct (list_eq_dec N.eq_dec (Voice.pad2 (string_of_Z k)) (two_digits k))
    as [Heq|]; [exact Heq|].
  assert (Hin : In (Z.to_nat k) (seq 0 100)) by (apply in_seq; lia).
  specialize (Hall Hin). discriminate.
Qed.

(** X14. The timer of a capture.  On each tick within the first hundred
    minutes the timer text is the elapsed time as two digits of minutes, a
    colon and two digits of seconds, whole seconds being counted from the
    start time. *)
Theorem timer_shows_minutes_and_seconds :
  forall (s : State Voice.Vars) (start now : Z),
    Voice.recordingStartTime (vars s) = Some start ->
    (0 <= now - start < 6000000)%Z ->
    present (dom (browser s)) "timerText" = true ->
    let elapsed := ((now - start) / 1000)%Z in
    exists s' l,
      Voice.recordingTimer_tick now s = (Ok tt, s', l)
      /\ vars s' = vars s
      /\ text_of (browser s') "timerText"
         = Some (two_digits (elapsed / 60) ++ js ":"
                 ++ two_digits (elapsed mod 60))
      /\ (forall id, id <> "timerText" ->
            dom (browser s') id = dom (browser s) id).
Proof.
  intros s start now Hstart Hrange Hp elapsed.
  assert (He : (0 <= elapsed < 6000)%Z).
  { subst elapsed. split.
    - apply Z.div_pos; lia.
    - apply Z.div_lt_upper_bound; lia. }
  assert (Hmin : (0 <= elapsed / 60 < 100)%Z).
  { split; [apply Z.div_pos; lia | apply Z.div_lt_upper_bound; lia]. }
  assert (Hsec : (0 <= elapsed mod 60 < 100)%Z).
  { pose proof (Z.mod_pos_bound elapsed 60). lia. }
  match goal with
  | |- context [two_digits ?a ++ ?c ++ two_digits ?b] =>
      destruct (guarded_write_run Voice.Vars "timerText"
                  (SetTextContent (two_digits a ++ c ++ two_digits b))
                  (present (dom (browser s)) "timerText") s eq_refl)
        as (d' & l & E & Hs & Hl & Hf & Hw)
  end.
  exists (with_dom d' s), l. split.
  { unfold Voice.recordingTimer_tick.
    eapply bind_run_as; [reflexivity | | reflexivity].
    eapply bind_run_as; [apply getElementById_run | | reflexivity].
    unfold Voice.elapsed_ms. rewrite Hstart. fold elapsed.
    rewrite Z.rem_mod_nonneg by lia.
    rewrite (pad2_two_digits _ Hmin), (pad2_two_digits _ Hsec).
    exact E. }
  unfold text_of. cbn [browser with_dom set_dom dom vars].
  splits; [reflexivity | | exact Hf].
  rewrite Hw. unfold present in Hp.
  destruct (dom (browser s) "timerText"); [reflexivity | discriminate].
Qed.

Lemma timer_shows_minutes_and_seconds_witness :
  exists s' l,
    Voice.recordingTimer_tick 75300%Z recording0 = (Ok tt, s', l)
    /\ text_of (browser s') "timerText" = Some (js "01:15").
Proof.
  destruct (timer_shows_minutes_and_seconds recording0 0%Z 75300%Z eq_refl
              ltac:(lia) eq_refl)
    as (s' & l & E & _ & Ht & _).
  exists s', l. split; [exact E | exact Ht].
Defined.

(** [Math.round] of a whole number of milliseconds taken as seconds. *)
Lemma Math_round_ms e :
  Voice.Math_round (inject_Z e / 1000)%Q = ((e + 500) / 1000)%Z.
Proof.
  unfold Voice.Math_round, Qfloor, Qdiv, Qmult, Qinv, Qplus, inject_Z.
  cbn [Qnum Qden]. 
  replace (e * 1 * 2 + 1 * Z.pos (1 * 1000))%Z with ((e + 500) * 2)%Z by lia.
  replace (Z.pos (1 * 1000 * 2)) with (1000 * 2)%Z by reflexivity.
  apply Z.div_mul_cancel_r; lia.
Qed.

(** X15. The duration shown when a capture is refused.  A capture of less
    than 30 seconds is refused without an upload, and the message gives its
    length rounded to the nearest second; a capture of 29.5 seconds or more
    is therefore refused as too short with the text (30s). *)
Theorem refusal_rounds_the_duration :
  forall (s : State Voice.Vars) (rec : nat) (r : Recorder) (start now : Z)
         (o : FetchOutcome),
    nth_error (recorders (browser s)) rec = Some r ->
    Voice.recordingStartTime (vars s) = Some start ->
    (now - start < 30000)%Z ->
    present (dom (browser s)) "recordingResult" = true ->
    exists s' l,
      Voice.mediaRecorder_onstop rec now o s = (Ok tt, s', l)
      /\ fetches l = []
      /\ text_of (browser s') "recordingResult"
         = Some ("Recording too short ("
                 +++ string_of_Z ((now - start + 500) / 1000)
                 +++ "s). Please record at least 30 seconds.")
      /\ ((29500 <= now - start)%Z ->
          text_of (browser s') "recordingResult"
          = Some (js ("Recording too short (30s). "
                      ++ "Please record at least 30 seconds."))).
Proof.
  intros s rec r start now o Hr Hstart Hlt Hp.
  assert (Hd : (Voice.actualDuration now (vars s) < 30)%Q).
  { unfold Voice.actualDuration, Voice.elapsed_ms. rewrite Hstart.
    unfold Qlt, Qdiv, Qmult, Qinv, inject_Z. cbn [Qnum Qden]. lia. }
  destruct (onstop_short_run rec r now o s Hr Hd)
    as (s' & l & E & Hfe & _ & Hres & _).
  destruct (Hres Hp) as (Ht & _).
  assert (Hmsg : Voice.too_short_message (Voice.actualDuration now (vars s))
                 = "Recording too short ("
                   +++ string_of_Z ((now - start + 500) / 1000)
                   +++ "s). Please record at least 30 seconds.").
  { unfold Voice.too_short_message, Voice.actualDuration, Voice.elapsed_ms.
    rewrite Hstart, Math_round_ms. reflexivity. }
  exists s', l. splits; auto.
  - now rewrite Ht, Hmsg.
  - intros Hge. rewrite Ht, Hmsg.
    replace ((now - start + 500) / 1000)%Z with 30%Z; [reflexivity|].
    apply Z.div_unique with (r := (now - start + 500 - 30000)%Z); lia.
Qed.

Lemma refusal_rounds_the_duration_witness :
  exists s' l,
    Voice.mediaRecorder_onstop 0 29700%Z (FetchRejected JsEvent) stopped0
    = (Ok tt, s', l)
    /\ fetches l = []
    /\ text_of (browser s') "recordingResult"
       = Some (js ("Recording too short (30s). "
                   ++ "Please record at least 30 seconds.")).
Proof.
  destruct (refusal_rounds_the_duration stopped0 0
              {| rec_stream := 0; rec_mimeType := "audio/webm;codecs=opus";
                 rec_state := inactive |}
              0%Z 29700%Z (FetchRejected JsEvent) eq_refl eq_refl
              ltac:(lia) eq_refl)
    as (s' & l & E & Hf & _ & H30).
  exists s', l. split; [exact E | split; [exact Hf | apply H30; lia]].
Defined.

(** ** The upload of a capture *)

Lemma reloads_app l1 l2 : reloads (l1 ++ l2) = reloads l1 ++ reloads l2.
Proof. apply flat_map_app. Qed.

Lemma dom_log_reloads l : dom_log l -> reloads l = [].
Proof.
  unfold dom_log. induction l as [|e l IH]; [reflexivity|].
  destruct e; cbn; try discriminate. exact IH.
Qed.

(** The end of an upload: the result box and the status line. *)
Lemma upload_end_run message type status flag (s : State Voice.Vars) :
  flag = present (dom (browser s)) "recordingStatusText" ->
  exists d' l,
    (Voice.showRecordingResult message type ;;
     when flag (write "recordingStatusText" (SetTextContent status))) s
    = (Ok tt, with_dom d' s, l)
    /\ same_elements (dom (browser s)) d'
    /\ dom_log l
    /\ (present (dom (browser s)) "recordingResult" = true ->
        option_map textContent (d' "recordingResult") = Some message
        /\ option_map className (d' "recordingResult")
           = Some [js "recording-result"; type])
    /\ (present (dom (browser s)) "recordingStatusText" = true ->
        option_map textContent (d' "recordingStatusText") = Some status).
Proof.
  intros Hflag.
  destruct (showRecordingResult_run message type s)
    as (d1 & l1 & E1 & Hs1 & Hl1 & Hf1 & Hw1).
  destruct (guarded_write_run _ "recordingStatusText" (SetTextContent status)
              flag (with_dom d1 s))
    as (d2 & l2 & E2 & Hs2 & Hl2 & Hf2 & Hw2); [cbn; now rewrite Hs1|].
  cbn in Hs2, Hf2, Hw2.
  exists d2, (l1 ++ l2). split.
  { eapply bind_run_as; [exact E1 | exact E2 | reflexivity]. }
  splits.
  - eauto using same_elements_trans.
  - dom_log_tac.
  - intros H. rewrite Hf2 by discriminate. destruct (Hw1 H) as (? & ? & _).
    auto.
  - intros H. rewrite Hw2.
    assert (H1 : present d1 "recordingStatusText" = true) by now rewrite Hs1.
    unfold present in H1.
    destruct (d1 "recordingStatusText"); [reflexivity | discriminate].
Qed.

Lemma uploadRecording_blocks audioBlob o :
  Voice.uploadRecording audioBlob o
  = (statusText <- getElementById "recordingStatusText" ;;
     when statusText (write "recordingStatusText"
       (SetTextContent "Uploading and creating voice clone...")) ;;
     try_catch (upload_try audioBlob o statusText) (upload_catch statusText)).
Proof. reflexivity. Qed.

Lemma upload_throw_run audioBlob o e (s : State Voice.Vars) :
  (forall flag (s1 : State Voice.Vars),
      upload_try audioBlob o flag s1
      = (Throw e, s1, [Fetch (Voice.upload_request (vars s1) audioBlob)])) ->
  exists d' l,
    Voice.uploadRecording audioBlob o s = (Ok tt, with_dom d' s, l)
    /\ fetches l = [Voice.upload_request (vars s) audioBlob]
    /\ reloads l = []
    /\ (present (dom (browser s)) "recordingResult" = true ->
        option_map textContent (d' "recordingResult") = Some (message_text e)
        /\ option_map className (d' "recordingResult")
           = Some [js "recording-result"; js "error"])
    /\ (present (dom (browser s)) "recordingStatusText" = true ->
        option_map textContent (d' "recordingStatusText")
        = Some (js "Ready to record")).
Proof.
  intros Htry.
  destruct (guarded_write_run _ "recordingStatusText"
              (SetTextContent "Uploading and creating voice clone...")
              (present (dom (browser s)) "recordingStatusText") s eq_refl)
    as (d0 & l0 & E0 & Hs0 & Hl0 & _ & _).
  destruct (upload_end_run (message_text e) "error" "Ready to record"
              (present (dom (browser s)) "recordingStatusText")
              (with_dom d0 s))
    as (d1 & l1 & E1 & Hs1 & Hl1 & Hr1 & Ht1); [cbn; now rewrite Hs0|].
  cbn in Hs1, Hr1, Ht1.
  exists d1, (l0 ++ [Fetch (Voice.upload_request (vars s) audioBlob)] ++ l1).
  split.
  { rewrite uploadRecording_blocks.
    eapply bind_run_as; [apply getElementById_run | | reflexivity].
    eapply bind_run_as; [exact E0 | | reflexivity].
    eapply try_catch_throw; [apply Htry | exact E1 | reflexivity]. }
  splits.
  - rewrite !fetches_app, (dom_log_fetches l0 Hl0), (dom_log_fetches l1 Hl1).
    reflexivity.
  - rewrite !reloads_app, (dom_log_reloads l0 Hl0), (dom_log_reloads l1 Hl1).
    reflexivity.
  - intros H. apply Hr1. rewrite Hs0. exact H.
  - intros H. apply Ht1. rewrite Hs0. exact H.
Qed.

Lemma upload_try_throws audioBlob o flag (s1 : State Voice.Vars) :
  reply_accepted o = false ->
  upload_try audioBlob o flag s1
  = (Throw (upload_error o), s1,
     [Fetch (Voice.upload_request (vars s1) audioBlob)]).
Proof.
  intros Hacc. destruct o as [e|[k st stt [data|e]]]; [reflexivity | | ].
  - destruct k; [|reflexivity]. cbn in Hacc.
    unfold upload_try, bind, get_vars, fetch, emit, ret, response_json, throw.
    cbn. rewrite Hacc. reflexivity.
  - destruct k; reflexivity.
Qed.

Lemma uploadRecording_accepted_run audioBlob o (s : State Voice.Vars) :
  reply_accepted o = true ->
  exists d' l,
    Voice.uploadRecording audioBlob o s = (Ok tt, with_dom d' s, l)
    /\ fetches l = [Voice.upload_request (vars s) audioBlob]
    /\ reloads l = [2000%N]
    /\ (present (dom (browser s)) "recordingResult" = true ->
        option_map textContent (d' "recordingResult")
        = Some (js "Voice clone created successfully! Reloading...")
        /\ option_map className (d' "recordingResult")
           = Some [js "recording-result"; js "success"])
    /\ (present (dom (browser s)) "recordingStatusText" = true ->
        option_map textContent (d' "recordingStatusText")
        = Some (js "Success!")).
Proof.
  intros Hacc.
  destruct o as [e|[k st stt [data|e]]]; cbn in Hacc; try discriminate;
    [|now rewrite andb_false_r in Hacc].
  apply andb_prop in Hacc. destruct Hacc as (-> & Hsucc).
  destruct (guarded_write_run _ "recordingStatusText"
              (SetTextContent "Uploading and creating voice clone...")
              (present (dom (browser s)) "recordingStatusText") s eq_refl)
    as (d0 & l0 & E0 & Hs0 & Hl0 & _ & _).
  destruct (showRecordingResult_run
              "Voice clone created successfully! Reloading..." "success"
              (with_dom d0 s))
    as (d1 & l1 & E1 & Hs1 & Hl1 & Hf1 & Hw1).
  destruct (guarded_write_run _ "recordingStatusText"
              (SetTextContent "Success!")
              (present (dom (browser s)) "recordingStatusText")
              (with_dom d1 (with_dom d0 s)))
    as (d2 & l2 & E2 & Hs2 & Hl2 & Hf2 & Hw2); [cbn; now rewrite Hs1, Hs0|].
  cbn in Hs1, Hf1, Hw1, Hs2, Hf2, Hw2.
  exists d2,
    (l0 ++ [Fetch (Voice.upload_request (vars s) audioBlob)] ++ l1 ++ l2
     ++ [ReloadAfter 2000%N]).
  split.
  { rewrite uploadRecording_blocks.
    eapply bind_run_as; [apply getElementById_run | | reflexivity].
    eapply bind_run_as; [exact E0 | | reflexivity].
    apply try_catch_ok. unfold upload_try.
    eapply bind_run_as; [reflexivity | | reflexivity].
    eapply bind_run_as; [reflexivity | | reflexivity].
    cbn [ok negb].
    eapply bind_run_as; [reflexivity | | reflexivity].
    rewrite Hsucc.
    eapply bind_run_as; [exact E1 | | reflexivity].
    eapply bind_run_as; [exact E2 | reflexivity | reflexivity]. }
  splits.
  - rewrite !fetches_app, (dom_log_fetches l0 Hl0), (dom_log_fetches l1 Hl1),
      (dom_log_fetches l2 Hl2). reflexivity.
  - rewrite !reloads_app, (dom_log_reloads l0 Hl0), (dom_log_reloads l1 Hl1),
      (dom_log_reloads l2 Hl2). reflexivity.
  - intros H. rewrite Hf2 by discriminate.
    destruct Hw1 as (? & ? & _); [now rewrite Hs0 | auto].
  - intros H. rewrite Hw2.
    assert (H1 : present d1 "recordingStatusText" = true)
      by now rewrite Hs1, Hs0.
    unfold present in H1.
    destruct (d1 "recordingStatusText"); [reflexivity | discriminate].
Qed.

(** X16. How an upload ends.  Exactly one request is sent, nothing is thrown
    and the script's variables stay as they were.  The page is reloaded,
    two seconds later, only after an accepted upload, with the success text
    in the result box and Success! as status.  An upload that was not
    accepted schedules no reload: the result box is given the [message]
    property of what was caught, as an error, and the status goes back to
    Ready to record.  For a reply that was read this message is the
    server's [error] text or else "Upload failed" for a failure status and
    "Failed to create voice clone" for an OK reply without success; for a
    rejection it is the message of the error, and where the value rejected
    with has none (a string, an event) the box is left without text. *)
Theorem upload_ends_in_reload_or_error :
  forall (s : State Voice.Vars) (audioBlob : Blob) (o : FetchOutcome),
    present (dom (browser s)) "recordingResult" = true ->
    present (dom (browser s)) "recordingStatusText" = true ->
    exists s' l,
      Voice.uploadRecording audioBlob o s = (Ok tt, s', l)
      /\ vars s' = vars s
      /\ fetches l = [Voice.upload_request (vars s) audioBlob]
      /\ (reply_accepted o = true ->
          reloads l = [2000%N]
          /\ text_of (browser s') "recordingResult"
             = Some (js "Voice clone created successfully! Reloading...")
          /\ class_of (browser s') "recordingResult"
             = Some [js "recording-result"; js "success"]
          /\ text_of (browser s') "recordingStatusText"
             = Some (js "Success!"))
      /\ (reply_accepted o = false ->
          reloads l = []
          /\ text_of (browser s') "recordingResult"
             = Some (message_text (upload_error o))
          /\ class_of (browser s') "recordingResult"
             = Some [js "recording-result"; js "error"]
          /\ text_of (browser s') "recordingStatusText"
             = Some (js "Ready to record")).
Proof.
  intros s audioBlob o Hres Hst.
  destruct (reply_accepted o) eqn:Hacc.
  - destruct (uploadRecording_accepted_run audioBlob o s Hacc)
      as (d' & l & E & Hf & Hr & Hbox & Htxt).
    exists (with_dom d' s), l. destruct (Hbox Hres) as (H1 & H2).
    unfold text_of, class_of. cbn [browser with_dom set_dom dom vars].
    splits; auto; discriminate.
  - destruct (upload_throw_run audioBlob o (upload_error o) s)
      as (d' & l & E & Hf & Hr & Hbox & Htxt).
    { intros flag s1. now apply upload_try_throws. }
    exists (with_dom d' s), l. destruct (Hbox Hres) as (H1 & H2).
    unfold text_of, class_of. cbn [browser with_dom set_dom dom vars].
    splits; auto; discriminate.
Qed.

Lemma upload_ends_in_reload_or_error_witness :
  exists s' l,
    Voice.uploadRecording {| blob_data := []; blob_type := "audio/webm" |}
      (FetchResolved (http_error 413 (failure_data empty))) voice0
    = (Ok tt, s', l)
    /\ reloads l = []
    /\ text_of (browser s') "recordingResult" = Some (js "Upload failed").
Proof.
  destruct (upload_ends_in_reload_or_error voice0
              {| blob_data := []; blob_type := "audio/webm" |}
              (FetchResolved (http_error 413 (failure_data empty)))
              eq_refl eq_refl)
    as (s' & l & E & _ & _ & _ & H).
  destruct (H eq_refl) as (Hr & Ht & _).
  exists s', l. split; [exact E | split; [exact Hr | exact Ht]].
Defined.

(** ** The messages of the chat page *)

Lemma write_run (V : Type) id w e (s : State V) :
  dom (browser s) id = Some e ->
  write id w s
  = (Ok tt,
     with_dom (dom_set id (Some (apply_write w e)) (dom (browser s))) s,
     [Dom_ id w]).
Proof.
  intros H. unfold write, bind, get_browser, modify_browser, emit.
  cbn. rewrite H. reflexivity.
Qed.

Lemma write_absent (V : Type) id w (s : State V) :
  dom (browser s) id = None ->
  write id w s = (Throw (TypeError "Cannot set properties of null"), s, []).
Proof.
  intros H. unfold write, bind, get_browser, throw. cbn. now rewrite H.
Qed.

Lemma present_true d id : present d id = true -> exists e, d id = Some e.
Proof. unfold present. destruct (d id); [eauto | discriminate]. Qed.

Lemma present_false d id : present d id = false -> d id = None.
Proof. unfold present. now destruct (d id). Qed.

Lemma addMessage_run type text sa (s : State Chat.Vars) :
  present (dom (browser s)) "chatMessages" = true ->
  exists d',
    Chat.addMessage type text sa s
    = (Ok tt,
       with_dom d'
         (with_vars (Chat.set_messageHistory
                       (Chat.messageHistory (vars s) ++ [(type, text)])
                       (vars s)) s),
       [Dom_ "chatMessages"
          (AppendChild (MessageDiv type (Chat.replace_newlines text)
                          (sa && jseqb type "agent")));
        Dom_ "chatMessages" ScrollToBottom])
    /\ same_elements (dom (browser s)) d'
    /\ (forall id, id <> "chatMessages" -> d' id = dom (browser s) id)
    /\ messages_of (set_dom d' (browser s))
       = messages_of (browser s)
         ++ [MessageDiv type (Chat.replace_newlines text)
               (sa && jseqb type "agent")].
Proof.
  intros Hp. destruct (present_true _ _ Hp) as (e & He).
  exists (dom_set "chatMessages"
            (Some (apply_write ScrollToBottom
                     (apply_write
                        (AppendChild
                           (MessageDiv type (Chat.replace_newlines text)
                              (sa && jseqb type "agent"))) e)))
            (dom_set "chatMessages"
               (Some (apply_write
                        (AppendChild
                           (MessageDiv type (Chat.replace_newlines text)
                              (sa && jseqb type "agent"))) e))
               (dom (browser s)))).
  split.
  { unfold Chat.addMessage.
    eapply bind_run_as; [apply getElementById_run | | reflexivity].
    rewrite Hp. cbn [negb].
    eapply bind_run_as; [apply write_run; exact He | | reflexivity].
    eapply bind_run_as;
      [apply write_run; cbn; reflexivity | reflexivity | reflexivity]. }
  splits.
  - eapply same_elements_trans; eapply dom_set_present;
      [exact He | apply dom_set_same].
  - intros id H. now rewrite !dom_set_other by congruence.
  - unfold messages_of. cbn. now rewrite He.
Qed.

Lemma addMessage_absent type text sa (s : State Chat.Vars) :
  present (dom (browser s)) "chatMessages" = false ->
  Chat.addMessage type text sa s = (Ok tt, s, []).
Proof.
  intros Hp. unfold Chat.addMessage.
  eapply bind_run_as; [apply getElementById_run | | reflexivity].
  now rewrite Hp.
Qed.

Lemma showTypingIndicator_run (s : State Chat.Vars) :
  present (dom (browser s)) "chatMessages" = true ->
  exists d',
    Chat.showTypingIndicator s
    = (Ok "typing-indicator"%string, with_dom d' s,
       [Dom_ "chatMessages" (AppendChild TypingDiv);
        Dom_ "chatMessages" ScrollToBottom])
    /\ same_elements (dom (browser s)) d'
    /\ (forall id, id <> "chatMessages" -> d' id = dom (browser s) id)
    /\ messages_of (set_dom d' (browser s))
       = messages_of (browser s) ++ [TypingDiv].
Proof.
  intros Hp. destruct (present_true _ _ Hp) as (e & He).
  exists (dom_set "chatMessages"
            (Some (apply_write ScrollToBottom
                     (apply_write (AppendChild TypingDiv) e)))
            (dom_set "chatMessages"
               (Some (apply_write (AppendChild TypingDiv) e))
               (dom (browser s)))).
  split.
  { unfold Chat.showTypingIndicator.
    eapply bind_run_as; [apply write_run; exact He | | reflexivity].
    eapply bind_run_as;
      [apply write_run; cbn; reflexivity | reflexivity | reflexivity]. }
  splits.
  - eapply same_elements_trans; eapply dom_set_present;
      [exact He | apply dom_set_same].
  - intros id H. now rewrite !dom_set_other by congruence.
  - unfold messages_of. cbn. now rewrite He.
Qed.

Lemma remove_first_none (A : Type) (p : A -> bool) l :
  existsb p l = false -> remove_first p l = l.
Proof.
  induction l as [|x l IH]; [reflexivity|]. cbn.
  destruct (p x); [discriminate|]. cbn. intros H. now rewrite IH.
Qed.

Lemma remove_first_app (A : Type) (p : A -> bool) l x l' :
  existsb p l = false -> p x = true ->
  remove_first p (l ++ x :: l') = l ++ l'.
Proof.
  intros Hl Hx. induction l as [|y l IH]; cbn.
  - now rewrite Hx.
  - cbn in Hl. destruct (p y); [discriminate|]. cbn in Hl.
    now rewrite IH.
Qed.

Lemma existsb_is_typing l :
  existsb (node_eqb TypingDiv) l = existsb is_typing l.
Proof. induction l as [|[]]; cbn; congruence. Qed.

Lemma hideTypingIndicator_run id (s : State Chat.Vars) :
  exists d' l,
    Chat.hideTypingIndicator id s = (Ok tt, with_dom d' s, l)
    /\ same_elements (dom (browser s)) d'
    /\ dom_log l
    /\ (forall id', id' <> "chatMessages" -> d' id' = dom (browser s) id')
    /\ messages_of (set_dom d' (browser s))
       = remove_first is_typing (messages_of (browser s)).
Proof.
  unfold Chat.hideTypingIndicator, Chat.typing_indicator_present, messages_of.
  destruct (dom (browser s) "chatMessages") as [e|] eqn:He.
  - destruct (existsb is_typing (children e)) eqn:Ht.
    + eexists _, _. split.
      { eapply bind_run_as; [reflexivity | | reflexivity].
        cbn [browser]. rewrite He, Ht. rewrite when_true.
        apply write_run. exact He. }
      splits.
      * eapply dom_set_present. exact He.
      * reflexivity.
      * intros id' H. now rewrite dom_set_other by congruence.
      * cbn. clear.
        induction (children e) as [|[] l IH]; cbn; congruence.
    + exists (dom (browser s)), []. split.
      { eapply bind_run_as; [reflexivity | | reflexivity].
        cbn [browser]. rewrite He, Ht, when_false. now rewrite with_dom_same. }
      splits.
      * apply same_elements_refl.
      * reflexivity.
      * reflexivity.
      * cbn. rewrite He. symmetry. now apply remove_first_none.
  - exists (dom (browser s)), []. split.
    { eapply bind_run_as; [reflexivity | | reflexivity].
      cbn [browser]. rewrite He, when_false. now rewrite with_dom_same. }
    splits.
    + apply same_elements_refl.
    + reflexivity.
    + reflexivity.
    + cbn. now rewrite He.
Qed.

Lemma value_of_input input (b : Browser) :
  dom b "messageInput" = Some input ->
  Chat.value_of b "messageInput" = value input.
Proof. intros H. unfold Chat.value_of. now rewrite H. Qed.

(** [sendMessage] up to its request, when there is text to send and a
    message container to show it in. *)
Lemma chat_sent_run input (s : State Chat.Vars) :
  dom (browser s) "messageInput" = Some input ->
  truthy (trim (value input)) = true ->
  present (dom (browser s)) "chatMessages" = true ->
  let text := trim (value input) in
  let turn := {| role := user; content := text |} in
  exists s1 l1,
    Chat.sendMessage_send s
    = (Ok (Some "typing-indicator"%string), s1,
       l1 ++ [Fetch (Chat.generate_request (Chat.push_turn turn (vars s))
                       text)])
    /\ dom_log l1
    /\ vars s1
       = Chat.set_messageHistory
           (Chat.messageHistory (vars s) ++ [(js "user", text)])
           (Chat.push_turn turn (vars s))
    /\ messages_of (browser s1)
       = messages_of (browser s)
         ++ [MessageDiv "user" (Chat.replace_newlines text) false; TypingDiv]
    /\ Chat.value_of (browser s1) "messageInput" = empty
    /\ same_elements (dom (browser s)) (dom (browser s1))
    /\ speechSynthesis (browser s1) = speechSynthesis (browser s)
    /\ (forall id, id <> "chatMessages" -> id <> "messageInput" ->
          dom (browser s1) id = dom (browser s) id).
Proof.
  intros Hin Ht Hc text turn.
  set (s0 := with_vars (Chat.push_turn turn (vars s)) s).
  destruct (addMessage_run "user" text false s0 Hc)
    as (d1 & E1 & Hs1 & Hf1 & Hm1).
  set (v1 := Chat.set_messageHistory
               (Chat.messageHistory (vars s0) ++ [(js "user", text)])
               (vars s0)) in *.
  assert (Hin1 : d1 "messageInput" = Some input)
    by (rewrite Hf1 by discriminate; exact Hin).
  set (d2 := dom_set "messageInput" (Some (apply_write (SetValue empty) input))
               d1).
  set (d3 := dom_set "messageInput"
               (Some (apply_write (SetHeight "auto")
                        (apply_write (SetValue empty) input))) d2).
  assert (Hs3 : same_elements (dom (browser s)) d3).
  { eapply same_elements_trans; [exact Hs1|].
    eapply same_elements_trans; eapply dom_set_present;
      [exact Hin1 | apply dom_set_same]. }
  destruct (showTypingIndicator_run
              {| vars := v1; browser := set_dom d3 (browser s) |})
    as (d4 & E4 & Hs4 & Hf4 & Hm4); [cbn; now rewrite Hs3|].
  cbn [browser dom set_dom] in Hs4, Hf4, Hm4.
  eexists _,
    [Dom_ "chatMessages"
       (AppendChild (MessageDiv "user" (Chat.replace_newlines text)
                       (false && jseqb "user" "agent")));
     Dom_ "chatMessages" ScrollToBottom;
     Dom_ "messageInput" (SetValue empty);
     Dom_ "messageInput" (SetHeight "auto");
     Dom_ "chatMessages" (AppendChild TypingDiv);
     Dom_ "chatMessages" ScrollToBottom].
  split.
  { unfold Chat.sendMessage_send.
    eapply bind_run_as; [apply getElementById_run | | reflexivity].
    unfold present at 1. rewrite Hin. cbn [negb].
    eapply bind_run_as; [reflexivity | | reflexivity].
    rewrite (value_of_input input _ Hin). rewrite Ht. cbn [negb].
    eapply bind_run_as; [reflexivity | | reflexivity].
    eapply bind_run_as; [exact E1 | | reflexivity].
    eapply bind_run_as; [apply write_run; exact Hin1 | | reflexivity].
    eapply bind_run_as;
      [apply write_run; apply dom_set_same | | reflexivity].
    eapply bind_run_as; [exact E4 | | reflexivity].
    eapply bind_run_as; [reflexivity | | reflexivity].
    eapply bind_run_as; [reflexivity | reflexivity | reflexivity]. }
  cbn [browser vars with_dom with_vars set_dom dom speechSynthesis].
  splits.
  - reflexivity.
  - reflexivity.
  - unfold messages_of in *. cbn [dom set_dom] in *. rewrite Hm4.
    subst d3 d2. rewrite !dom_set_other by discriminate.
    rewrite Hm1, <- app_assoc. reflexivity.
  - unfold Chat.value_of. cbn [dom]. rewrite Hf4 by discriminate.
    subst d3. now rewrite dom_set_same.
  - eauto using same_elements_trans.
  - reflexivity.
  - intros id H1 H2. rewrite Hf4 by assumption. subst d3 d2.
    rewrite !dom_set_other by congruence. now apply Hf1.
Qed.

Lemma notices_app l1 l2 : notices (l1 ++ l2) = notices l1 ++ notices l2.
Proof. apply flat_map_app. Qed.

Lemma dom_log_notices l : dom_log l -> notices l = [].
Proof.
  unfold dom_log. induction l as [|e l IH]; [reflexivity|].
  destruct e; cbn; try discriminate. exact IH.
Qed.

(** The typing indicator leaves and a message is added. *)
Lemma chat_answer_run id type text sa (s : State Chat.Vars) :
  present (dom (browser s)) "chatMessages" = true ->
  exists d' l,
    (Chat.hideTypingIndicator id ;; Chat.addMessage type text sa) s
    = (Ok tt,
       with_dom d'
         (with_vars (Chat.set_messageHistory
                       (Chat.messageHistory (vars s) ++ [(type, text)])
                       (vars s)) s), l)
    /\ dom_log l
    /\ same_elements (dom (browser s)) d'
    /\ (forall id', id' <> "chatMessages" -> d' id' = dom (browser s) id')
    /\ messages_of (set_dom d' (browser s))
       = remove_first is_typing (messages_of (browser s))
         ++ [MessageDiv type (Chat.replace_newlines text)
               (sa && jseqb type "agent")].
Proof.
  intros Hc.
  destruct (hideTypingIndicator_run id s) as (d1 & l1 & E1 & Hs1 & Hl1 & Hf1 & Hm1).
  destruct (addMessage_run type text sa (with_dom d1 s))
    as (d2 & E2 & Hs2 & Hf2 & Hm2); [cbn; now rewrite Hs1|].
  cbn [browser with_dom dom set_dom] in Hs2, Hf2, Hm2.
  exists d2, (l1 ++ [Dom_ "chatMessages"
                       (AppendChild (MessageDiv type
                                       (Chat.replace_newlines text)
                                       (sa && jseqb type "agent")));
                     Dom_ "chatMessages" ScrollToBottom]).
  split.
  { eapply bind_run_as; [exact E1 | exact E2 | reflexivity]. }
  splits.
  - dom_log_tac.
  - eauto using same_elements_trans.
  - intros id' H. now rewrite Hf2, Hf1.
  - unfold messages_of in *. cbn [dom set_dom] in *. now rewrite Hm2, Hm1.
Qed.

Lemma chat_failed_settle_run id o (s : State Chat.Vars) :
  reply_accepted o = false ->
  present (dom (browser s)) "chatMessages" = true ->
  exists d' l,
    Chat.sendMessage_settle id o s
    = (Ok tt,
       with_dom d'
         (with_vars (Chat.set_messageHistory
                       (Chat.messageHistory (vars s)
                        ++ [(js "system", chat_error_text o)])
                       (vars s)) s), l)
    /\ dom_log l
    /\ same_elements (dom (browser s)) d'
    /\ (forall id', id' <> "chatMessages" -> d' id' = dom (browser s) id')
    /\ messages_of (set_dom d' (browser s))
       = remove_first is_typing (messages_of (browser s))
         ++ [MessageDiv "system"
               (Chat.replace_newlines (chat_error_text o)) false].
Proof.
  intros Hacc Hc.
  destruct (chat_answer_run id "system" (chat_error_text o) false s Hc)
    as (d' & l & E & H).
  exists d', l. split; [|exact H]. unfold Chat.sendMessage_settle.
  destruct o as [e|[k st stt [data|e]]].
  - eapply try_catch_throw; [reflexivity | exact E | reflexivity].
  - destruct k.
    + cbn in Hacc. apply try_catch_ok.
      eapply bind_run_as; [reflexivity | | reflexivity].
      cbn [ok negb].
      eapply bind_run_as; [reflexivity | | reflexivity].
      rewrite Hacc. exact E.
    + eapply try_catch_throw; [reflexivity | exact E | reflexivity].
  - destruct k;
      (eapply try_catch_throw; [reflexivity | exact E | reflexivity]).
Qed.

Lemma chat_accepted_settle_run id r data (s : State Chat.Vars) :
  ok r = true -> json r = JsonOk data -> success data = true ->
  present (dom (browser s)) "chatMessages" = true ->
  let turn := {| role := assistant; content := generated_content data |} in
  exists d' l,
    Chat.sendMessage_settle id (FetchResolved r) s
    = (Ok tt,
       with_dom d'
         (with_vars (Chat.set_messageHistory
                       (Chat.messageHistory (vars s)
                        ++ [(js "agent", generated_content data)])
                       (Chat.push_turn turn (vars s))) s), l)
    /\ fetches l = []
    /\ notices l
       = (if memory_extracted data
          then [(500%N, js "system", Chat.memory_notice)] else [])
    /\ same_elements (dom (browser s)) d'
    /\ (forall id', id' <> "chatMessages" -> d' id' = dom (browser s) id')
    /\ messages_of (set_dom d' (browser s))
       = remove_first is_typing (messages_of (browser s))
         ++ [MessageDiv "agent"
               (Chat.replace_newlines (generated_content data)) true].
Proof.
  intros Hok Hjson Hsucc Hc turn.
  destruct (hideTypingIndicator_run id s)
    as (d1 & l1 & E1 & Hs1 & Hl1 & Hf1 & Hm1).
  destruct (addMessage_run "agent" (generated_content data) true
              (with_vars (Chat.push_turn turn (vars s)) (with_dom d1 s)))
    as (d2 & E2 & Hs2 & Hf2 & Hm2); [cbn; now rewrite Hs1|].
  cbn [browser with_dom with_vars dom set_dom vars] in Hs2, Hf2, Hm2.
  exists d2,
    (l1 ++ [Dom_ "chatMessages"
              (AppendChild
                 (MessageDiv "agent"
                    (Chat.replace_newlines (generated_content data))
                    (true && jseqb "agent" "agent")));
            Dom_ "chatMessages" ScrollToBottom]
     ++ (if memory_extracted data
         then [AddMessageAfter 500%N "system" Chat.memory_notice] else [])).
  split.
  { unfold Chat.sendMessage_settle. apply try_catch_ok.
    eapply bind_run_as; [reflexivity | | reflexivity].
    rewrite Hok. cbn [negb].
    eapply bind_run_as;
      [unfold response_json; rewrite Hjson; reflexivity | | reflexivity].
    eapply bind_run_as; [exact E1 | | reflexivity].
    rewrite Hsucc.
    eapply bind_run_as; [reflexivity | | reflexivity].
    eapply bind_run_as; [exact E2 | | reflexivity].
    destruct (memory_extracted data); reflexivity. }
  cbn [app].
  splits.
  - cbn [app]. rewrite !fetches_app, (dom_log_fetches l1 Hl1).
    now destruct (memory_extracted data).
  - cbn [app]. rewrite !notices_app, (dom_log_notices l1 Hl1).
    now destruct (memory_extracted data).
  - eauto using same_elements_trans.
  - intros id' H. now rewrite Hf2, Hf1.
  - unfold messages_of in *. cbn [dom set_dom] in *. now rewrite Hm2, Hm1.
Qed.

Lemma typing_indicator_messages b :
  Chat.typing_indicator_present b = existsb is_typing (messages_of b).
Proof.
  unfold Chat.typing_indicator_present, messages_of.
  now destruct (dom b "chatMessages").
Qed.

Lemma remove_typing_after l n :
  existsb is_typing l = false -> is_typing n = false ->
  remove_first is_typing (l ++ [n; TypingDiv]) = l ++ [n].
Proof.
  intros Hl Hn.
  replace (l ++ [n; TypingDiv]) with ((l ++ [n]) ++ TypingDiv :: [])
    by now rewrite <- app_assoc.
  rewrite remove_first_app; [now rewrite app_nil_r | | reflexivity].
  rewrite existsb_app, Hl. cbn. now rewrite Hn.
Qed.

(** A text without [<] is plain, whatever its line breaks. *)
Lemma plain_text_markup text :
  existsb (N.eqb 0x3C) text = false ->
  plain_markup (Chat.replace_newlines text) = true.
Proof.
  induction text as [|c t IH]; [reflexivity|].
  cbn [existsb]. intros H. apply orb_false_elim in H. destruct H as [Hc Ht].
  rewrite N.eqb_sym in Hc. cbn [Chat.replace_newlines].
  destruct (N.eqb c 10).
  - change (plain_markup
              (0x3C :: 0x62 :: 0x72 :: 0x3E :: Chat.replace_newlines t)%N
            = true).
    cbn. now apply IH.
  - cbn. rewrite Hc. cbn. now apply IH.
Qed.

(** X17. A chat message that is answered, on a page of plain messages.
    The messages shown and the text sent are plain text, and the page has
    no element of its own with the id of the typing indicator, so that the
    indicator is what the lookup by this id finds.  Then the text of the
    input, trimmed, is sent once to the generate endpoint and the input is
    emptied.  The history gains the user turn and the assistant turn; the
    message container gains the user's message and the agent's message
    with its action buttons, in this order, and the typing indicator shown
    in between is gone.  The notice about a new memory is scheduled half a
    second later if and only if the reply reports one. *)
Theorem chat_reply_is_shown :
  forall (s : State Chat.Vars) (input : Element) (r : Response) (data : Reply),
    dom (browser s) "messageInput" = Some input ->
    truthy (trim (value input)) = true ->
    present (dom (browser s)) "chatMessages" = true ->
    Chat.typing_indicator_present (browser s) = false ->
    plain_page (browser s) = true ->
    plain_markup (Chat.replace_newlines (trim (value input))) = true ->
    ok r = true -> json r = JsonOk data -> success data = true ->
    let text := trim (value input) in
    let h := Chat.conversationHistory (vars s) in
    exists s' l,
      Chat.sendMessage (FetchResolved r) s = (Ok tt, s', l)
      /\ fetches l
         = [{| req_url := js "/api/generate/";
               req_method := "POST";
               req_content_type := Some (js "application/json");
               req_credentials := Some (js "include");
               req_body := JsonGenerate text
                 (slice_last 10 (h ++ [{| role := user; content := text |}]))
            |}]
      /\ Chat.conversationHistory (vars s')
         = h ++ [{| role := user; content := text |};
                 {| role := assistant; content := generated_content data |}]
      /\ messages_of (browser s')
         = messages_of (browser s)
           ++ [MessageDiv "user" (Chat.replace_newlines text) false;
               MessageDiv "agent"
                 (Chat.replace_newlines (generated_content data)) true]
      /\ Chat.typing_indicator_present (browser s') = false
      /\ Chat.value_of (browser s') "messageInput" = empty
      /\ notices l
         = (if memory_extracted data
            then [(500%N, js "system", Chat.memory_notice)] else []).
Proof.
  intros s input r data Hin Ht Hc Hty _ _ Hok Hjson Hsucc text h.
  destruct (chat_sent_run input s Hin Ht Hc)
    as (s1 & l1 & E1 & Hl1 & Hv1 & Hm1 & Hval1 & Hs1 & _ & _).
  fold text in E1, Hv1, Hm1.
  destruct (chat_accepted_settle_run "typing-indicator" r data s1 Hok Hjson
              Hsucc)
    as (d2 & l2 & E2 & Hf2 & Hn2 & Hs2 & Hfr2 & Hm2); [now rewrite Hs1|].
  rewrite typing_indicator_messages in Hty.
  assert (Hmsgs : messages_of (set_dom d2 (browser s1))
                  = messages_of (browser s)
                    ++ [MessageDiv "user" (Chat.replace_newlines text) false;
                        MessageDiv "agent"
                          (Chat.replace_newlines (generated_content data))
                          true]).
  { rewrite Hm2, Hm1, remove_typing_after by auto.
    now rewrite <- app_assoc. }
  eexists _, _. split.
  { unfold Chat.sendMessage.
    eapply bind_run_as; [exact E1 | exact E2 | reflexivity]. }
  cbn [browser vars with_dom with_vars].
  splits.
  - rewrite !fetches_app, (dom_log_fetches l1 Hl1), Hf2. reflexivity.
  - rewrite Hv1. cbn. now rewrite <- app_assoc.
  - exact Hmsgs.
  - rewrite typing_indicator_messages, Hmsgs, existsb_app, Hty.
    reflexivity.
  - unfold Chat.value_of in *. cbn [dom set_dom].
    now rewrite Hfr2 by discriminate.
  - now rewrite !notices_app, (dom_log_notices l1 Hl1), Hn2.
Qed.

Lemma chat_reply_is_shown_witness :
  exists s' l,
    Chat.sendMessage
      (FetchResolved
         (http_ok {| success := true; response_text := empty;
                     generated_content := "hello"; audio_url := None;
                     error := None; memory_extracted := false |}))
      (chat_page [MessageDiv "agent" "welcome" false] "hi")
    = (Ok tt, s', l)
    /\ messages_of (browser s')
       = [MessageDiv "agent" "welcome" false;
          MessageDiv "user" "hi" false; MessageDiv "agent" "hello" true]
    /\ Chat.conversationHistory (vars s')
       = [{| role := user; content := "hi" |};
          {| role := assistant; content := "hello" |}].
Proof.
  destruct (chat_reply_is_shown
              (chat_page [MessageDiv "agent" "welcome" false] "hi")
              (apply_write (SetValue "hi") blank_element)
              (http_ok {| success := true; response_text := empty;
                          generated_content := "hello"; audio_url := None;
                          error := None; memory_extracted := false |})
              {| success := true; response_text := empty;
                 generated_content := "hello"; audio_url := None;
                 error := None; memory_extracted := false |}
              eq_refl eq_refl eq_refl eq_refl eq_refl eq_refl eq_refl eq_refl
              eq_refl)
    as (s' & l & E & _ & Hh & Hm & _).
  exists s', l. split; [exact E | split; [exact Hm | exact Hh]].
Defined.

(** X18. A chat message that is not answered, on a page of plain messages
    (the messages shown and the text sent are plain text, and the page has
    no element of its own with the id of the typing indicator).  Whatever
    goes wrong after the request is sent (the network, a failure status, a
    body that is not JSON, a reply without success), nothing is thrown and
    no further request is made: the typing indicator is removed and one
    system message with the error follows the user's message.  The user
    turn stays in the history, without an assistant turn. *)
Theorem chat_failure_is_one_system_message :
  forall (s : State Chat.Vars) (input : Element) (o : FetchOutcome),
    dom (browser s) "messageInput" = Some input ->
    truthy (trim (value input)) = true ->
    present (dom (browser s)) "chatMessages" = true ->
    Chat.typing_indicator_present (browser s) = false ->
    plain_page (browser s) = true ->
    plain_markup (Chat.replace_newlines (trim (value input))) = true ->
    reply_accepted o = false ->
    let text := trim (value input) in
    exists s' l,
      Chat.sendMessage o s = (Ok tt, s', l)
      /\ length (fetches l) = 1
      /\ notices l = []
      /\ Chat.conversationHistory (vars s')
         = Chat.conversationHistory (vars s)
           ++ [{| role := user; content := text |}]
      /\ messages_of (browser s')
         = messages_of (browser s)
           ++ [MessageDiv "user" (Chat.replace_newlines text) false;
               MessageDiv "system"
                 (Chat.replace_newlines (chat_error_text o)) false]
      /\ Chat.typing_indicator_present (browser s') = false
      /\ Chat.value_of (browser s') "messageInput" = empty.
Proof.
  intros s input o Hin Ht Hc Hty _ _ Hacc text.
  destruct (chat_sent_run input s Hin Ht Hc)
    as (s1 & l1 & E1 & Hl1 & Hv1 & Hm1 & Hval1 & Hs1 & _ & _).
  fold text in E1, Hv1, Hm1.
  destruct (chat_failed_settle_run "typing-indicator" o s1 Hacc)
    as (d2 & l2 & E2 & Hl2 & Hs2 & Hfr2 & Hm2); [now rewrite Hs1|].
  rewrite typing_indicator_messages in Hty.
  assert (Hmsgs : messages_of (set_dom d2 (browser s1))
                  = messages_of (browser s)
                    ++ [MessageDiv "user" (Chat.replace_newlines text) false;
                        MessageDiv "system"
                          (Chat.replace_newlines (chat_error_text o)) false]).
  { rewrite Hm2, Hm1, remove_typing_after by auto.
    now rewrite <- app_assoc. }
  eexists _, _. split.
  { unfold Chat.sendMessage.
    eapply bind_run_as; [exact E1 | exact E2 | reflexivity]. }
  cbn [browser vars with_dom with_vars].
  splits.
  - now rewrite !fetches_app, (dom_log_fetches l1 Hl1),
      (dom_log_fetches l2 Hl2).
  - now rewrite !notices_app, (dom_log_notices l1 Hl1),
      (dom_log_notices l2 Hl2).
  - rewrite Hv1. reflexivity.
  - exact Hmsgs.
  - rewrite typing_indicator_messages, Hmsgs, existsb_app, Hty.
    reflexivity.
  - unfold Chat.value_of in *. cbn [dom set_dom].
    now rewrite Hfr2 by discriminate.
Qed.

Lemma chat_failure_is_one_system_message_witness :
  exists s' l,
    Chat.sendMessage (FetchResolved (http_ok (failure_data "quota")))
      (chat_page [MessageDiv "agent" "welcome" false] "hi")
    = (Ok tt, s', l)
    /\ messages_of (browser s')
       = [MessageDiv "agent" "welcome" false;
          MessageDiv "user" "hi" false;
          MessageDiv "system" (Chat.cross_mark +++ " Error: quota") false]
    /\ Chat.typing_indicator_present (browser s') = false.
Proof.
  destruct (chat_failure_is_one_system_message
              (chat_page [MessageDiv "agent" "welcome" false] "hi")
              (apply_write (SetValue "hi") blank_element)
              (FetchResolved (http_ok (failure_data "quota")))
              eq_refl eq_refl eq_refl eq_refl eq_refl eq_refl eq_refl)
    as (s' & l & E & _ & _ & _ & Hm & Hty & _).
  exists s', l. split; [exact E | split; [exact Hm | exact Hty]].
Defined.

(** X19. Nothing to send.  Without the input element, or with an input that
    holds white space only, [sendMessage] does nothing at all: no request,
    no message, and the page and the script's variables are as before. *)
Theorem blank_chat_input_is_ignored :
  forall (s : State Chat.Vars) (o : FetchOutcome),
    present (dom (browser s)) "messageInput" = false
    \/ forallb isWhiteSpace (Chat.value_of (browser s) "messageInput") = true ->
    Chat.sendMessage o s = (Ok tt, s, []).
Proof.
  intros s o H. unfold Chat.sendMessage, Chat.sendMessage_send.
  eapply bind_run_as with (a := None) (s1 := s) (l1 := []);
    [ | reflexivity | reflexivity].
  eapply bind_run_as; [apply getElementById_run | | reflexivity].
  destruct (present (dom (browser s)) "messageInput") eqn:Hp; [|reflexivity].
  destruct H as [H|H]; [discriminate|]. cbn [negb].
  eapply bind_run_as; [reflexivity | | reflexivity].
  assert (Ht : truthy (trim (Chat.value_of (browser s) "messageInput"))
               = false).
  { rewrite <- blank_whitespace in H. unfold blank in H.
    destruct (Chat.value_of (browser s) "messageInput") as [|c v];
      [reflexivity|].
    cbn [truthy negb orb] in H. now apply negb_true_iff in H. }
  rewrite Ht. reflexivity.
Qed.

Lemma blank_chat_input_is_ignored_witness :
  Chat.sendMessage (FetchRejected JsEvent) chat0 = (Ok tt, chat0, []).
Proof.
  apply (blank_chat_input_is_ignored chat0 (FetchRejected JsEvent)).
  right. reflexivity.
Defined.

Lemma reply_accepted_true o :
  reply_accepted o = true ->
  exists r data,
    o = FetchResolved r /\ ok r = true /\ json r = JsonOk data
    /\ success data = true.
Proof.
  destruct o as [e|r]; [discriminate|]. cbn.
  destruct (ok r) eqn:Hok; [|discriminate].
  destruct (json r) as [data|e] eqn:Hjson; [|discriminate].
  cbn. intros H. exists r, data. auto.
Qed.

(** [sendMessage] with text to send and a container to show it in, however
    the request ends. *)
Lemma chat_exchange_run input o (s : State Chat.Vars) :
  dom (browser s) "messageInput" = Some input ->
  truthy (trim (value input)) = true ->
  present (dom (browser s)) "chatMessages" = true ->
  Chat.typing_indicator_present (browser s) = false ->
  let text := trim (value input) in
  let turn := {| role := user; content := text |} in
  exists s' l answer more,
    Chat.sendMessage o s = (Ok tt, s', l)
    /\ fetches l = [Chat.generate_request (Chat.push_turn turn (vars s)) text]
    /\ Chat.conversationHistory (vars s')
       = Chat.conversationHistory (vars s) ++ [turn] ++ more
    /\ messages_of (browser s')
       = messages_of (browser s)
         ++ [MessageDiv "user" (Chat.replace_newlines text) false; answer]
    /\ Chat.typing_indicator_present (browser s') = false.
Proof.
  intros Hin Ht Hc Hty text turn.
  destruct (chat_sent_run input s Hin Ht Hc)
    as (s1 & l1 & E1 & Hl1 & Hv1 & Hm1 & _ & Hs1 & _ & _).
  fold text turn in E1, Hv1, Hm1.
  rewrite typing_indicator_messages in Hty.
  assert (Hc1 : present (dom (browser s1)) "chatMessages" = true)
    by now rewrite Hs1.
  destruct (reply_accepted o) eqn:Hacc.
  - destruct (reply_accepted_true o Hacc)
      as (r & data & -> & Hok & Hjson & Hsucc).
    destruct (chat_accepted_settle_run "typing-indicator" r data s1 Hok Hjson
                Hsucc Hc1)
      as (d2 & l2 & E2 & Hf2 & _ & _ & _ & Hm2).
    assert (Hmsgs : messages_of (set_dom d2 (browser s1))
              = messages_of (browser s)
                ++ [MessageDiv "user" (Chat.replace_newlines text) false;
                    MessageDiv "agent"
                      (Chat.replace_newlines (generated_content data)) true]).
    { rewrite Hm2, Hm1, remove_typing_after by auto.
      now rewrite <- app_assoc. }
    eexists _, _, _,
      [{| role := assistant; content := generated_content data |}].
    split.
    { unfold Chat.sendMessage.
      eapply bind_run_as; [exact E1 | exact E2 | reflexivity]. }
    cbn [browser vars with_dom with_vars]. splits.
    + now rewrite !fetches_app, (dom_log_fetches l1 Hl1), Hf2.
    + rewrite Hv1. cbn. now rewrite <- app_assoc.
    + exact Hmsgs.
    + rewrite typing_indicator_messages, Hmsgs, existsb_app, Hty.
      reflexivity.
  - destruct (chat_failed_settle_run "typing-indicator" o s1 Hacc Hc1)
      as (d2 & l2 & E2 & Hl2 & _ & _ & Hm2).
    assert (Hmsgs : messages_of (set_dom d2 (browser s1))
              = messages_of (browser s)
                ++ [MessageDiv "user" (Chat.replace_newlines text) false;
                    MessageDiv "system"
                      (Chat.replace_newlines (chat_error_text o)) false]).
    { rewrite Hm2, Hm1, remove_typing_after by auto.
      now rewrite <- app_assoc. }
    eexists _, _, _, []. split.
    { unfold Chat.sendMessage.
      eapply bind_run_as; [exact E1 | exact E2 | reflexivity]. }
    cbn [browser vars with_dom with_vars]. splits.
    + now rewrite !fetches_app, (dom_log_fetches l1 Hl1),
        (dom_log_fetches l2 Hl2).
    + rewrite Hv1. reflexivity.
    + exact Hmsgs.
    + rewrite typing_indicator_messages, Hmsgs, existsb_app, Hty.
      reflexivity.
Qed.

(** X20. A chat page without its message container.  The text is taken from
    the input all the same: the input is emptied and the user turn joins
    the history, but showing the typing indicator fails, so [sendMessage]
    ends with a TypeError before any request is made. *)
Theorem message_is_lost_without_container :
  forall (s : State Chat.Vars) (input : Element) (o : FetchOutcome),
    dom (browser s) "messageInput" = Some input ->
    truthy (trim (value input)) = true ->
    present (dom (browser s)) "chatMessages" = false ->
    exists s' l e,
      Chat.sendMessage o s = (Throw e, s', l)
      /\ name_of e = js "TypeError"
      /\ fetches l = []
      /\ Chat.conversationHistory (vars s')
         = Chat.conversationHistory (vars s)
           ++ [{| role := user; content := trim (value input) |}]
      /\ Chat.messageHistory (vars s') = Chat.messageHistory (vars s)
      /\ Chat.value_of (browser s') "messageInput" = empty.
Proof.
  intros s input o Hin Ht Hc.
  eexists _, _, _. split.
  { unfold Chat.sendMessage. apply bind_throw.
    unfold Chat.sendMessage_send.
    eapply bind_run_as; [apply getElementById_run | | reflexivity].
    unfold present at 1. rewrite Hin. cbn [negb].
    eapply bind_run_as; [reflexivity | | reflexivity].
    rewrite (value_of_input input _ Hin). rewrite Ht. cbn [negb].
    eapply bind_run_as; [reflexivity | | reflexivity].
    eapply bind_run_as; [apply addMessage_absent; exact Hc | | reflexivity].
    eapply bind_run_as; [apply write_run; exact Hin | | reflexivity].
    eapply bind_run_as;
      [apply write_run; apply dom_set_same | | reflexivity].
    apply bind_throw. unfold Chat.showTypingIndicator. apply bind_throw.
    apply write_absent. cbn. apply present_false. exact Hc. }
  cbn [vars browser with_dom]. splits; reflexivity.
Qed.

Lemma message_is_lost_without_container_witness :
  exists s' l e,
    Chat.sendMessage (FetchRejected JsEvent)
      {| vars := vars chat1;
         browser := set_dom (dom_set "chatMessages" None (dom (browser chat1)))
                      (browser chat1) |}
    = (Throw e, s', l)
    /\ fetches l = []
    /\ Chat.conversationHistory (vars s') = [{| role := user; content := "hi" |}].
Proof.
  destruct (message_is_lost_without_container
              {| vars := vars chat1;
                 browser := set_dom (dom_set "chatMessages" None
                                       (dom (browser chat1)))
                              (browser chat1) |}
              (apply_write (SetValue "hi") blank_element)
              (FetchRejected JsEvent) eq_refl eq_refl eq_refl)
    as (s' & l & e & E & _ & Hf & Hh & _).
  exists s', l, e. split; [exact E | split; [exact Hf | exact Hh]].
Defined.

(** ** Regenerating an answer *)

Lemma existsb_rev' (A : Type) (p : A -> bool) l :
  existsb p (rev l) = existsb p l.
Proof.
  induction l as [|x l IH]; [reflexivity|]. cbn.
  rewrite existsb_app, IH. cbn. rewrite orb_false_r. apply orb_comm.
Qed.

Lemma existsb_remove_first (A : Type) (p q : A -> bool) l :
  existsb p l = false -> existsb p (remove_first q l) = false.
Proof.
  induction l as [|x l IH]; [reflexivity|]. cbn.
  destruct (p x) eqn:Hp; [discriminate|]. cbn. intros H.
  destruct (q x); [exact H|]. cbn. now rewrite Hp, IH.
Qed.

Lemma existsb_remove_last (A : Type) (p q : A -> bool) l :
  existsb p l = false -> existsb p (Chat.remove_last q l) = false.
Proof.
  intros H. unfold Chat.remove_last. rewrite existsb_rev'.
  apply existsb_remove_first. now rewrite existsb_rev'.
Qed.

Lemma remove_last_agent_message_dom b id :
  id <> "chatMessages"%string ->
  dom (Chat.remove_last_agent_message b) id = dom b id.
Proof.
  intros H. unfold Chat.remove_last_agent_message.
  destruct (dom b "chatMessages"); [|reflexivity].
  cbn. now rewrite dom_set_other by congruence.
Qed.

Lemma remove_last_agent_message_same b :
  same_elements (dom b) (dom (Chat.remove_last_agent_message b)).
Proof.
  unfold Chat.remove_last_agent_message.
  destruct (dom b "chatMessages") eqn:E; [|apply same_elements_refl].
  cbn. eapply dom_set_present. exact E.
Qed.

Lemma remove_last_agent_message_messages b :
  messages_of (Chat.remove_last_agent_message b)
  = Chat.remove_last Chat.is_agent_message (messages_of b).
Proof.
  unfold Chat.remove_last_agent_message, messages_of.
  destruct (dom b "chatMessages") eqn:E.
  - reflexivity.
  - now rewrite E.
Qed.

Lemma hd_error_rev_In (A : Type) (x : A) l :
  hd_error (rev l) = Some x -> In x l.
Proof.
  intros H. apply in_rev. destruct (rev l); [discriminate|].
  injection H as ->. now left.
Qed.

Lemma lastUserMsg_user h msg :
  Chat.lastUserMsg h = Some msg -> In msg h /\ Chat.is_user msg = true.
Proof.
  intros H. apply hd_error_rev_In in H. now apply filter_In in H.
Qed.

Lemma ends_with_assistant_last h :
  Chat.ends_with_assistant h = true ->
  exists t, h = removelast h ++ [t] /\ Chat.is_assistant t = true.
Proof.
  unfold Chat.ends_with_assistant. intros H.
  destruct h as [|x h] using rev_ind; [discriminate|].
  rewrite rev_app_distr in H. cbn in H.
  exists x. rewrite removelast_last. auto.
Qed.

Lemma user_not_assistant t :
  Chat.is_user t = true -> Chat.is_assistant t = true -> False.
Proof. unfold Chat.is_user, Chat.is_assistant. destruct (role t); discriminate. Qed.

(** The user turn an answer is regenerated for stays in the history. *)
Lemma lastUserMsg_stays h msg :
  Chat.lastUserMsg h = Some msg -> Chat.ends_with_assistant h = true ->
  In msg (removelast h).
Proof.
  intros Hl He. destruct (lastUserMsg_user h msg Hl) as (Hin & Hu).
  destruct (ends_with_assistant_last h He) as (t & Hh & Ha).
  rewrite Hh in Hin. apply in_app_or in Hin. destruct Hin as [Hin|[<-|[]]].
  - exact Hin.
  - exfalso. eauto using user_not_assistant.
Qed.

(** X21. Regenerating an answer, on a page of plain messages (the messages
    shown are plain text, the page has no element of its own with the id of
    the typing indicator) and for a last user turn of a single line of
    plain text, which the input gives back as it was assigned.  The
    assistant turn at the end of the history is dropped and the last agent
    message leaves the page; the text of the last user turn is put into
    the input and sent again.  The user turn it came from is still in the
    history, so the request carries that message twice and the page shows
    it a second time. *)
Theorem regenerate_sends_user_turn_again :
  forall (s : State Chat.Vars) (msg : Turn) (input : Element)
         (o : FetchOutcome),
    let h := Chat.conversationHistory (vars s) in
    let text := trim (content msg) in
    Chat.lastUserMsg h = Some msg ->
    Chat.ends_with_assistant h = true ->
    dom (browser s) "messageInput" = Some input ->
    present (dom (browser s)) "chatMessages" = true ->
    Chat.typing_indicator_present (browser s) = false ->
    plain_page (browser s) = true ->
    single_line (content msg) = true ->
    plain_markup (Chat.replace_newlines text) = true ->
    truthy text = true ->
    exists s' l answer more,
      Chat.regenerateMessage o s = (Ok tt, s', l)
      /\ In msg (removelast h)
      /\ fetches l
         = [{| req_url := js "/api/generate/";
               req_method := "POST";
               req_content_type := Some (js "application/json");
               req_credentials := Some (js "include");
               req_body := JsonGenerate text
                 (slice_last 10
                    (removelast h ++ [{| role := user; content := text |}]))
            |}]
      /\ Chat.conversationHistory (vars s')
         = removelast h ++ [{| role := user; content := text |}] ++ more
      /\ messages_of (browser s')
         = Chat.remove_last Chat.is_agent_message (messages_of (browser s))
           ++ [MessageDiv "user" (Chat.replace_newlines text) false; answer].
Proof.
  intros s msg input o h text Hl He Hin Hc Hty _ _ _ Ht.
  set (input' := apply_write (SetValue (content msg)) input).
  set (sb := {| vars := Chat.set_conversationHistory (removelast h) (vars s);
                browser := Chat.remove_last_agent_message (browser s) |}).
  set (sc := with_dom (dom_set "messageInput" (Some input') (dom (browser sb)))
               sb).
  assert (Hinb : dom (browser sb) "messageInput" = Some input).
  { cbn. rewrite remove_last_agent_message_dom by discriminate. exact Hin. }
  assert (Hmc : messages_of (browser sc)
                = Chat.remove_last Chat.is_agent_message
                    (messages_of (browser s))).
  { rewrite <- remove_last_agent_message_messages. unfold messages_of.
    cbn. reflexivity. }
  destruct (chat_exchange_run input' o sc) as
    (s' & l & answer & more & E & Hf & Hh & Hm & _).
  { apply dom_set_same. }
  { exact Ht. }
  { cbn. unfold present. rewrite dom_set_other by discriminate.
    pose proof (remove_last_agent_message_same (browser s) "chatMessages")
      as H. unfold present in H. rewrite H. exact Hc. }
  { rewrite typing_indicator_messages in *. rewrite Hmc.
    now apply existsb_remove_last. }
  exists s', ([Dom_ "messageInput" (SetValue (content msg))] ++ l).
  exists answer, more. split.
  { unfold Chat.regenerateMessage.
    eapply bind_run_as; [reflexivity | | reflexivity].
    fold h. rewrite Hl, He.
    eapply bind_run_as; [reflexivity | | reflexivity].
    eapply bind_run_as; [apply getElementById_run | | reflexivity].
    cbn [browser with_vars]. rewrite Hc.
    eapply bind_run_as; [reflexivity | | reflexivity].
    eapply bind_run_as with (a := true) (s1 := sb) (l1 := []);
      [ | | reflexivity].
    { rewrite getElementById_run. unfold present. cbn [browser].
      rewrite remove_last_agent_message_dom by discriminate.
      now rewrite Hin. }
    rewrite when_true.
    eapply bind_run_as; [apply write_run; exact Hinb | | reflexivity].
    apply try_catch_ok. exact E. }
  splits.
  - now apply lastUserMsg_stays.
  - rewrite fetches_app, Hf. reflexivity.
  - rewrite Hh. reflexivity.
  - rewrite Hm, Hmc. reflexivity.
Qed.

Lemma regenerate_sends_user_turn_again_witness :
  let shown := [MessageDiv "agent" "welcome" false;
                MessageDiv "user" "hi" false;
                MessageDiv "agent" "hello" true] in
  let s := {| vars := Chat.set_conversationHistory
                        [{| role := user; content := "hi" |};
                         {| role := assistant; content := "hello" |}]
                        (vars chat0);
              browser := browser (chat_page shown empty) |} in
  exists s' l answer more,
    Chat.regenerateMessage (FetchRejected JsEvent) s = (Ok tt, s', l)
    /\ Chat.conversationHistory (vars s')
       = [{| role := user; content := "hi" |};
          {| role := user; content := "hi" |}] ++ more
    /\ messages_of (browser s')
       = [MessageDiv "agent" "welcome" false; MessageDiv "user" "hi" false;
          MessageDiv "user" "hi" false; answer].
Proof.
  intros shown s.
  destruct (regenerate_sends_user_turn_again s
              {| role := user; content := "hi" |} blank_element
              (FetchRejected JsEvent) eq_refl eq_refl eq_refl eq_refl eq_refl
              eq_refl eq_refl eq_refl eq_refl)
    as (s' & l & answer & more & E & _ & _ & Hh & Hm).
  exists s', l, answer, more.
  split; [exact E | split; [exact Hh | exact Hm]].
Defined.

(** X22. Nothing to regenerate.  With no user turn in the history no request
    is made and the history is left alone; the page says so in a system
    message. *)
Theorem regenerate_needs_a_user_turn :
  forall (s : State Chat.Vars) (o : FetchOutcome),
    existsb Chat.is_user (Chat.conversationHistory (vars s)) = false ->
    present (dom (browser s)) "chatMessages" = true ->
    exists s' l,
      Chat.regenerateMessage o s = (Ok tt, s', l)
      /\ fetches l = []
      /\ Chat.conversationHistory (vars s') = Chat.conversationHistory (vars s)
      /\ messages_of (browser s')
         = messages_of (browser s)
           ++ [MessageDiv "system" "No previous message to regenerate" false].
Proof.
  intros s o Hu Hc.
  destruct (addMessage_run "system" "No previous message to regenerate" false
              s Hc) as (d' & E & _ & _ & Hm).
  assert (Hl : Chat.lastUserMsg (Chat.conversationHistory (vars s)) = None).
  { unfold Chat.lastUserMsg.
    induction (Chat.conversationHistory (vars s)) as [|t h IH];
      [reflexivity|].
    cbn in Hu |- *. destruct (Chat.is_user t); [discriminate|]. now apply IH. }
  eexists _, _. split.
  { unfold Chat.regenerateMessage.
    eapply bind_run_as; [reflexivity | | reflexivity].
    rewrite Hl. exact E. }
  cbn [browser vars with_dom with_vars]. splits; try reflexivity.
  exact Hm.
Qed.

Lemma regenerate_needs_a_user_turn_witness :
  exists s' l,
    Chat.regenerateMessage (FetchRejected JsEvent) chat0 = (Ok tt, s', l)
    /\ fetches l = []
    /\ messages_of (browser s')
       = [MessageDiv "system" "No previous message to regenerate" false].
Proof.
  destruct (regenerate_needs_a_user_turn chat0 (FetchRejected JsEvent)
              eq_refl eq_refl)
    as (s' & l & E & Hf & _ & Hm).
  exists s', l. split; [exact E | split; [exact Hf | exact Hm]].
Defined.

(** ** Spoken messages on the chat page *)

Lemma speech_calls_app l1 l2 :
  speech_calls (l1 ++ l2) = speech_calls l1 ++ speech_calls l2.
Proof. apply filter_app. Qed.

Lemma dom_log_speech_calls l : dom_log l -> speech_calls l = [].
Proof.
  unfold dom_log. induction l as [|e l IH]; [reflexivity|].
  destruct e; cbn; try discriminate. exact IH.
Qed.

(** [sendVoiceMessage] up to its request. *)
Lemma voice_sent_run text (s : State Chat.Vars) :
  blank text = false ->
  present (dom (browser s)) "chatMessages" = true ->
  let turn := {| role := user; content := text |} in
  exists s1 l1,
    Chat.sendVoiceMessage_send text s
    = (Ok (Some "typing-indicator"%string), s1,
       l1 ++ [Fetch (Chat.voice_ask_request (Chat.push_turn turn (vars s))
                       text)])
    /\ dom_log l1
    /\ vars s1
       = Chat.set_messageHistory
           (Chat.messageHistory (vars s) ++ [(js "user", text)])
           (Chat.push_turn turn (vars s))
    /\ messages_of (browser s1)
       = messages_of (browser s)
         ++ [MessageDiv "user" (Chat.replace_newlines text) false; TypingDiv]
    /\ same_elements (dom (browser s)) (dom (browser s1))
    /\ speechSynthesis (browser s1) = speechSynthesis (browser s).
Proof.
  intros Hb Hc turn.
  set (s0 := with_vars (Chat.push_turn turn (vars s)) s).
  destruct (addMessage_run "user" text false s0 Hc)
    as (d1 & E1 & Hs1 & Hf1 & Hm1).
  destruct (showTypingIndicator_run (with_dom d1
              (with_vars (Chat.set_messageHistory
                            (Chat.messageHistory (vars s0)
                             ++ [(js "user", text)]) (vars s0)) s0)))
    as (d2 & E2 & Hs2 & Hf2 & Hm2); [cbn; now rewrite Hs1|].
  cbn [browser dom set_dom with_dom with_vars] in Hs2, Hf2, Hm2.
  eexists _,
    [Dom_ "chatMessages"
       (AppendChild (MessageDiv "user" (Chat.replace_newlines text)
                       (false && jseqb "user" "agent")));
     Dom_ "chatMessages" ScrollToBottom;
     Dom_ "chatMessages" (AppendChild TypingDiv);
     Dom_ "chatMessages" ScrollToBottom].
  split.
  { unfold Chat.sendVoiceMessage_send. rewrite Hb.
    eapply bind_run_as; [reflexivity | | reflexivity].
    eapply bind_run_as; [exact E1 | | reflexivity].
    eapply bind_run_as; [exact E2 | | reflexivity].
    eapply bind_run_as; [reflexivity | | reflexivity].
    eapply bind_run_as; [reflexivity | reflexivity | reflexivity]. }
  cbn [browser vars with_dom with_vars set_dom dom speechSynthesis].
  splits.
  - reflexivity.
  - reflexivity.
  - unfold messages_of in *. cbn [dom set_dom browser with_vars] in *.
    rewrite Hm2, Hm1, <- app_assoc. reflexivity.
  - eauto using same_elements_trans.
  - reflexivity.
Qed.

(** X23. A spoken message that is answered, on a page of plain messages
    (the messages shown and the text heard are plain text, and the page has
    no element of its own with the id of the typing indicator).  The text
    goes to the voice endpoint under [window.API_BASE], which prints as
    undefined when no script has set it.  The history gains the user turn and the assistant
    turn, the page the two messages, the agent's one without action
    buttons.  The answer is read out, after a cancel of whatever is being
    spoken, if and only if voice is enabled and the browser has a speech
    synthesiser. *)
Theorem voice_reply_is_spoken_when_enabled :
  forall (s : State Chat.Vars) (text : jsstring) (r : Response) (data : Reply),
    forallb isWhiteSpace text = false ->
    present (dom (browser s)) "chatMessages" = true ->
    Chat.typing_indicator_present (browser s) = false ->
    plain_page (browser s) = true ->
    plain_markup (Chat.replace_newlines text) = true ->
    ok r = true -> json r = JsonOk data -> success data = true ->
    let h := Chat.conversationHistory (vars s) in
    let spoken :=
      Chat.voiceEnabled (vars s)
      && match speechSynthesis (browser s) with
         | Some _ => true
         | None => false
         end in
    exists s' l,
      Chat.sendVoiceMessage text (FetchResolved r) s = (Ok tt, s', l)
      /\ fetches l
         = [{| req_url := match Chat.window_API_BASE (vars s) with
                          | Some base => base
                          | None => js "undefined"
                          end +++ "/voice/ask/";
               req_method := "POST";
               req_content_type := Some (js "application/json");
               req_credentials := Some (js "include");
               req_body := JsonAsk text
                 (slice_last 10 (h ++ [{| role := user; content := text |}]))
            |}]
      /\ Chat.conversationHistory (vars s')
         = h ++ [{| role := user; content := text |};
                 {| role := assistant; content := response_text data |}]
      /\ messages_of (browser s')
         = messages_of (browser s)
           ++ [MessageDiv "user" (Chat.replace_newlines text) false;
               MessageDiv "agent"
                 (Chat.replace_newlines (response_text data)) false]
      /\ speech_calls l
         = (if spoken
            then [SpeechCancel;
                  SpeechSpeak (Chat.new_utterance (response_text data))]
            else [])
      /\ (spoken = true ->
          Chat.speaking_now (browser s')
          = Some (Chat.new_utterance (response_text data))).
Proof.
  intros s text r data Hb Hc Hty _ _ Hok Hjson Hsucc h spoken.
  rewrite <- blank_whitespace in Hb.
  destruct (voice_sent_run text s Hb Hc)
    as (s1 & l1 & E1 & Hl1 & Hv1 & Hm1 & Hs1 & Hsp1).
  destruct (hideTypingIndicator_run "typing-indicator" s1)
    as (d2 & l2 & E2 & Hs2 & Hl2 & Hf2 & Hm2).
  set (turn := {| role := assistant; content := response_text data |}).
  destruct (addMessage_run "agent" (response_text data) false
              (with_vars (Chat.push_turn turn (vars s1)) (with_dom d2 s1)))
    as (d3 & E3 & Hs3 & Hf3 & Hm3); [cbn; now rewrite Hs2, Hs1|].
  cbn [browser with_dom with_vars dom set_dom vars] in Hs3, Hf3, Hm3.
  rewrite typing_indicator_messages in Hty.
  assert (Hmsgs : messages_of (set_dom d3 (browser s1))
                  = messages_of (browser s)
                    ++ [MessageDiv "user" (Chat.replace_newlines text) false;
                        MessageDiv "agent"
                          (Chat.replace_newlines (response_text data))
                          false]).
  { unfold messages_of in *. cbn [dom set_dom] in *.
    rewrite Hm3, Hm2, Hm1, remove_typing_after by auto.
    now rewrite <- app_assoc. }
  assert (Hve : Chat.voiceEnabled (vars s1) = Chat.voiceEnabled (vars s))
    by now rewrite Hv1.
  subst spoken.
  destruct (memory_extracted data) eqn:Hmem.
  all: destruct (Chat.voiceEnabled (vars s)) eqn:Hen;
    destruct (speechSynthesis (browser s)) as [q|] eqn:Hq;
    cbn [andb].
  all: match goal with
       | _ : Chat.voiceEnabled _ = true,
         _ : speechSynthesis _ = Some _ |- _ =>
           exists {| vars := Chat.set_messageHistory
                               (Chat.messageHistory (vars s1)
                                ++ [(js "agent", response_text data)])
                               (Chat.push_turn turn (vars s1));
                     browser := set_speechSynthesis
                                  (Some [Chat.new_utterance
                                           (response_text data)])
                                  (set_dom d3 (browser s1)) |}
       | _ =>
           exists {| vars := Chat.set_messageHistory
                               (Chat.messageHistory (vars s1)
                                ++ [(js "agent", response_text data)])
                               (Chat.push_turn turn (vars s1));
                     browser := set_dom d3 (browser s1) |}
       end.
  all: eexists; split;
    [ unfold Chat.sendVoiceMessage;
      eapply bind_run_as; [exact E1 | | reflexivity];
      unfold Chat.sendVoiceMessage_settle; apply try_catch_ok;
      eapply bind_run_as; [reflexivity | | reflexivity];
      rewrite Hok; cbn [negb];
      eapply bind_run_as;
        [unfold response_json; rewrite Hjson; reflexivity | | reflexivity];
      eapply bind_run_as; [exact E2 | | reflexivity];
      rewrite Hsucc;
      eapply bind_run_as; [reflexivity | | reflexivity];
      eapply bind_run_as; [exact E3 | | reflexivity];
      eapply bind_run_as; [reflexivity | | reflexivity];
      eapply bind_run_as; [reflexivity | | reflexivity];
      cbn [vars browser with_dom with_vars Chat.voiceEnabled
           Chat.set_messageHistory Chat.push_turn
           Chat.set_conversationHistory speechSynthesis set_dom];
      rewrite Hve, Hsp1, ?Hq; cbn [andb];
      first
        [ eapply bind_run_as;
          [rewrite when_true; apply speakResponse_run with (q := q); cbn;
           now rewrite Hsp1
          | rewrite Hmem; reflexivity | reflexivity]
        | eapply bind_run_as;
          [reflexivity | rewrite Hmem; reflexivity | reflexivity] ]
    | ].
  all: splits;
    [ rewrite !fetches_app, (dom_log_fetches l1 Hl1), (dom_log_fetches l2 Hl2);
      reflexivity
    | cbn [vars]; rewrite Hv1; cbn; now rewrite <- app_assoc
    | exact Hmsgs
    | rewrite !speech_calls_app, (dom_log_speech_calls l1 Hl1),
        (dom_log_speech_calls l2 Hl2); reflexivity
    | first [discriminate | reflexivity] ].
Qed.

Lemma voice_reply_is_spoken_when_enabled_witness :
  exists s' l,
    Chat.sendVoiceMessage "hi" (FetchResolved (http_ok (success_data "hello" None)))
      (chat_page [MessageDiv "agent" "welcome" false] empty) = (Ok tt, s', l)
    /\ speech_calls l = [SpeechCancel; SpeechSpeak (Chat.new_utterance "hello")]
    /\ map req_url (fetches l) = [js "undefined/voice/ask/"].
Proof.
  destruct (voice_reply_is_spoken_when_enabled
              (chat_page [MessageDiv "agent" "welcome" false] empty) "hi"
              (http_ok (success_data "hello" None)) (success_data "hello" None)
              eq_refl eq_refl eq_refl eq_refl eq_refl eq_refl eq_refl eq_refl)
    as (s' & l & E & Hf & _ & _ & Hsp & _).
  exists s', l. split; [exact E | split; [exact Hsp | now rewrite Hf]].
Defined.

(** ** The file list of the onboarding page *)

Lemma append_items_run xs : forall (s : State Onboarding.Vars) e,
  dom (browser s) "fileList" = Some e ->
  exists d' l,
    forEach xs (fun '(file, index) =>
      write "fileList"
        (AppendChild (FileItem (file_name file)
                        (N.of_nat (Onboarding.file_size file)) index))) s
    = (Ok tt, with_dom d' s, l)
    /\ dom_log l
    /\ same_elements (dom (browser s)) d'
    /\ (forall id, id <> "fileList" -> d' id = dom (browser s) id)
    /\ option_map children (d' "fileList")
       = Some (children e ++ map file_item xs).
Proof.
  induction xs as [|[file index] xs IH]; intros s e He.
  - exists (dom (browser s)), []. split; [now rewrite with_dom_same|].
    splits; try reflexivity.
    + apply same_elements_refl.
    + rewrite He. cbn. now rewrite app_nil_r.
  - cbn [forEach].
    set (n := FileItem (file_name file) (N.of_nat (Onboarding.file_size file))
                index).
    set (d1 := dom_set "fileList" (Some (apply_write (AppendChild n) e))
                 (dom (browser s))).
    destruct (IH (with_dom d1 s) (apply_write (AppendChild n) e))
      as (d' & l & E & Hl & Hs & Hf & Hc); [apply dom_set_same|].
    cbn [browser with_dom dom set_dom] in Hs, Hf, Hc.
    exists d', (Dom_ "fileList" (AppendChild n) :: l). split.
    { eapply bind_run_as; [apply write_run; exact He | exact E | reflexivity]. }
    splits.
    + exact Hl.
    + eapply same_elements_trans; [|exact Hs].
      eapply dom_set_present. exact He.
    + intros id H. rewrite Hf by assumption. subst d1.
      now rewrite dom_set_other by congruence.
    + rewrite Hc. cbn. now rewrite <- app_assoc.
Qed.

Lemma updateFileList_run (s : State Onboarding.Vars) :
  present (dom (browser s)) "fileList" = true ->
  exists d' l,
    Onboarding.updateFileList s = (Ok tt, with_dom d' s, l)
    /\ dom_log l
    /\ same_elements (dom (browser s)) d'
    /\ (forall id, id <> "fileList" -> d' id = dom (browser s) id)
    /\ option_map children (d' "fileList")
       = Some (file_items (Onboarding.selectedFiles (vars s))).
Proof.
  intros Hp. destruct (present_true _ _ Hp) as (e & He).
  set (d1 := dom_set "fileList" (Some (apply_write ClearChildren e))
               (dom (browser s))).
  destruct (append_items_run
              (combine (Onboarding.selectedFiles (vars s))
                 (seq 0 (length (Onboarding.selectedFiles (vars s)))))
              (with_dom d1 s) (apply_write ClearChildren e))
    as (d' & l & E & Hl & Hs & Hf & Hc); [apply dom_set_same|].
  cbn [browser with_dom dom set_dom] in Hs, Hf, Hc.
  exists d', (Dom_ "fileList" ClearChildren :: l). split.
  { unfold Onboarding.updateFileList.
    eapply bind_run_as; [apply write_run; exact He | | reflexivity].
    eapply bind_run_as; [reflexivity | exact E | reflexivity]. }
  splits.
  - exact Hl.
  - eapply same_elements_trans; [|exact Hs]. eapply dom_set_present. exact He.
  - intros id H. rewrite Hf by assumption. subst d1.
    now rewrite dom_set_other by congruence.
  - rewrite Hc. reflexivity.
Qed.

(** The page after the selection changed: the list and the button. *)
Lemma refresh_run (s : State Onboarding.Vars) :
  present (dom (browser s)) "fileList" = true ->
  present (dom (browser s)) "uploadBtn" = true ->
  exists d' l,
    (Onboarding.updateFileList ;; Onboarding.updateUploadButton) s
    = (Ok tt, with_dom d' s, l)
    /\ dom_log l
    /\ same_elements (dom (browser s)) d'
    /\ (forall id, id <> "fileList" -> id <> "uploadBtn" ->
          d' id = dom (browser s) id)
    /\ option_map children (d' "fileList")
       = Some (file_items (Onboarding.selectedFiles (vars s)))
    /\ option_map disabled (d' "uploadBtn")
       = Some (Nat.eqb (length (Onboarding.selectedFiles (vars s))) 0).
Proof.
  intros Hl Hb.
  destruct (updateFileList_run s Hl) as (d1 & l1 & E1 & Hl1 & Hs1 & Hf1 & Hc1).
  assert (Hb1 : present d1 "uploadBtn" = true) by now rewrite Hs1.
  destruct (present_true _ _ Hb1) as (e & He).
  exists (dom_set "uploadBtn"
            (Some (apply_write
                     (SetDisabled
                        (Nat.eqb (length (Onboarding.selectedFiles (vars s)))
                           0)) e)) d1).
  eexists. split.
  { eapply bind_run_as; [exact E1 | | reflexivity].
    unfold Onboarding.updateUploadButton.
    eapply bind_run_as; [reflexivity | | reflexivity].
    rewrite (write_run _ "uploadBtn" _ e (with_dom d1 s) He). reflexivity. }
  cbn [browser with_dom dom set_dom vars]. splits.
  - dom_log_tac.
  - eapply same_elements_trans; [exact Hs1|]. eapply dom_set_present.
    exact He.
  - intros id H1 H2. rewrite dom_set_other by congruence. now apply Hf1.
  - rewrite dom_set_other by discriminate. exact Hc1.
  - now rewrite dom_set_same.
Qed.

Lemma handleFiles_loop_run files : forall (s : State Onboarding.Vars),
  exists s',
    forEach files Onboarding.handleFiles_each s = (Ok tt, s', [])
    /\ browser s' = browser s
    /\ Onboarding.selectedFiles (vars s')
       = add_files files (Onboarding.selectedFiles (vars s)).
Proof.
  induction files as [|file files IH]; intros s.
  - exists s. splits; reflexivity.
  - cbn [forEach add_files fold_left]. unfold add_file at 2.
    destruct (existsb (Onboarding.same_name_size file)
                (Onboarding.selectedFiles (vars s))) eqn:E.
    + destruct (IH s) as (s' & E' & Hb & Hsel). exists s'. split.
      { eapply bind_run_as with (l1 := []); [ | exact E' | reflexivity].
        unfold Onboarding.handleFiles_each.
        eapply bind_run_as; [reflexivity | | reflexivity].
        rewrite E. reflexivity. }
      split; assumption.
    + destruct (IH (with_vars (Onboarding.set_selectedFiles
                                 (Onboarding.selectedFiles (vars s) ++ [file])
                                 (vars s)) s))
        as (s' & E' & Hb & Hsel).
      exists s'. split.
      { eapply bind_run_as with (l1 := []); [ | exact E' | reflexivity].
        unfold Onboarding.handleFiles_each.
        eapply bind_run_as; [reflexivity | | reflexivity].
        rewrite E. reflexivity. }
      split; assumption.
Qed.

(** X24. The file list follows the selection.  After files are added and
    after a file is removed, on a page that has the list and the upload
    button, the list shows one entry per selected file, in the order of the
    selection and each with its current position, whatever it showed
    before; the upload button is disabled exactly when nothing is
    selected. *)
Theorem file_list_mirrors_selection :
  forall (s : State Onboarding.Vars),
    present (dom (browser s)) "fileList" = true ->
    present (dom (browser s)) "uploadBtn" = true ->
    let shown (s' : State Onboarding.Vars) :=
      file_list_of (browser s')
      = Some (file_items (Onboarding.selectedFiles (vars s')))
      /\ upload_disabled (browser s')
         = Some (match Onboarding.selectedFiles (vars s') with
                 | [] => true
                 | _ :: _ => false
                 end) in
    (forall files, exists s' l,
        Onboarding.handleFiles files s = (Ok tt, s', l) /\ shown s')
    /\ (forall index, exists s' l,
          Onboarding.removeFile index s = (Ok tt, s', l) /\ shown s').
Proof.
  intros s Hl Hb shown. subst shown. split.
  - intros files.
    destruct (handleFiles_loop_run files s) as (s1 & E1 & Hb1 & Hsel).
    destruct (refresh_run s1) as (d' & l & E & _ & _ & _ & Hc & Hd);
      [now rewrite Hb1 | now rewrite Hb1 |].
    exists (with_dom d' s1), l. split.
    { unfold Onboarding.handleFiles.
      eapply bind_run_as; [exact E1 | exact E | reflexivity]. }
    unfold file_list_of, upload_disabled. cbn [browser with_dom set_dom dom vars].
    rewrite Hc, Hd. split; [reflexivity|].
    now destruct (Onboarding.selectedFiles (vars s1)).
  - intros index.
    set (s1 := with_vars
                 (Onboarding.set_selectedFiles
                    (firstn index (Onboarding.selectedFiles (vars s))
                     ++ skipn (S index) (Onboarding.selectedFiles (vars s)))
                    (vars s)) s).
    destruct (refresh_run s1) as (d' & l & E & _ & _ & _ & Hc & Hd);
      [exact Hl | exact Hb |].
    exists (with_dom d' s1), l. split.
    { unfold Onboarding.removeFile.
      eapply bind_run_as; [reflexivity | exact E | reflexivity]. }
    unfold file_list_of, upload_disabled. cbn [browser with_dom set_dom dom vars].
    rewrite Hc, Hd. split; [reflexivity|].
    now destruct (Onboarding.selectedFiles (vars s1)).
Qed.

Lemma file_list_mirrors_selection_witness :
  exists s' l,
    Onboarding.handleFiles
      [{| file_data := [Byte.x01]; file_name := "cv.pdf";
          file_type := "application/pdf" |}] onboarding0 = (Ok tt, s', l)
    /\ file_list_of (browser s') = Some [FileItem "cv.pdf" 1 0]
    /\ upload_disabled (browser s') = Some false.
Proof.
  pose proof (file_list_mirrors_selection onboarding0 eq_refl eq_refl) as H.
  cbv zeta in H. destruct H as (H & _).
  destruct (H [{| file_data := [Byte.x01]; file_name := "cv.pdf";
                  file_type := "application/pdf" |}])
    as (s' & l & E & Hc & Hd).
  exists s', l. split; [exact E|].
  assert (Hsel : Onboarding.selectedFiles (vars s')
                 = [{| file_data := [Byte.x01]; file_name := "cv.pdf";
                       file_type := "application/pdf" |}]).
  { pose proof (handleFiles_selected
                  [{| file_data := [Byte.x01]; file_name := "cv.pdf";
                      file_type := "application/pdf" |}] onboarding0) as Hs.
    rewrite E in Hs. exact Hs. }
  rewrite Hsel in Hc, Hd. split; [exact Hc | exact Hd].
Defined.

(** ** The selection *)

Lemma removeFile_selected index (s : State Onboarding.Vars) :
  Onboarding.selectedFiles (vars (state_of (Onboarding.removeFile index s)))
  = firstn index (Onboarding.selectedFiles (vars s))
    ++ skipn (S index) (Onboarding.selectedFiles (vars s)).
Proof.
  unfold Onboarding.removeFile. unfold bind at 1. unfold modify_vars at 1.
  pose proof (keeps_vars_bind _ _ _ Onboarding.updateFileList
                (fun _ : unit => Onboarding.updateUploadButton)
                updateFileList_vars (fun _ => updateUploadButton_vars)) as Hk.
  match goal with |- context [bind Onboarding.updateFileList _ ?s1] =>
    specialize (Hk s1);
    destruct (bind Onboarding.updateFileList
                (fun _ : unit => Onboarding.updateUploadButton) s1)
      as [[r s2] l2]
  end.
  cbn in *. now rewrite Hk.
Qed.

Lemma jseqb_sym a b : jseqb a b = jseqb b a.
Proof.
  unfold jseqb. destruct (list_eq_dec N.eq_dec a b),
    (list_eq_dec N.eq_dec b a); congruence.
Qed.

Lemma same_name_size_sym f g :
  Onboarding.same_name_size f g = Onboarding.same_name_size g f.
Proof.
  unfold Onboarding.same_name_size. now rewrite jseqb_sym, Nat.eqb_sym.
Qed.

Lemma no_duplicate_files_snoc sel file :
  no_duplicate_files sel = true ->
  existsb (Onboarding.same_name_size file) sel = false ->
  no_duplicate_files (sel ++ [file]) = true.
Proof.
  induction sel as [|f sel IH]; [reflexivity|]. cbn. intros H Hf.
  apply andb_true_iff in H. destruct H as (H1 & H2).
  apply orb_false_iff in Hf. destruct Hf as (Hf1 & Hf2).
  rewrite existsb_app. cbn.
  rewrite (same_name_size_sym f file), Hf1, orb_false_r. rewrite H1.
  now apply IH.
Qed.

Lemma no_duplicate_files_add files : forall sel,
  no_duplicate_files sel = true ->
  no_duplicate_files (add_files files sel) = true.
Proof.
  unfold add_files. induction files as [|file files IH]; intros sel H;
    [exact H|].
  cbn. apply IH. unfold add_file.
  destruct (existsb (Onboarding.same_name_size file) sel) eqn:E;
    [exact H | now apply no_duplicate_files_snoc].
Qed.

Lemma existsb_firstn_skipn (A : Type) (p : A -> bool) i l :
  existsb p l = false -> existsb p (firstn i l ++ skipn (S i) l) = false.
Proof.
  revert i. induction l as [|x l IH]; intros i H.
  - now destruct i.
  - cbn in H. apply orb_false_iff in H. destruct H as (Hx & Hl).
    destruct i as [|i]; cbn.
    + exact Hl.
    + rewrite Hx. cbn. now apply (IH i).
Qed.

Lemma no_duplicate_files_remove i : forall sel,
  no_duplicate_files sel = true ->
  no_duplicate_files (firstn i sel ++ skipn (S i) sel) = true.
Proof.
  induction i as [|i IH]; intros [|f sel] H; try reflexivity.
  - cbn in *. now apply andb_true_iff in H.
  - change (no_duplicate_files (f :: (firstn i sel ++ skipn (S i) sel))
            = true).
    cbn [no_duplicate_files] in *.
    apply andb_true_iff in H. destruct H as (H1 & H2).
    apply negb_true_iff in H1.
    rewrite (existsb_firstn_skipn _ _ i sel H1). cbn [negb andb].
    now apply IH.
Qed.

(** X25. The selection never holds a file twice.  A selection in which no
    two files have the same name and size stays so when files are added,
    whatever they are and whether or not the page can show them, and when a
    file is removed. *)
Theorem selection_has_no_duplicates :
  forall (s : State Onboarding.Vars),
    no_duplicate_files (Onboarding.selectedFiles (vars s)) = true ->
    (forall files,
        no_duplicate_files
          (Onboarding.selectedFiles
             (vars (state_of (Onboarding.handleFiles files s)))) = true)
    /\ (forall index,
          no_duplicate_files
            (Onboarding.selectedFiles
               (vars (state_of (Onboarding.removeFile index s)))) = true).
Proof.
  intros s H. split.
  - intros files. rewrite handleFiles_selected.
    now apply no_duplicate_files_add.
  - intros index. rewrite removeFile_selected.
    now apply no_duplicate_files_remove.
Qed.

Lemma selection_has_no_duplicates_witness :
  no_duplicate_files
    (Onboarding.selectedFiles
       (vars (state_of
                (Onboarding.handleFiles
                   [{| file_data := [Byte.x01]; file_name := "cv.pdf";
                       file_type := "application/pdf" |};
                    {| file_data := [Byte.x02]; file_name := "cv.pdf";
                       file_type := "text/plain" |}] onboarding0)))) = true.
Proof.
  pose proof (selection_has_no_duplicates onboarding0 eq_refl) as H.
  exact (proj1 H _).
Defined.

Lemma add_files_appends files : forall sel,
  exists added,
    add_files files sel = sel ++ added
    /\ (forall f, In f added -> In f files)
    /\ (forall f, In f added ->
          existsb (Onboarding.same_name_size f) sel = false).
Proof.
  unfold add_files. induction files as [|file files IH]; intros sel.
  - exists []. splits; [now rewrite app_nil_r | intros f [] | intros f []].
  - cbn [fold_left]. unfold add_file at 2.
    destruct (existsb (Onboarding.same_name_size file) sel) eqn:E.
    + destruct (IH sel) as (added & Ha & Hin & Hnew).
      exists added. splits; auto. intros f Hf. right. auto.
    + destruct (IH (sel ++ [file])) as (added & Ha & Hin & Hnew).
      exists (file :: added). splits.
      * rewrite Ha, <- app_assoc. reflexivity.
      * intros f [<-|Hf]; [now left | right; auto].
      * intros f [<-|Hf]; [exact E|].
        specialize (Hnew f Hf). rewrite existsb_app in Hnew.
        now apply orb_false_iff in Hnew.
Qed.

(** X26. Adding files only appends.  The files already selected keep their
    places; what [handleFiles] adds comes after them, is taken from the
    incoming files and matches none of the files selected before. *)
Theorem handleFiles_appends_new_files :
  forall (s : State Onboarding.Vars) (files : list File),
    exists added,
      Onboarding.selectedFiles
        (vars (state_of (Onboarding.handleFiles files s)))
      = Onboarding.selectedFiles (vars s) ++ added
      /\ (forall f, In f added -> In f files)
      /\ (forall f, In f added ->
            existsb (Onboarding.same_name_size f)
              (Onboarding.selectedFiles (vars s)) = false).
Proof.
  intros s files. rewrite handleFiles_selected. apply add_files_appends.
Qed.

(** X27. Removing a file.  [removeFile] takes out the file at the given
    position and nothing else: the files before it keep their positions
    and the files after it move up by one.  A position past the end
    removes nothing, and removing the position at which a new file was
    just added gives back the selection as it was. *)
Theorem removeFile_takes_out_one_file :
  forall (s : State Onboarding.Vars) (index : nat),
    let sel := Onboarding.selectedFiles (vars s) in
    let sel' :=
      Onboarding.selectedFiles
        (vars (state_of (Onboarding.removeFile index s))) in
    (forall j, j < index -> nth_error sel' j = nth_error sel j)
    /\ (forall j, index <= j -> nth_error sel' j = nth_error sel (S j))
    /\ (length sel <= index -> sel' = sel)
    /\ (forall file,
          existsb (Onboarding.same_name_size file) sel = false ->
          index = length sel ->
          Onboarding.selectedFiles
            (vars (state_of
                     (Onboarding.removeFile index
                        (state_of (Onboarding.handleFiles [file] s)))))
          = sel).
Proof.
  intros s index sel sel'. subst sel'. rewrite removeFile_selected.
  fold sel. splits.
  - intros j Hj.
    destruct (Nat.le_gt_cases (length sel) index) as [Hlen|Hlen].
    + rewrite firstn_all2, skipn_all2, app_nil_r by lia. reflexivity.
    + rewrite nth_error_app1 by (rewrite length_firstn; lia).
      rewrite nth_error_firstn.
      destruct (Nat.ltb_spec j index); [reflexivity | lia].
  - intros j Hj.
    destruct (Nat.le_gt_cases (length sel) index) as [Hlen|Hlen].
    + rewrite firstn_all2, skipn_all2, app_nil_r by lia.
      transitivity (@None File); [|symmetry]; apply nth_error_None; lia.
    + rewrite nth_error_app2 by (rewrite length_firstn; lia).
      rewrite length_firstn, Nat.min_l by lia.
      rewrite nth_error_skipn. f_equal. lia.
  - intros Hlen. now rewrite firstn_all2, skipn_all2, app_nil_r by lia.
  - intros file Hnew ->. rewrite removeFile_selected, handleFiles_selected.
    fold sel. unfold add_files. cbn [fold_left]. unfold add_file.
    rewrite Hnew.
    rewrite firstn_app, Nat.sub_diag, firstn_all. cbn [firstn].
    rewrite skipn_all2 by (rewrite length_app; cbn; lia).
    now rewrite !app_nil_r.
Qed.
